(** * openeliot-node: time synchronisation and drift guard

    A shallow embedding of [src/src/rtc.cpp] (namespace [RTC]): the safety
    gate, the drift detector, the four time sources and the [sync]
    orchestrator, together with the parts of the platform they touch
    (tick counter, system clock, collaborators).

    Machine integers are [Z] with the wrap-around written out ([u32], [s32]),
    floating point is exact arithmetic followed by round-to-nearest-even,
    global variables live in a record that is threaded through a state
    monad, and every call to a collaborator is recorded in a trace. *)

From Stdlib Require Import ZArith Lia Bool List String Ascii.
From Stdlib Require Import Floats.SpecFloat.
Import ListNotations.
Local Open Scope Z_scope.

(* ================================================================== *)
(** * Machine integers *)
(* ================================================================== *)

Module Bits.

(** [uint32_t] / [unsigned long] on the 32-bit target: arithmetic modulo 2^32. *)
Definition u32 (x : Z) : Z := x mod 2 ^ 32.

(** [int] / [long] on the 32-bit target: the two's-complement reading of the
    low 32 bits.  Conversions from [uint32_t] to [int] are this function;
    signed overflow, undefined in C, is read the same way (what the
    target's compiler emits). *)
Definition s32 (x : Z) : Z := (x + 2 ^ 31) mod 2 ^ 32 - 2 ^ 31.

Definition ULONG_MAX : Z := 2 ^ 32 - 1.

End Bits.
Export Bits.

(* ================================================================== *)
(** * IEEE-754 arithmetic on non-negative values *)
(* ================================================================== *)

(** Every floating-point operand in [rtc.cpp] comes from an unsigned
    integer, so only non-negative finite values occur, all far inside the
    normal range.  A value is kept exactly, as [bf_m * 2 ^ bf_e]; an
    operation is the exact rational result rounded to nearest, ties to
    even, at [prec] significant bits (24 for [float], 53 for [double]). *)
Module IEEE.

Record binfloat := BF { bf_m : Z; bf_e : Z }.

(** The integer nearest to [a / b] ([b > 0]), ties to even. *)
Definition rne_div (a b : Z) : Z :=
  let q := a / b in
  match 2 * (a mod b) ?= b with
  | Lt => q
  | Gt => q + 1
  | Eq => if Z.even q then q else q + 1
  end.

(** [floor (log2 (a / b))] for [a, b > 0]. *)
Definition flog2 (a b : Z) : Z :=
  if b <=? a then Z.log2 (a / b) else - Z.log2_up ((b + a - 1) / a).

(** The [prec]-bit float nearest to the rational [a / b] ([a >= 0], [b > 0]). *)
Definition bf_round (prec a b : Z) : binfloat :=
  if a =? 0 then BF 0 0
  else
    let e := flog2 a b - (prec - 1) in
    BF (rne_div (a * 2 ^ Z.max 0 (- e)) (b * 2 ^ Z.max 0 e)) e.

(** Numerator and denominator of the exact value. *)
Definition bf_num (x : binfloat) : Z := bf_m x * 2 ^ Z.max 0 (bf_e x).
Definition bf_den (x : binfloat) : Z := 2 ^ Z.max 0 (- bf_e x).

(** Conversion of an unsigned integer, product and quotient. *)
Definition bf_of_Z (prec n : Z) : binfloat := bf_round prec n 1.
Definition bf_mul (prec : Z) (x y : binfloat) : binfloat :=
  bf_round prec (bf_num x * bf_num y) (bf_den x * bf_den y).
Definition bf_div (prec : Z) (x y : binfloat) : binfloat :=
  bf_round prec (bf_num x * bf_den y) (bf_den x * bf_num y).

(** Conversion to an integer type truncates; [ceil]; and [round], which
    rounds halves away from zero (both [std::round] and Arduino's
    [round(x)] macro, [(long)((x)+0.5)] for [x >= 0], do). *)
Definition bf_trunc (x : binfloat) : Z := bf_num x / bf_den x.
Definition bf_ceil (x : binfloat) : Z := - ((- bf_num x) / bf_den x).
Definition bf_round_half_away (x : binfloat) : Z :=
  (2 * bf_num x + bf_den x) / (2 * bf_den x).

(** Same value, whatever the representation. *)
Definition bf_eqb (x y : binfloat) : bool :=
  bf_num x * bf_den y =? bf_num y * bf_den x.

Definition float_prec : Z := 24.
Definition double_prec : Z := 53.

(** The literal [0.05] is the [double] nearest to 5/100. *)
Definition dbl_0_05 : binfloat := bf_round double_prec 5 100.

(** Its mantissa: [dbl_0_05] is [c57 * 2 ^ -57], and [20 * c57 = 2 ^ 57 + 8]. *)
Definition c57 : Z := 7205759403792794.

(** Reading of a finite non-negative [spec_float] of the standard library's
    IEEE specification, used to validate the operations above. *)
Definition of_spec_float (f : spec_float) : option binfloat :=
  match f with
  | S754_zero false => Some (BF 0 0)
  | S754_finite false m e => Some (BF (Z.pos m) e)
  | _ => None
  end.

Definition opt_bf_eqb (x : binfloat) (y : option binfloat) : bool :=
  match y with
  | Some y' => bf_eqb x y'
  | None => false
  end.

(** The two computations of [rtc.cpp] written with the standard library's
    operations, and the inputs on which both versions are compared. *)
Definition spec_float_seconds (ms : Z) : spec_float :=
  SFdiv 24 128 (binary_normalize 24 128 ms 0 false) (binary_normalize 24 128 1000 0 false).

Definition spec_double_5_percent (n : Z) : spec_float :=
  SFmul 53 1024 (binary_normalize 53 1024 n 0 false)
    (SFdiv 53 1024 (binary_normalize 53 1024 5 0 false) (binary_normalize 53 1024 100 0 false)).

Fixpoint count_down (n : nat) : list Z :=
  match n with
  | O => []
  | S k => Z.of_nat k :: count_down k
  end.

Definition sample_ms : list Z :=
  count_down 3000 ++ map (fun k => 16777000 + k) (count_down 500)
    ++ map (fun k => 4294967295 - 7919 * k) (count_down 500).

Definition sample_seconds : list Z :=
  count_down 1000 ++ map (fun k => 4294967 - 1201 * k) (count_down 500).

End IEEE.

(* ================================================================== *)
(** * The C library's [sscanf(s, "%u", &v)] *)
(* ================================================================== *)

Module Libc.

Definition is_digit (c : ascii) : bool :=
  let n := Z.of_nat (nat_of_ascii c) in (48 <=? n) && (n <=? 57).

Definition digit_val (c : ascii) : Z := Z.of_nat (nat_of_ascii c) - 48.

(** [isspace]: space, and the control characters \t \n \v \f \r. *)
Definition isspace (c : ascii) : bool :=
  let n := Z.of_nat (nat_of_ascii c) in (n =? 32) || ((9 <=? n) && (n <=? 13)).

Fixpoint skip_spaces (s : string) : string :=
  match s with
  | String c r => if isspace c then skip_spaces r else s
  | EmptyString => s
  end.

(** Value of the longest prefix of decimal digits, most significant first. *)
Fixpoint digits_value (s : string) (acc : Z) : Z :=
  match s with
  | String c r => if is_digit c then digits_value r (10 * acc + digit_val c) else acc
  | EmptyString => acc
  end.

Definition starts_with_digit (s : string) : bool :=
  match s with
  | String c _ => is_digit c
  | EmptyString => false
  end.

Fixpoint all_digits (s : string) : bool :=
  match s with
  | String c r => is_digit c && all_digits r
  | EmptyString => true
  end.

(** Length of the longest prefix of decimal digits. *)
Fixpoint digit_prefix_len (s : string) : nat :=
  match s with
  | String c r => if is_digit c then S (digit_prefix_len r) else O
  | EmptyString => O
  end.

(** The conversion [%u] into a 32-bit unsigned: white space is skipped, one
    sign is accepted, then at least one digit is required; without a digit
    nothing is stored and the variable keeps its old value [old].  The
    digits are converted as [strtoul] does: a value above [ULONG_MAX] is
    stored as [ULONG_MAX], otherwise a leading minus negates modulo 2^32. *)
Definition sscanf_u (s : string) (old : Z) : Z :=
  let s1 := skip_spaces s in
  let '(neg, s2) :=
    match s1 with
    | String c r =>
        if Ascii.eqb c "-" then (true, r)
        else if Ascii.eqb c "+" then (false, r)
        else (false, s1)
    | EmptyString => (false, s1)
    end in
  if starts_with_digit s2 then
    let v := digits_value s2 0 in
    if ULONG_MAX <? v then ULONG_MAX
    else if neg then u32 (- v) else v
  else old.

End Libc.

(* ================================================================== *)
(** * The platform: ticks, system clock, collaborators, trace *)
(* ================================================================== *)

Inductive RetResult := RET_OK | RET_ERROR.

Definition RetResult_eqb (a b : RetResult) : bool :=
  match a, b with
  | RET_OK, RET_OK | RET_ERROR, RET_ERROR => true
  | _, _ => false
  end.

(** The local enum of [sync]. *)
Inductive TIME_SOURCE :=
  TIME_SOURCE_OTHER | TIME_SOURCE_NTP | TIME_SOURCE_HTTP | TIME_SOURCE_GSM.

Definition TIME_SOURCE_value (s : TIME_SOURCE) : Z :=
  match s with
  | TIME_SOURCE_OTHER => 0
  | TIME_SOURCE_NTP => 1
  | TIME_SOURCE_HTTP => 2
  | TIME_SOURCE_GSM => 3
  end.

Inductive LogCode :=
  RTC_SYNC | RTC_DETECTED_UNSAFE_TIMECHANGE | RTC_DRIFT_DETECTED | WAKEUP_SELF_TEST_FAILED.

(** The functions of [rtc.cpp] that [sync] tries in turn. *)
Inductive SourceFn :=
  | FN_sync_time_from_http
  | FN_sync_gsm_rtc_from_ntp
  | FN_sync_time_from_gsm_rtc
  | FN_sync_time_from_ext_rtc.

(** What the code does to the world outside [rtc.cpp], newest event first in
    a trace.  [EvReturn] is a ghost event: it records the value a source
    function returned and corresponds to no call. *)
Inductive Event :=
  | EvGsmConnect                          (* GSM::connect_persist() *)
  | EvHttpGet                             (* HttpRequest::get() *)
  | EvNtpUpdate                           (* GSM::update_ntp_time() *)
  | EvGsmGetTime                          (* GSM::get_time() *)
  | EvExtRtcRead (epoch : Z)              (* _ext_rtc.GetDateTime().Epoch32Time() *)
  | EvExtRtcWrite (secs_since_2000 : Z)   (* _ext_rtc.SetDateTime() *)
  | EvSetTimeOfDay (tv_sec : Z) (ok : bool)  (* settimeofday() *)
  | EvLog (code : LogCode) (args : list Z)   (* Log::log() *)
  | EvGsmOn                               (* GSM::on() *)
  | EvExtRtcStart                         (* _ext_rtc.SetIsRunning(true) *)
  | EvExtRtcPins                          (* Enable32kHzPin(false), SetSquareWavePin(ModeNone) *)
  | EvReturn (fn : SourceFn) (r : RetResult).

(** The globals of namespace [RTC] and the two clocks of the chip.
    [uptime_ms] is the free-running millisecond counter; the system clock
    reads [boot_epoch_ms + uptime_ms] milliseconds since the epoch, and
    [settimeofday] is the only thing that moves [boot_epoch_ms]. *)
Record Sys := mkSys {
  uptime_ms : Z;
  boot_epoch_ms : Z;
  _last_sync_tick : Z;
  _last_drift_check_tstamp : Z;
  _last_drift_check_tick : Z;
  _timechange_safety_enabled : bool;
  trace : list Event
}.

(** Modelled from the spec: the compile-time constants of [const.h] and the
    flag [FLAGS.EXTERNAL_RTC_ENABLED], none of which is under src/ (the spec
    speaks of "two compile-time constants", "a fixed attempt count with a
    fixed inter-attempt delay" and "seconds since year 2000"). *)
Record Config := mkConfig {
  FAIL_CHECK_TIMESTAMP_START : Z;
  FAIL_CHECK_TIMESTAMP_END : Z;
  GSM_TRIES : nat;
  GSM_RETRY_DELAY_MS : N;
  SECONDS_IN_2000 : Z;
  EXTERNAL_RTC_ENABLED : bool
}.

(** The collaborators, as functions of the state in which they are called
    (which holds the whole history): what they answer and how many
    milliseconds the call takes. *)
Record Env := mkEnv {
  GSM_is_gprs_connected : Sys -> bool;
  GSM_connect_persist : Sys -> RetResult * N;
  GSM_on : Sys -> RetResult * N;
  (* Utils::url_explode on the constant HTTP_TIME_SYNC_URL *)
  url_explode : RetResult;
  (* HttpRequest::get: [None] is RET_ERROR, [Some body] the C string left in resp *)
  http_get : Sys -> option string * N;
  GSM_update_ntp_time : Sys -> RetResult * N;
  (* GSM::get_time: [None] is RET_ERROR, [Some t] with t = mktime(&tm_now) *)
  GSM_get_time : Sys -> option Z * N;
  (* what the external RTC chip reads *)
  ext_rtc_epoch : Sys -> Z;
  (* _ext_rtc.LastError() after a write *)
  ext_rtc_last_error : Sys -> Z;
  (* _ext_rtc.IsDateTimeValid(), _ext_rtc.GetIsRunning() *)
  ext_rtc_is_date_time_valid : Sys -> bool;
  ext_rtc_is_running : Sys -> bool;
  settimeofday_ok : Sys -> Z -> bool
}.

(** ** State monad *)

Definition M (A : Type) : Type := Sys -> A * Sys.

Definition ret {A} (a : A) : M A := fun st => (a, st).
Definition bind {A B} (m : M A) (k : A -> M B) : M B :=
  fun st => let '(a, st') := m st in k a st'.
Definition gets {A} (f : Sys -> A) : M A := fun st => (f st, st).
Definition modify (f : Sys -> Sys) : M unit := fun st => (tt, f st).

Declare Scope rtc_scope.
Delimit Scope rtc_scope with rtc.
Notation "x <- m ;; k" := (bind m (fun x => k))
  (at level 100, m at next level, right associativity) : rtc_scope.
Notation "' p <- m ;; k" := (bind m (fun x => let p := x in k))
  (at level 100, p pattern, m at next level, right associativity) : rtc_scope.
Notation "m ;; k" := (bind m (fun _ => k))
  (at level 100, right associativity) : rtc_scope.
Local Open Scope rtc_scope.

Definition when (b : bool) (m : M unit) : M unit := if b then m else ret tt.

(** ** Field updates *)

Definition set_trace (t : list Event) (st : Sys) : Sys :=
  mkSys (uptime_ms st) (boot_epoch_ms st) (_last_sync_tick st)
        (_last_drift_check_tstamp st) (_last_drift_check_tick st)
        (_timechange_safety_enabled st) t.
Definition set_uptime (u : Z) (st : Sys) : Sys :=
  mkSys u (boot_epoch_ms st) (_last_sync_tick st)
        (_last_drift_check_tstamp st) (_last_drift_check_tick st)
        (_timechange_safety_enabled st) (trace st).
Definition set_boot_epoch (b : Z) (st : Sys) : Sys :=
  mkSys (uptime_ms st) b (_last_sync_tick st)
        (_last_drift_check_tstamp st) (_last_drift_check_tick st)
        (_timechange_safety_enabled st) (trace st).
Definition set_last_sync_tick (v : Z) (st : Sys) : Sys :=
  mkSys (uptime_ms st) (boot_epoch_ms st) v
        (_last_drift_check_tstamp st) (_last_drift_check_tick st)
        (_timechange_safety_enabled st) (trace st).
Definition set_drift_check (tick tstamp : Z) (st : Sys) : Sys :=
  mkSys (uptime_ms st) (boot_epoch_ms st) (_last_sync_tick st)
        tstamp tick (_timechange_safety_enabled st) (trace st).
Definition set_safety (b : bool) (st : Sys) : Sys :=
  mkSys (uptime_ms st) (boot_epoch_ms st) (_last_sync_tick st)
        (_last_drift_check_tstamp st) (_last_drift_check_tick st) b (trace st).

(** ** Platform primitives *)

Definition emit (e : Event) : M unit := modify (fun st => set_trace (e :: trace st) st).

(** Time passes: the tick counter advances, and the system clock with it. *)
Definition elapse (ms : N) : M unit :=
  modify (fun st => set_uptime (uptime_ms st + Z.of_N ms) st).

(** [millis()]: the 32-bit tick counter. *)
Definition millis_of (st : Sys) : Z := u32 (uptime_ms st).
Definition millis : M Z := gets millis_of.

(** [time(NULL)]: whole seconds of the system clock. *)
Definition time_of (st : Sys) : Z := (boot_epoch_ms st + uptime_ms st) / 1000.

(** [settimeofday(&tv, NULL)] with [tv_usec = 0]; true when it returns 0. *)
Definition settimeofday (E : Env) (tv_sec : Z) : M bool :=
  fun st =>
    if settimeofday_ok E st tv_sec
    then (true, set_trace (EvSetTimeOfDay tv_sec true :: trace st)
                  (set_boot_epoch (tv_sec * 1000 - uptime_ms st) st))
    else (false, set_trace (EvSetTimeOfDay tv_sec false :: trace st) st).

(** A call to a collaborator that answers [A] after some milliseconds. *)
Definition call {A} (e : Event) (f : Sys -> A * N) : M A :=
  fun st =>
    let '(a, ms) := f st in
    (a, set_uptime (uptime_ms st + Z.of_N ms) (set_trace (e :: trace st) st)).

Definition returning (fn : SourceFn) (m : M RetResult) : M RetResult :=
  r <- m ;; emit (EvReturn fn r) ;; ret r.

(* ================================================================== *)
(** * namespace RTC (src/src/rtc.cpp) *)
(* ================================================================== *)

Module RTC.

Section WithPlatform.

Variable C : Config.
Variable E : Env.

(** [get_timestamp]: [time(NULL)] returned as [uint32_t]. *)
Definition get_timestamp_of (st : Sys) : Z := u32 (time_of st).
Definition get_timestamp : M Z := gets get_timestamp_of.

(** [get_external_rtc_timestamp]: one read of the chip. *)
Definition get_external_rtc_timestamp : M Z :=
  fun st =>
    let v := u32 (ext_rtc_epoch E st) in
    (v, set_trace (EvExtRtcRead v :: trace st) st).

Definition get_last_sync_tick : M Z := gets _last_sync_tick.

(** [tstamp_valid]: strictly between the two compile-time bounds. *)
Definition tstamp_valid (tstamp : Z) : bool :=
  (FAIL_CHECK_TIMESTAMP_START C <? tstamp) && (tstamp <? FAIL_CHECK_TIMESTAMP_END C).

Definition enable_timechange_safety (val : bool) : M unit := modify (set_safety val).

(** [reset_drift_check]. *)
Definition reset_drift_check : M unit :=
  tick <- millis ;;
  tstamp <- get_timestamp ;;
  modify (set_drift_check tick tstamp).

(** The tolerance of [check_timechange_safe] after [ms] milliseconds,
    [int tol = ceil(ms / 1000) * 0.05; tol = tol < 10 ? 10 : tol;]:
    the quotient is an unsigned integer division, [ceil] is applied to that
    integer (converted to [double]), the product with [0.05] is a [double]
    and the initialisation of the [int] truncates it. *)
Definition safe_tolerance (ms : Z) : Z :=
  let secs := ms / 1000 in
  let tol := s32 (IEEE.bf_trunc
                    (IEEE.bf_mul IEEE.double_prec
                       (IEEE.bf_of_Z IEEE.double_prec (IEEE.bf_ceil (IEEE.bf_of_Z IEEE.double_prec secs)))
                       IEEE.dbl_0_05)) in
  if tol <? 10 then 10 else tol.

(** [check_timechange_safe]: the comparisons are between [uint32_t], so
    [cur_tstamp - tol] and [cur_tstamp + tol] are taken modulo 2^32. *)
Definition check_timechange_safe (tstamp : Z) : M bool :=
  if negb (tstamp_valid tstamp) then ret false
  else
    safety <- gets _timechange_safety_enabled ;;
    if safety then
      if negb (EXTERNAL_RTC_ENABLED C) then ret true
      else
        cur_tstamp <- get_timestamp ;;
        now <- millis ;;
        last <- get_last_sync_tick ;;
        let tol := safe_tolerance (u32 (now - last)) in
        if (tstamp <? u32 (cur_tstamp - tol)) || (u32 (cur_tstamp + tol) <? tstamp)
        then emit (EvLog RTC_DETECTED_UNSAFE_TIMECHANGE [tstamp]) ;; ret false
        else ret true
    else ret true.

(** [set_system_time]: [tv_sec] is a 32-bit [time_t]. *)
Definition set_system_time (timestamp : Z) : M RetResult :=
  let tv_sec := s32 timestamp in
  if tv_sec =? -1 then ret RET_ERROR
  else
    ok <- settimeofday E tv_sec ;;
    if ok then ret RET_OK else ret RET_ERROR.

(** [set_external_rtc_time]. *)
Definition set_external_rtc_time (timestamp : Z) : M RetResult :=
  let secs_since_2000 := u32 (timestamp - SECONDS_IN_2000 C) in
  emit (EvExtRtcWrite secs_since_2000) ;;
  err <- gets (ext_rtc_last_error E) ;;
  if negb (err =? 0) then ret RET_ERROR else ret RET_OK.

(** [print_time]: serial output only, but it reads the chip once more. *)
Definition print_time : M unit :=
  _ <- get_external_rtc_timestamp ;; ret tt.

(** The loop of [sync_gsm_rtc_from_ntp],
    [while(tries--) { ret = update_ntp_time(); if(ret != RET_OK && tries - 1) delay(..); else break; }],
    entered with [tries] and the last [ret]. *)
Fixpoint ntp_loop (tries : nat) (last : RetResult) : M RetResult :=
  match tries with
  | O => ret last
  | S tries' =>
      r <- call EvNtpUpdate (GSM_update_ntp_time E) ;;
      if negb (RetResult_eqb r RET_OK) && negb (Z.of_nat tries' - 1 =? 0)
      then elapse (GSM_RETRY_DELAY_MS C) ;; ntp_loop tries' r
      else ret r
  end.

Definition sync_gsm_rtc_from_ntp : M RetResult :=
  returning FN_sync_gsm_rtc_from_ntp (ntp_loop (GSM_TRIES C) RET_ERROR).

(** The loop of [sync_time_from_gsm_rtc], of the same shape. *)
Fixpoint get_time_loop (tries : nat) (last : option Z) : M (option Z) :=
  match tries with
  | O => ret last
  | S tries' =>
      r <- call EvGsmGetTime (GSM_get_time E) ;;
      match r with
      | None =>
          if negb (Z.of_nat tries' - 1 =? 0)
          then elapse (GSM_RETRY_DELAY_MS C) ;; get_time_loop tries' None
          else ret None
      | Some t => ret (Some t)
      end
  end.

Definition sync_time_from_gsm_rtc : M RetResult :=
  returning FN_sync_time_from_gsm_rtc
    (r <- get_time_loop (GSM_TRIES C) None ;;
     match r with
     | None => ret RET_ERROR
     | Some mk =>
         let timestamp := u32 mk in
         safe <- check_timechange_safe timestamp ;;
         if negb safe then ret RET_ERROR
         else set_system_time (u32 mk)
     end).

(** [int offset_sec = round((float)(end_time_ms - start_time_ms) / 1000)]. *)
Definition offset_sec (start_time_ms end_time_ms : Z) : Z :=
  s32 (IEEE.bf_round_half_away
         (IEEE.bf_div IEEE.float_prec
            (IEEE.bf_of_Z IEEE.float_prec (u32 (end_time_ms - start_time_ms)))
            (IEEE.bf_of_Z IEEE.float_prec 1000))).

(** [timestamp -= offset_sec] on an [unsigned long]. *)
Definition compensate (start_time_ms end_time_ms timestamp : Z) : Z :=
  u32 (timestamp - offset_sec start_time_ms end_time_ms).

Definition sync_time_from_http : M RetResult :=
  returning FN_sync_time_from_http
    (start_time_ms <- millis ;;
     match url_explode E with
     | RET_ERROR => ret RET_ERROR
     | RET_OK =>
         resp <- call EvHttpGet (http_get E) ;;
         match resp with
         | None => ret RET_ERROR
         | Some body =>
             end_time_ms <- millis ;;
             if negb (Z.of_nat (String.length body) =? 10) then ret RET_ERROR
             else
               let timestamp := Libc.sscanf_u body 0 in
               let timestamp := compensate start_time_ms end_time_ms timestamp in
               safe <- check_timechange_safe timestamp ;;
               if negb safe then ret RET_ERROR
               else set_system_time timestamp
         end
     end).

Definition sync_time_from_ext_rtc : M RetResult :=
  returning FN_sync_time_from_ext_rtc
    (if negb (EXTERNAL_RTC_ENABLED C) then ret RET_ERROR
     else
       ext_rtc_tstamp <- get_external_rtc_timestamp ;;
       safe <- check_timechange_safe ext_rtc_tstamp ;;
       if negb safe then ret RET_ERROR
       else
         ok <- settimeofday E (s32 ext_rtc_tstamp) ;;
         if negb ok then ret RET_ERROR
         else print_time ;; ret RET_OK).

(** [init_external_rtc]: both branches under [!IsDateTimeValid()] return
    [RET_ERROR]. *)
Definition init_external_rtc : M RetResult :=
  valid <- gets (ext_rtc_is_date_time_valid E) ;;
  if negb valid then ret RET_ERROR
  else
    running <- gets (ext_rtc_is_running E) ;;
    when (negb running) (emit EvExtRtcStart) ;;
    emit EvExtRtcPins ;;
    _ <- get_external_rtc_timestamp ;;
    ret RET_OK.

(** [init]. *)
Definition init : M RetResult :=
  r <- (if EXTERNAL_RTC_ENABLED C then init_external_rtc else ret RET_OK) ;;
  reset_drift_check ;;
  ret r.

(** The tolerance of [detect_drift],
    [int tol = ceil(tick_since_sync_sec * 0.05); tol = tol < 10 ? 10 : tol;]. *)
Definition drift_tolerance (tick_since_sync_sec : Z) : Z :=
  let tol := s32 (IEEE.bf_ceil
                    (IEEE.bf_mul IEEE.double_prec
                       (IEEE.bf_of_Z IEEE.double_prec tick_since_sync_sec)
                       IEEE.dbl_0_05)) in
  if tol <? 10 then 10 else tol.

(** The two elapsed times [detect_drift] compares, both [uint32_t]. *)
Definition tick_since_sync_sec (cur_tick last_tick : Z) : Z :=
  u32 (cur_tick - last_tick) / 1000.
Definition tstamp_since_sync (cur_tstamp last_tstamp : Z) : Z :=
  u32 (Z.abs (s32 (s32 cur_tstamp - s32 last_tstamp))).

(** [detect_drift]: the bounds of the band are [uint32_t] expressions and
    the returned [int] is the conversion of a [uint32_t] difference. *)
Definition detect_drift : M Z :=
  if negb (EXTERNAL_RTC_ENABLED C) then ret 0
  else
    cur_tstamp <- get_external_rtc_timestamp ;;
    cur_tick <- millis ;;
    last_tick <- gets _last_drift_check_tick ;;
    last_tstamp <- gets _last_drift_check_tstamp ;;
    if (last_tick =? 0) || (last_tstamp =? 0) then ret 0
    else
      let ticks := tick_since_sync_sec cur_tick last_tick in
      let tstamps := tstamp_since_sync cur_tstamp last_tstamp in
      let tol := drift_tolerance ticks in
      if (tstamps <? u32 (ticks - tol)) || (u32 (ticks + tol) <? tstamps)
      then ret (s32 (u32 (tstamps - ticks)))
      else ret 0.

(** [GSM::is_gprs_connected() || GSM::connect_persist() == RET_OK]. *)
Definition network_reachable : M bool :=
  connected <- gets (GSM_is_gprs_connected E) ;;
  if connected then ret true
  else
    r <- call EvGsmConnect (GSM_connect_persist E) ;;
    ret (RetResult_eqb r RET_OK).

(** The nested fall-back of [sync]; it yields the three locals
    [ret], [time_source] and [update_ext_rtc]. *)
Definition try_sources (reachable : bool) : M (RetResult * TIME_SOURCE * bool) :=
  if reachable then
    r_http <- sync_time_from_http ;;
    if RetResult_eqb r_http RET_OK then ret (RET_OK, TIME_SOURCE_HTTP, true)
    else
      r_ntp <- sync_gsm_rtc_from_ntp ;;
      r_gsm <- (if RetResult_eqb r_ntp RET_OK then sync_time_from_gsm_rtc else ret RET_ERROR) ;;
      if RetResult_eqb r_ntp RET_OK && RetResult_eqb r_gsm RET_OK
      then ret (RET_OK, TIME_SOURCE_NTP, true)
      else
        r_ext <- (if EXTERNAL_RTC_ENABLED C then sync_time_from_ext_rtc else ret RET_ERROR) ;;
        if EXTERNAL_RTC_ENABLED C && RetResult_eqb r_ext RET_OK
        then ret (RET_OK, TIME_SOURCE_OTHER, false)
        else
          r_gsm2 <- sync_time_from_gsm_rtc ;;
          if RetResult_eqb r_gsm2 RET_OK then ret (RET_OK, TIME_SOURCE_GSM, true)
          else ret (RET_ERROR, TIME_SOURCE_OTHER, true)
  else
    r_ext <- (if EXTERNAL_RTC_ENABLED C then sync_time_from_ext_rtc else ret RET_ERROR) ;;
    if EXTERNAL_RTC_ENABLED C && RetResult_eqb r_ext RET_OK
    then ret (RET_OK, TIME_SOURCE_OTHER, false)
    else ret (RET_ERROR, TIME_SOURCE_OTHER, true).

(** [sync]. *)
Definition sync (enable_safety : bool) : M RetResult :=
  modify (set_safety enable_safety) ;;
  enable_timechange_safety enable_safety ;;
  tstamp_before_sync <- get_timestamp ;;
  reachable <- network_reachable ;;
  '(r, time_source, update_ext_rtc) <- try_sources reachable ;;
  when (EXTERNAL_RTC_ENABLED C && update_ext_rtc && RetResult_eqb r RET_OK)
       (now <- gets time_of ;; _ <- set_external_rtc_time (u32 now) ;; ret tt) ;;
  emit (EvLog RTC_SYNC [tstamp_before_sync; TIME_SOURCE_value time_source]) ;;
  tick <- millis ;;
  modify (set_last_sync_tick tick) ;;
  when (RetResult_eqb r RET_OK) reset_drift_check ;;
  enable_timechange_safety true ;;
  ret r.

End WithPlatform.

End RTC.

(** What [detect_drift] returns, read off the state it is called in. *)
Definition drift_of (C : Config) (E : Env) (st : Sys) : Z :=
  let ticks := RTC.tick_since_sync_sec (millis_of st) (_last_drift_check_tick st) in
  let tstamps := RTC.tstamp_since_sync (u32 (ext_rtc_epoch E st)) (_last_drift_check_tstamp st) in
  let tol := RTC.drift_tolerance ticks in
  if (tstamps <? u32 (ticks - tol)) || (u32 (ticks + tol) <? tstamps)
  then s32 (u32 (tstamps - ticks))
  else 0.

(* ================================================================== *)
(** * Reading traces *)
(* ================================================================== *)

(** The events a computation added, given the states before and after it. *)
Definition new_events (st st' : Sys) : list Event :=
  firstn (List.length (trace st') - List.length (trace st)) (trace st').

(** The source functions that ran, latest first. *)
Fixpoint invoked_fns (evs : list Event) : list SourceFn :=
  match evs with
  | EvReturn fn _ :: r => fn :: invoked_fns r
  | _ :: r => invoked_fns r
  | [] => []
  end.

(** A source function that sets the system clock reported success. *)
Definition source_succeeded (e : Event) : bool :=
  match e with
  | EvReturn FN_sync_gsm_rtc_from_ntp _ => false
  | EvReturn _ RET_OK => true
  | _ => false
  end.

(** The system clock was set. *)
Definition is_commit (e : Event) : bool :=
  match e with
  | EvSetTimeOfDay _ true => true
  | _ => false
  end.

Definition is_set_time (e : Event) : bool :=
  match e with
  | EvSetTimeOfDay _ _ => true
  | _ => false
  end.

Definition is_http_get (e : Event) : bool :=
  match e with
  | EvHttpGet => true
  | _ => false
  end.

(** A call to one of the network time sources: HTTP, NTP or the modem clock. *)
Definition is_network_source_call (e : Event) : bool :=
  match e with
  | EvHttpGet | EvNtpUpdate | EvGsmGetTime => true
  | _ => false
  end.

Definition is_ext_rtc_write (e : Event) : bool :=
  match e with
  | EvExtRtcWrite _ => true
  | _ => false
  end.

(** An event that neither sets the system clock, nor writes the external
    RTC, nor reports the success of a clock-setting source. *)
Definition benign (e : Event) : bool :=
  negb (is_commit e) && negb (is_ext_rtc_write e) && negb (source_succeeded e).

(** [st'] comes after [st]: the trace only grew. *)
Definition Extends (st st' : Sys) : Prop :=
  exists evs, trace st' = evs ++ trace st.

(** ... and the clock setting is the same and every new event is benign. *)
Definition Quiet (st st' : Sys) : Prop :=
  boot_epoch_ms st' = boot_epoch_ms st /\
  exists evs, trace st' = evs ++ trace st /\ forallb benign evs = true.

(** ... or some clock-setting source reported success on the way. *)
Definition Loud (st st' : Sys) : Prop :=
  exists evs, trace st' = evs ++ trace st /\ existsb source_succeeded evs = true.

(** How a step that may set the clock ends, and how a source function does. *)
Definition StepOutcome (r : RetResult) (st st' : Sys) : Prop :=
  (r = RET_ERROR /\ Quiet st st') \/ (r = RET_OK /\ Extends st st').
Definition SourceOutcome (r : RetResult) (st st' : Sys) : Prop :=
  (r = RET_ERROR /\ Quiet st st') \/ (r = RET_OK /\ Loud st st').

(* ================================================================== *)
(** * The specification's wording, for comparison *)
(* ================================================================== *)

Module Spec.

(** "tolerance = max(10, ceil(5% x seconds))". *)
Definition tolerance (seconds : Z) : Z := Z.max 10 (- ((- (5 * seconds)) / 100)).

(** "reject if the candidate lies outside
    [current_time - tolerance, current_time + tolerance]", with
    [seconds_since(last_sync_tick) = ms / 1000]. *)
Definition in_band (cur ms t : Z) : bool :=
  let tol := tolerance (ms / 1000) in
  (cur - tol <=? t) && (t <=? cur + tol).

(** "if elapsed_rtc_sec falls outside [elapsed_ticks_sec - tol,
    elapsed_ticks_sec + tol], return elapsed_rtc_sec - elapsed_ticks_sec,
    else 0". *)
Definition detect_drift (elapsed_ticks_sec elapsed_rtc_sec : Z) : Z :=
  let tol := tolerance elapsed_ticks_sec in
  if (elapsed_rtc_sec <? elapsed_ticks_sec - tol) || (elapsed_ticks_sec + tol <? elapsed_rtc_sec)
  then elapsed_rtc_sec - elapsed_ticks_sec
  else 0.

End Spec.

(* ================================================================== *)
(** * Concrete platforms used to exercise the statements *)
(* ================================================================== *)

Module Sample.

(** A plausibility window from 2017-07-14 to 2033-05-18, three modem
    tries one second apart, the epoch of 2000-01-01. *)
Definition config (ext_rtc : bool) : Config :=
  mkConfig 1500000000 2000000000 3 1000%N 946684800 ext_rtc.

(** No network; the chip reads [rtc]; the HTTP server would answer [body]
    after [http_ms] milliseconds; the modem clock would read [modem]. *)
Definition env (connected : bool) (body : option string) (http_ms : N)
    (modem : option Z) (rtc : Z) : Env :=
  mkEnv (fun _ => connected)
        (fun _ => (RET_ERROR, 5000%N))
        (fun _ => (RET_OK, 3000%N))
        RET_OK
        (fun _ => (body, http_ms))
        (fun _ => (RET_ERROR, 2000%N))
        (fun _ => (modem, 100%N))
        (fun _ => rtc)
        (fun _ => 0)
        (fun _ => true)
        (fun _ => true)
        (fun _ _ => true).

(** Up for [uptime] ms with the system clock reading [now] seconds. *)
Definition state (uptime now last_sync_tick chk_tstamp chk_tick : Z) (safety : bool) : Sys :=
  mkSys uptime (now * 1000 - uptime) last_sync_tick chk_tstamp chk_tick safety [].

End Sample.

(* ================================================================== *)
(** * The caller in src/src/main.cpp *)
(* ================================================================== *)

Module Main.

Section WithPlatform.

Variable C : Config.
Variable E : Env.

(** The default argument of [RTC::sync()], declared in [rtc.h] (not under
    src/), is left open. *)
Variable sync_default_enable_safety : bool.

(** [wakeup_self_test]. *)
Definition wakeup_self_test : M RetResult :=
  drift <- RTC.detect_drift C E ;;
  now <- RTC.get_timestamp ;;
  if negb (RTC.tstamp_valid C now) || (0 <? drift) then
    r_on <- call EvGsmOn (GSM_on E) ;;
    let ret1 := if RetResult_eqb r_on RET_OK then RET_OK else RET_ERROR in
    (if 0 <? drift
     then ext <- RTC.get_external_rtc_timestamp E ;;
          emit (EvLog RTC_DRIFT_DETECTED [drift; ext])
     else ret tt) ;;
    r_sync <- RTC.sync C E sync_default_enable_safety ;;
    r <- (if RetResult_eqb r_sync RET_OK
          then RTC.print_time E ;; ret ret1
          else ret RET_ERROR) ;;
    when (negb (RetResult_eqb r RET_OK)) (emit (EvLog WAKEUP_SELF_TEST_FAILED [])) ;;
    ret r
  else ret RET_OK.

(** The four statements of [setup] that bring the clock up at boot:
    [RTC::init(); RTC::enable_timechange_safety(false);
     RTC::sync_time_from_ext_rtc(); RTC::enable_timechange_safety(true);]. *)
Definition setup_rtc : M unit :=
  _ <- RTC.init C E ;;
  RTC.enable_timechange_safety false ;;
  _ <- RTC.sync_time_from_ext_rtc C E ;;
  RTC.enable_timechange_safety true.

End WithPlatform.

End Main.

(* ================================================================== *)
(** * More ways to read a run *)
(* ================================================================== *)

Definition is_ntp_update (e : Event) : bool :=
  match e with
  | EvNtpUpdate => true
  | _ => false
  end.

Definition is_gsm_get_time (e : Event) : bool :=
  match e with
  | EvGsmGetTime => true
  | _ => false
  end.

(** A successful [settimeofday] whose value, read as [uint32_t], is inside
    the plausibility window; and no write to the external RTC. *)
Definition source_event_ok (C : Config) (e : Event) : bool :=
  match e with
  | EvSetTimeOfDay tv true => RTC.tstamp_valid C (u32 tv)
  | EvExtRtcWrite _ => false
  | _ => true
  end.

Definition commit_plausible (C : Config) (e : Event) : bool :=
  match e with
  | EvSetTimeOfDay tv true => RTC.tstamp_valid C (u32 tv)
  | _ => true
  end.

(** The globals of [RTC] are as they were and the tick counter did not go
    back. *)
Definition Frame (st st' : Sys) : Prop :=
  _last_sync_tick st' = _last_sync_tick st /\
  _last_drift_check_tick st' = _last_drift_check_tick st /\
  _last_drift_check_tstamp st' = _last_drift_check_tstamp st /\
  _timechange_safety_enabled st' = _timechange_safety_enabled st /\
  uptime_ms st <= uptime_ms st'.

(** What every source function guarantees. *)
Definition Good (C : Config) (st st' : Sys) : Prop :=
  Frame st st' /\
  exists evs, trace st' = evs ++ trace st /\ forallb (source_event_ok C) evs = true.

(** The system clock was set on the way from [st] to [st']. *)
Definition Committed (st st' : Sys) : Prop :=
  exists evs, trace st' = evs ++ trace st /\ existsb is_commit evs = true.

Definition SourceGood (C : Config) (r : RetResult) (st st' : Sys) : Prop :=
  Good C st st' /\ (r = RET_OK -> Committed st st').

(** ** The order in which the sources are tried *)

Definition is_return (e : Event) : bool :=
  match e with
  | EvReturn _ _ => true
  | _ => false
  end.

(** The source functions that returned and what they returned, the latest
    first. *)
Fixpoint returns_of (evs : list Event) : list (SourceFn * RetResult) :=
  match evs with
  | EvReturn fn r :: l => (fn, r) :: returns_of l
  | _ :: l => returns_of l
  | [] => []
  end.

(** Between [st] and [st'] no source function returned. *)
Definition Body (st st' : Sys) : Prop :=
  exists evs, trace st' = evs ++ trace st /\ returns_of evs = [].

(** Between [st] and [st'] the source functions returned as [l] says. *)
Definition Returns (l : list (SourceFn * RetResult)) (st st' : Sys) : Prop :=
  exists evs, trace st' = evs ++ trace st /\ returns_of evs = l.

(** The end of the chain once NTP is out: the external RTC if it is
    enabled, then the modem clock. *)
Definition chain_tail (ext : bool) (l : list (SourceFn * RetResult)) : bool :=
  match l with
  | [(FN_sync_time_from_ext_rtc, RET_OK)] => ext
  | [(FN_sync_time_from_ext_rtc, RET_ERROR); (FN_sync_time_from_gsm_rtc, _)] => ext
  | [(FN_sync_time_from_gsm_rtc, _)] => negb ext
  | _ => false
  end.

(** The sequences of returns, in the order of the calls, that the nested
    conditions of [sync] allow. *)
Definition chain_allowed (ext reachable : bool) (l : list (SourceFn * RetResult)) : bool :=
  if reachable then
    match l with
    | [(FN_sync_time_from_http, RET_OK)] => true
    | [(FN_sync_time_from_http, RET_ERROR); (FN_sync_gsm_rtc_from_ntp, RET_OK);
       (FN_sync_time_from_gsm_rtc, RET_OK)] => true
    | (FN_sync_time_from_http, RET_ERROR) :: (FN_sync_gsm_rtc_from_ntp, RET_OK)
        :: (FN_sync_time_from_gsm_rtc, RET_ERROR) :: tl => chain_tail ext tl
    | (FN_sync_time_from_http, RET_ERROR) :: (FN_sync_gsm_rtc_from_ntp, RET_ERROR)
        :: tl => chain_tail ext tl
    | _ => false
    end
  else
    match l with
    | [] => negb ext
    | [(FN_sync_time_from_ext_rtc, _)] => ext
    | _ => false
    end.

(** What the latest return says: the result, and whether it was a network
    source (HTTP or the modem clock) that set the clock. *)
Definition latest_result (l : list (SourceFn * RetResult)) : RetResult :=
  match l with
  | (_, r) :: _ => r
  | [] => RET_ERROR
  end.

Definition latest_is_network_success (l : list (SourceFn * RetResult)) : bool :=
  match l with
  | (FN_sync_time_from_http, RET_OK) :: _ => true
  | (FN_sync_time_from_gsm_rtc, RET_OK) :: _ => true
  | _ => false
  end.

(** Calls the two retry loops make when every call fails, entered with
    [tries]: the test [tries - 1] ends the loop one round early, except
    from 1, where it lets a last delay through. *)
Definition failing_attempts (tries : nat) : nat :=
  match tries with
  | O => O
  | S O => 1
  | S (S k) => S k
  end.

(* ================================================================== *)
(** * Machine integers: basic facts *)
(* ================================================================== *)

Lemma u32_range x : 0 <= u32 x < 2 ^ 32.
Proof. unfold u32. apply Z.mod_pos_bound. lia. Qed.

Lemma u32_small x : 0 <= x < 2 ^ 32 -> u32 x = x.
Proof. intros H. unfold u32. apply Z.mod_small. exact H. Qed.

Lemma u32_wrap_neg x : - 2 ^ 32 <= x < 0 -> u32 x = x + 2 ^ 32.
Proof.
  intros H. unfold u32.
  symmetry. apply (Z.mod_unique x (2 ^ 32) (-1)); lia.
Qed.

Lemma s32_range x : - 2 ^ 31 <= s32 x < 2 ^ 31.
Proof.
  unfold s32. pose proof (Z.mod_pos_bound (x + 2 ^ 31) (2 ^ 32)). lia.
Qed.

Lemma s32_small x : - 2 ^ 31 <= x < 2 ^ 31 -> s32 x = x.
Proof. intros H. unfold s32. rewrite Z.mod_small; lia. Qed.

Lemma s32_u32 x : s32 (u32 x) = s32 x.
Proof.
  unfold s32, u32.
  rewrite Zplus_mod_idemp_l. reflexivity.
Qed.

Lemma s32_zero_iff x : - 2 ^ 32 < x < 2 ^ 32 -> (s32 x = 0 <-> x = 0).
Proof.
  intros H. split; [| intros ->; reflexivity].
  unfold s32. intros H0.
  assert (Hm : (x + 2 ^ 31) mod 2 ^ 32 = 2 ^ 31) by lia.
  destruct (Z_lt_le_dec x (2 ^ 31)).
  - destruct (Z_lt_le_dec x (- 2 ^ 31)).
    + assert ((x + 2 ^ 31) mod 2 ^ 32 = x + 2 ^ 31 + 2 ^ 32)
        by (symmetry; apply (Z.mod_unique _ _ (-1)); lia).
      lia.
    + rewrite Z.mod_small in Hm; lia.
  - assert ((x + 2 ^ 31) mod 2 ^ 32 = x + 2 ^ 31 - 2 ^ 32)
      by (symmetry; apply (Z.mod_unique _ _ 1); lia).
    lia.
Qed.

(* ================================================================== *)
(** * Symbolic execution of the monad *)
(* ================================================================== *)

Ltac unfold_monad :=
  unfold RTC.get_timestamp, RTC.get_last_sync_tick, RTC.enable_timechange_safety,
    returning, when, emit, elapse, millis in *;
  unfold bind, ret, gets, modify in *.

Ltac invert_pairs :=
  repeat match goal with
         | H : (_, _) = (_, _) |- _ => inversion H; subst; clear H
         end.

(** Name the result of every computation the goal still runs. *)
Ltac split_runs :=
  repeat match goal with
         | |- context [let '(_, _) := ?x in _] =>
             let a := fresh "a" in
             let s := fresh "s" in
             let H := fresh "Hrun" in
             destruct x as [a s] eqn:H; cbn beta iota
         end.

(* ================================================================== *)
(** * The safety gate *)
(* ================================================================== *)

Lemma check_timechange_safe_valid C t st :
  fst (RTC.check_timechange_safe C t st) = true -> RTC.tstamp_valid C t = true.
Proof.
  unfold RTC.check_timechange_safe.
  destruct (RTC.tstamp_valid C t); [reflexivity | cbn; discriminate].
Qed.

(** C7: whatever the configuration and the state of the safety flag, a
    timestamp that [check_timechange_safe] accepts lies strictly between
    [FAIL_CHECK_TIMESTAMP_START] and [FAIL_CHECK_TIMESTAMP_END]. *)
Theorem check_timechange_safe_within_window C t st :
  fst (RTC.check_timechange_safe C t st) = true ->
  FAIL_CHECK_TIMESTAMP_START C < t < FAIL_CHECK_TIMESTAMP_END C.
Proof.
  intros H. apply check_timechange_safe_valid in H.
  unfold RTC.tstamp_valid in H.
  apply andb_true_iff in H as [H1 H2].
  apply Z.ltb_lt in H1. apply Z.ltb_lt in H2. lia.
Qed.

Lemma check_timechange_safe_within_window_witness :
  fst (RTC.check_timechange_safe (Sample.config true) 1600000005
         (Sample.state 6000 1600000000 0 0 0 true)) = true /\
  1500000000 < 1600000005 < 2000000000.
Proof.
  split; [vm_compute; reflexivity |].
  apply (check_timechange_safe_within_window (Sample.config true) 1600000005
           (Sample.state 6000 1600000000 0 0 0 true)).
  vm_compute. reflexivity.
Defined.

(** C1 (the code departs from the claim): 201 s after the last sync the
    claimed tolerance is max(10, ceil(10.05)) = 11 s, so a candidate 11 s
    ahead of the system clock is inside the claimed band; the code computes
    a tolerance of 10 s and rejects it. *)
Theorem check_timechange_safe_rejects_inside_claimed_band :
  let C := Sample.config true in
  let st := Sample.state 201000 1600000000 0 0 0 true in
  let t := 1600000011 in
  RTC.tstamp_valid C t = true /\
  Spec.tolerance (201000 / 1000) = 11 /\
  Spec.in_band (RTC.get_timestamp_of st) (u32 (millis_of st - _last_sync_tick st)) t = true /\
  RTC.safe_tolerance (u32 (millis_of st - _last_sync_tick st)) = 10 /\
  fst (RTC.check_timechange_safe C t st) = false.
Proof. vm_compute. repeat split; reflexivity. Qed.

(* ================================================================== *)
(** * The orchestrator restores the safety flag *)
(* ================================================================== *)

(** C8: for either value of [enable_safety] and on every path through
    [sync], [_timechange_safety_enabled] is true when [sync] returns. *)
Theorem sync_restores_timechange_safety C E enable_safety st :
  _timechange_safety_enabled (snd (RTC.sync C E enable_safety st)) = true.
Proof.
  unfold RTC.sync. unfold_monad. split_runs. reflexivity.
Qed.

(* ================================================================== *)
(** * The drift detector *)
(* ================================================================== *)

Lemma detect_drift_value C E st :
  fst (RTC.detect_drift C E st) =
    if negb (EXTERNAL_RTC_ENABLED C) then 0
    else if (_last_drift_check_tick st =? 0) || (_last_drift_check_tstamp st =? 0) then 0
    else drift_of C E st.
Proof.
  unfold RTC.detect_drift, drift_of, RTC.get_external_rtc_timestamp. unfold_monad.
  destruct (EXTERNAL_RTC_ENABLED C); cbn; [| reflexivity].
  destruct (_last_drift_check_tick st =? 0); cbn; [reflexivity |].
  destruct (_last_drift_check_tstamp st =? 0); cbn; [reflexivity |].
  unfold millis_of, set_trace; cbn [uptime_ms].
  match goal with |- fst ((if ?c then _ else _) _) = _ => destruct c end; reflexivity.
Qed.

Lemma tick_since_sync_sec_range a b : 0 <= RTC.tick_since_sync_sec a b <= 4294967.
Proof.
  unfold RTC.tick_since_sync_sec.
  pose proof (u32_range (a - b)) as H.
  split.
  - apply Z.div_pos; lia.
  - apply Z.lt_succ_r. apply Z.div_lt_upper_bound; lia.
Qed.

Lemma tstamp_since_sync_range a b : 0 <= RTC.tstamp_since_sync a b <= 2 ^ 31.
Proof.
  unfold RTC.tstamp_since_sync.
  pose proof (s32_range (s32 a - s32 b)) as H.
  rewrite u32_small; lia.
Qed.

Lemma drift_tolerance_range n : 10 <= RTC.drift_tolerance n < 2 ^ 31.
Proof.
  unfold RTC.drift_tolerance.
  match goal with |- context [s32 ?x] => pose proof (s32_range x) as H end.
  destruct (Z.ltb_spec (s32 (IEEE.bf_ceil
    (IEEE.bf_mul IEEE.double_prec (IEEE.bf_of_Z IEEE.double_prec n) IEEE.dbl_0_05))) 10); lia.
Qed.

(** C2 (the code departs from the claim): five seconds of ticks after the
    checkpoint, with the external RTC six seconds on, the claimed band is
    [5 - 10, 5 + 10] and the claimed result 0; [detect_drift] returns 1. *)
Theorem detect_drift_reports_drift_inside_claimed_band :
  let C := Sample.config true in
  let E := Sample.env false None 0%N None 1600000006 in
  let st := Sample.state 6000 1600000005 0 1600000000 1000 true in
  let ticks := RTC.tick_since_sync_sec (millis_of st) (_last_drift_check_tick st) in
  let tstamps := RTC.tstamp_since_sync (u32 (ext_rtc_epoch E st)) (_last_drift_check_tstamp st) in
  ticks = 5 /\ tstamps = 6 /\
  Spec.tolerance ticks = 10 /\
  Spec.detect_drift ticks tstamps = 0 /\
  fst (RTC.detect_drift C E st) = 1.
Proof. vm_compute. repeat split; reflexivity. Qed.

(** C9: with the external RTC enabled and a checkpoint taken, when fewer
    tick seconds have elapsed than the tolerance (which is at least 10), the
    unsigned [tick_since_sync_sec - tol] wraps modulo 2^32, the first
    comparison of the band test holds, and [detect_drift] returns the
    difference of the two elapsed times as an [int]: non-zero as soon as
    they differ. *)
Theorem detect_drift_below_tolerance_wraps C E st :
  EXTERNAL_RTC_ENABLED C = true ->
  _last_drift_check_tick st <> 0 ->
  _last_drift_check_tstamp st <> 0 ->
  let ticks := RTC.tick_since_sync_sec (millis_of st) (_last_drift_check_tick st) in
  let tstamps := RTC.tstamp_since_sync (u32 (ext_rtc_epoch E st)) (_last_drift_check_tstamp st) in
  let tol := RTC.drift_tolerance ticks in
  ticks < tol ->
  10 <= tol /\
  u32 (ticks - tol) = ticks - tol + 2 ^ 32 /\
  tstamps < u32 (ticks - tol) /\
  fst (RTC.detect_drift C E st) = s32 (tstamps - ticks) /\
  (tstamps - ticks < 2 ^ 31 -> fst (RTC.detect_drift C E st) = tstamps - ticks) /\
  (fst (RTC.detect_drift C E st) <> 0 <-> tstamps <> ticks).
Proof.
  intros Hext Htick Htstamp ticks tstamps tol Hlt.
  pose proof (tick_since_sync_sec_range (millis_of st) (_last_drift_check_tick st)) as Hticks.
  pose proof (tstamp_since_sync_range (u32 (ext_rtc_epoch E st)) (_last_drift_check_tstamp st)) as Htst.
  pose proof (drift_tolerance_range ticks) as Htol.
  fold ticks in Hticks. fold tstamps in Htst. fold tol in Htol.
  assert (Hwrap : u32 (ticks - tol) = ticks - tol + 2 ^ 32) by (apply u32_wrap_neg; lia).
  assert (Hval : fst (RTC.detect_drift C E st) = s32 (tstamps - ticks)).
  { rewrite detect_drift_value, Hext. cbn [negb].
    apply Z.eqb_neq in Htick. apply Z.eqb_neq in Htstamp.
    rewrite Htick, Htstamp. cbn [orb].
    unfold drift_of. fold ticks tstamps tol.
    assert (Hfire : (tstamps <? u32 (ticks - tol)) = true) by (apply Z.ltb_lt; lia).
    rewrite Hfire. cbn [orb]. apply s32_u32. }
  repeat split; try assumption; try lia.
  - intros Hsmall. rewrite Hval. apply s32_small. lia.
  - rewrite Hval. intros Hnz Heq. apply Hnz. rewrite Heq, Z.sub_diag. reflexivity.
  - rewrite Hval. intros Hne H0.
    assert (Hr : - 2 ^ 32 < tstamps - ticks < 2 ^ 32) by lia.
    apply (proj1 (s32_zero_iff _ Hr)) in H0. lia.
Qed.

Lemma detect_drift_below_tolerance_wraps_witness :
  let C := Sample.config true in
  let E := Sample.env false None 0%N None 1600000006 in
  let st := Sample.state 6000 1600000005 0 1600000000 1000 true in
  fst (RTC.detect_drift C E st) = 6 - 5.
Proof.
  intros C E st.
  refine (proj1 (proj2 (proj2 (proj2 (proj2
            (detect_drift_below_tolerance_wraps C E st _ _ _ _))))) _);
    vm_compute; try reflexivity; discriminate.
Defined.

(** C10: [detect_drift] returns 0 as soon as one of the two checkpoint
    fields is zero; in particular a checkpoint taken by [reset_drift_check]
    while the system clock reads 0 stores the timestamp 0, and every later
    [detect_drift] returns 0 for as long as that timestamp stays. *)
Theorem detect_drift_zero_checkpoint_field C E :
  (forall st,
      _last_drift_check_tick st = 0 \/ _last_drift_check_tstamp st = 0 ->
      fst (RTC.detect_drift C E st) = 0) /\
  (forall st st',
      RTC.get_timestamp_of st = 0 ->
      _last_drift_check_tstamp st' = _last_drift_check_tstamp (snd (RTC.reset_drift_check st)) ->
      _last_drift_check_tstamp (snd (RTC.reset_drift_check st)) = 0 /\
      fst (RTC.detect_drift C E st') = 0).
Proof.
  assert (Hzero : forall st,
             _last_drift_check_tick st = 0 \/ _last_drift_check_tstamp st = 0 ->
             fst (RTC.detect_drift C E st) = 0).
  { intros st H. rewrite detect_drift_value.
    destruct (EXTERNAL_RTC_ENABLED C); cbn [negb]; [| reflexivity].
    destruct H as [-> | ->]; cbn [Z.eqb orb]; [reflexivity |].
    rewrite orb_true_r. reflexivity. }
  split; [exact Hzero |].
  intros st st' Hclock Hsame.
  assert (Hstored : _last_drift_check_tstamp (snd (RTC.reset_drift_check st)) = 0)
    by (unfold RTC.reset_drift_check; unfold_monad; cbn; exact Hclock).
  split; [exact Hstored |].
  apply Hzero. right. rewrite Hsame. exact Hstored.
Qed.

Lemma detect_drift_zero_checkpoint_field_witness :
  let C := Sample.config true in
  let E := Sample.env false None 0%N None 1600000006 in
  fst (RTC.detect_drift C E (Sample.state 6000 1600000005 0 0 1000 true)) = 0 /\
  fst (RTC.detect_drift C E
         (set_uptime 900000 (snd (RTC.reset_drift_check (Sample.state 6000 0 0 0 0 true))))) = 0.
Proof.
  intros C E. split.
  - apply (proj1 (detect_drift_zero_checkpoint_field C E)). right. reflexivity.
  - apply (proj2 (detect_drift_zero_checkpoint_field C E)
             (Sample.state 6000 0 0 0 0 true)); reflexivity.
Defined.

(* ================================================================== *)
(** * Rounding: how far a rounded value can be from the exact one *)
(* ================================================================== *)

Lemma rne_div_bounds a b : 0 < b -> a / b <= IEEE.rne_div a b <= a / b + 1.
Proof.
  intros Hb. unfold IEEE.rne_div.
  destruct (2 * (a mod b) ?= b); [destruct (Z.even (a / b)) | |]; lia.
Qed.

Lemma pow2_max_pos k : 0 < 2 ^ Z.max 0 k.
Proof. apply Z.pow_pos_nonneg; lia. Qed.

(** [2 ^ flog2 a b <= a / b], with the powers of two moved to the side
    where their exponent is non-negative. *)
Lemma flog2_lower a b :
  0 < a -> 0 < b ->
  b * 2 ^ Z.max 0 (IEEE.flog2 a b) <= a * 2 ^ Z.max 0 (- IEEE.flog2 a b).
Proof.
  intros Ha Hb. unfold IEEE.flog2.
  destruct (Z.leb_spec b a) as [Hle | Hlt].
  - assert (Hq : 0 < a / b) by (apply Z.div_str_pos; lia).
    pose proof (Z.log2_spec _ Hq) as [Hlo _].
    pose proof (Z.log2_nonneg (a / b)) as Hnn.
    rewrite Z.max_r by lia. rewrite Z.max_l by lia.
    pose proof (Z.mul_div_le a b Hb). nia.
  - set (c := (b + a - 1) / a).
    assert (Hc : 2 <= c).
    { unfold c. apply Z.div_le_lower_bound; lia. }
    assert (Hac : b <= a * c).
    { unfold c. pose proof (Z.div_mod (b + a - 1) a ltac:(lia)).
      pose proof (Z.mod_pos_bound (b + a - 1) a Ha). lia. }
    pose proof (Z.log2_up_spec c ltac:(lia)) as [_ Hup].
    pose proof (Z.log2_up_nonneg c) as Hnn.
    rewrite Z.max_l by lia. rewrite Z.max_r by lia.
    rewrite Z.opp_involutive, Z.pow_0_r. nia.
Qed.

(** A rounded value is positive and at most twice the exact one. *)
Lemma bf_round_upper prec a b :
  1 <= prec -> 0 < a -> 0 < b ->
  let x := IEEE.bf_round prec a b in
  0 < IEEE.bf_num x /\ 0 < IEEE.bf_den x /\
  IEEE.bf_num x * b <= 2 * a * IEEE.bf_den x.
Proof.
  intros Hp Ha Hb. unfold IEEE.bf_round.
  destruct (Z.eqb_spec a 0) as [-> | _]; [lia |].
  set (f := IEEE.flog2 a b). set (e := f - (prec - 1)).
  cbv zeta. unfold IEEE.bf_num, IEEE.bf_den. cbn [IEEE.bf_m IEEE.bf_e].
  pose proof (flog2_lower a b Ha Hb) as Hf. fold f in Hf.
  set (P := 2 ^ Z.max 0 (- e)). set (Q := 2 ^ Z.max 0 e).
  assert (HP : 0 < P) by apply pow2_max_pos.
  assert (HQ : 0 < Q) by apply pow2_max_pos.
  assert (Hge : b * Q <= a * P).
  { unfold P, Q.
    destruct (Z_lt_le_dec e 0) as [He | He].
    - rewrite (Z.max_l 0 e) by lia. rewrite (Z.max_r 0 (- e)) by lia.
      rewrite Z.pow_0_r.
      destruct (Z_lt_le_dec f 0) as [Hf0 | Hf0].
      + rewrite (Z.max_l 0 f), (Z.max_r 0 (- f)), Z.pow_0_r in Hf by lia.
        assert (2 ^ (- f) <= 2 ^ (- e)) by (apply Z.pow_le_mono_r; lia).
        nia.
      + rewrite (Z.max_r 0 f), (Z.max_l 0 (- f)), Z.pow_0_r in Hf by lia.
        assert (0 < 2 ^ f) by (apply Z.pow_pos_nonneg; lia).
        assert (0 < 2 ^ (- e)) by (apply Z.pow_pos_nonneg; lia).
        nia.
    - rewrite (Z.max_r 0 e) by lia. rewrite (Z.max_l 0 (- e)) by lia.
      rewrite Z.pow_0_r.
      rewrite (Z.max_r 0 f), (Z.max_l 0 (- f)), Z.pow_0_r in Hf by lia.
      assert (2 ^ e <= 2 ^ f) by (apply Z.pow_le_mono_r; lia).
      nia. }
  assert (HbQ : 0 < b * Q) by nia.
  pose proof (rne_div_bounds (a * P) (b * Q) HbQ) as [Hlo Hhi].
  assert (Hq1 : 1 <= a * P / (b * Q)) by (apply Z.div_le_lower_bound; lia).
  pose proof (Z.mul_div_le (a * P) (b * Q) HbQ) as Hmd.
  set (M := IEEE.rne_div (a * P) (b * Q)) in *.
  set (q := a * P / (b * Q)) in *.
  repeat split; [nia | assumption |].
  assert (M * (b * Q) <= 2 * q * (b * Q)) by nia.
  lia.
Qed.

(** The latency offset is a small non-negative number of seconds. *)
Lemma offset_sec_range start_ms end_ms :
  0 <= RTC.offset_sec start_ms end_ms <= 17179870.
Proof.
  unfold RTC.offset_sec.
  set (d := u32 (end_ms - start_ms)).
  pose proof (u32_range (end_ms - start_ms)) as Hd. fold d in Hd.
  assert (H1000 : IEEE.bf_of_Z IEEE.float_prec 1000 = IEEE.BF 16384000 (-14))
    by (vm_compute; reflexivity).
  rewrite H1000.
  destruct (Z.eq_dec d 0) as [-> | Hnz].
  { vm_compute. split; discriminate. }
  pose proof (bf_round_upper IEEE.float_prec d 1 ltac:(unfold IEEE.float_prec; lia)
                ltac:(lia) ltac:(lia)) as HX.
  cbv zeta in HX. fold (IEEE.bf_of_Z IEEE.float_prec d) in HX.
  set (X := IEEE.bf_of_Z IEEE.float_prec d) in *.
  destruct HX as (HXn & HXd & HXu).
  unfold IEEE.bf_div.
  change (IEEE.bf_num (IEEE.BF 16384000 (-14))) with 16384000.
  change (IEEE.bf_den (IEEE.BF 16384000 (-14))) with 16384.
  pose proof (bf_round_upper IEEE.float_prec (IEEE.bf_num X * 16384) (IEEE.bf_den X * 16384000)
                ltac:(unfold IEEE.float_prec; lia) ltac:(lia) ltac:(lia)) as HY.
  cbv zeta in HY.
  set (Y := IEEE.bf_round IEEE.float_prec (IEEE.bf_num X * 16384) (IEEE.bf_den X * 16384000)) in *.
  destruct HY as (HYn & HYd & HYu).
  unfold IEEE.bf_round_half_away.
  set (nX := IEEE.bf_num X) in *. set (dX := IEEE.bf_den X) in *.
  set (nY := IEEE.bf_num Y) in *. set (dY := IEEE.bf_den Y) in *.
  assert (Hy : nY * 1000 <= 4 * d * dY).
  { assert (nY * 1000 * (dX * 16384) <= 4 * d * dY * (dX * 16384)) by nia.
    apply Z.mul_le_mono_pos_r with (p := dX * 16384); lia. }
  assert (Hlo : 0 <= (2 * nY + dY) / (2 * dY)) by (apply Z.div_pos; lia).
  assert (Hhi : (2 * nY + dY) / (2 * dY) < 17179871).
  { apply Z.div_lt_upper_bound; [lia |].
    assert (nY * 1000 < 17179870 * 1000 * dY) by nia.
    nia. }
  rewrite s32_small; lia.
Qed.

(** On the sample inputs the operations of [IEEE] give the values the
    standard library's IEEE-754 specification gives. *)
Lemma ieee_model_matches_SpecFloat_on_samples :
  forallb (fun ms =>
             IEEE.opt_bf_eqb
               (IEEE.bf_div IEEE.float_prec (IEEE.bf_of_Z IEEE.float_prec ms)
                  (IEEE.bf_of_Z IEEE.float_prec 1000))
               (IEEE.of_spec_float (IEEE.spec_float_seconds ms)))
          IEEE.sample_ms = true /\
  forallb (fun n =>
             IEEE.opt_bf_eqb
               (IEEE.bf_mul IEEE.double_prec (IEEE.bf_of_Z IEEE.double_prec n) IEEE.dbl_0_05)
               (IEEE.of_spec_float (IEEE.spec_double_5_percent n)))
          IEEE.sample_seconds = true.
Proof. split; vm_compute; reflexivity. Qed.

(* ================================================================== *)
(** * Parsing the HTTP body *)
(* ================================================================== *)

Lemma digit_val_range c : Libc.is_digit c = true -> 0 <= Libc.digit_val c <= 9.
Proof.
  unfold Libc.is_digit, Libc.digit_val. intros H.
  apply andb_true_iff in H as [H1 H2].
  apply Z.leb_le in H1. apply Z.leb_le in H2. lia.
Qed.

Lemma digits_value_bounds s : forall acc,
  0 <= acc ->
  acc * 10 ^ Z.of_nat (Libc.digit_prefix_len s) <= Libc.digits_value s acc
    < (acc + 1) * 10 ^ Z.of_nat (Libc.digit_prefix_len s).
Proof.
  induction s as [| c r IH]; intros acc Hacc; cbn [Libc.digits_value Libc.digit_prefix_len].
  - cbn. lia.
  - destruct (Libc.is_digit c) eqn:Hc; [| cbn; lia].
    pose proof (digit_val_range c Hc) as Hd.
    specialize (IH (10 * acc + Libc.digit_val c) ltac:(lia)).
    rewrite Nat2Z.inj_succ, Z.pow_succ_r by lia.
    assert (0 < 10 ^ Z.of_nat (Libc.digit_prefix_len r)) by (apply Z.pow_pos_nonneg; lia).
    nia.
Qed.

Lemma digit_prefix_len_le s : (Libc.digit_prefix_len s <= String.length s)%nat.
Proof.
  induction s as [| c r IH]; cbn; [lia |].
  destruct (Libc.is_digit c); lia.
Qed.

Lemma digit_prefix_len_lt s :
  Libc.all_digits s = false -> (Libc.digit_prefix_len s < String.length s)%nat.
Proof.
  induction s as [| c r IH]; cbn; [discriminate |].
  destruct (Libc.is_digit c); cbn; intros H; [apply IH in H |]; lia.
Qed.

Lemma skip_spaces_shorter s :
  Libc.skip_spaces s = s \/ (String.length (Libc.skip_spaces s) < String.length s)%nat.
Proof.
  induction s as [| c r IH]; cbn; [left; reflexivity |].
  destruct (Libc.isspace c); [right | left; reflexivity].
  destruct IH as [-> | IH]; lia.
Qed.

Lemma digits_value_short s :
  (Libc.digit_prefix_len s <= 9)%nat -> 0 <= Libc.digits_value s 0 <= 999999999.
Proof.
  intros H. pose proof (digits_value_bounds s 0 ltac:(lia)) as Hb.
  assert (10 ^ Z.of_nat (Libc.digit_prefix_len s) <= 10 ^ 9)
    by (apply Z.pow_le_mono_r; lia).
  lia.
Qed.

(** A ten-character body that is not ten digits converts to at most nine
    digits' worth, possibly negated modulo 2^32. *)
Lemma sscanf_u_malformed body :
  String.length body = 10%nat ->
  Libc.all_digits body = false ->
  0 <= Libc.sscanf_u body 0 <= 999999999 \/
  2 ^ 32 - 999999999 <= Libc.sscanf_u body 0 < 2 ^ 32.
Proof.
  intros Hlen Hnd. unfold Libc.sscanf_u.
  assert (Hs1 : (Libc.digit_prefix_len (Libc.skip_spaces body) <= 9)%nat).
  { destruct (skip_spaces_shorter body) as [-> | Hsh].
    - pose proof (digit_prefix_len_lt body Hnd). lia.
    - pose proof (digit_prefix_len_le (Libc.skip_spaces body)). lia. }
  assert (Hs1len : (String.length (Libc.skip_spaces body) <= 10)%nat).
  { destruct (skip_spaces_shorter body) as [-> | Hsh]; lia. }
  assert (Hpos : forall s, (Libc.digit_prefix_len s <= 9)%nat ->
             (if Libc.starts_with_digit s
              then if ULONG_MAX <? Libc.digits_value s 0 then ULONG_MAX
                   else Libc.digits_value s 0
              else 0) <= 999999999 /\
             0 <= (if Libc.starts_with_digit s
              then if ULONG_MAX <? Libc.digits_value s 0 then ULONG_MAX
                   else Libc.digits_value s 0
              else 0)).
  { intros s Hs. pose proof (digits_value_short s Hs) as Hv.
    destruct (Libc.starts_with_digit s); [| lia].
    destruct (Z.ltb_spec ULONG_MAX (Libc.digits_value s 0)) as [Hbig | _];
      [unfold ULONG_MAX in Hbig; lia | lia]. }
  destruct (Libc.skip_spaces body) as [| c r] eqn:Hsk.
  - cbn. left. lia.
  - destruct (Ascii.eqb c "-").
    + assert (Hr : (Libc.digit_prefix_len r <= 9)%nat).
      { pose proof (digit_prefix_len_le r). cbn in Hs1len. lia. }
      pose proof (digits_value_short r Hr) as Hv.
      destruct (Libc.starts_with_digit r); [| left; lia].
      destruct (Z.ltb_spec ULONG_MAX (Libc.digits_value r 0)) as [Hbig | _];
        [unfold ULONG_MAX in Hbig; lia |].
      destruct (Z.eq_dec (Libc.digits_value r 0) 0) as [-> | Hnz].
      * left. cbn. lia.
      * right. rewrite u32_wrap_neg; lia.
    + destruct (Ascii.eqb c "+").
      * assert (Hr : (Libc.digit_prefix_len r <= 9)%nat).
        { pose proof (digit_prefix_len_le r). cbn in Hs1len. lia. }
        left. specialize (Hpos r Hr). lia.
      * left. specialize (Hpos (String c r) Hs1). lia.
Qed.

(** After compensation such a value is never inside a plausibility window
    that holds ten-digit epochs below 2^31 only. *)
Lemma malformed_candidate_invalid C start_ms end_ms body :
  999999999 <= FAIL_CHECK_TIMESTAMP_START C ->
  FAIL_CHECK_TIMESTAMP_END C <= 2 ^ 31 ->
  String.length body = 10%nat ->
  Libc.all_digits body = false ->
  RTC.tstamp_valid C (RTC.compensate start_ms end_ms (Libc.sscanf_u body 0)) = false.
Proof.
  intros Hs He Hlen Hnd.
  pose proof (sscanf_u_malformed body Hlen Hnd) as Hv.
  pose proof (offset_sec_range start_ms end_ms) as Ho.
  unfold RTC.tstamp_valid, RTC.compensate.
  set (v := Libc.sscanf_u body 0) in *.
  set (o := RTC.offset_sec start_ms end_ms) in *.
  apply andb_false_iff.
  destruct (Z_lt_le_dec (v - o) 0) as [Hneg | Hnn].
  - right. apply Z.ltb_ge. rewrite u32_wrap_neg; lia.
  - rewrite u32_small by lia.
    destruct Hv as [Hv | Hv].
    + left. apply Z.ltb_ge. lia.
    + right. apply Z.ltb_ge. lia.
Qed.

(** C3: when the request is made and a body comes back that is not ten
    digits -- its length is not 10, or it has 10 characters that are not
    all digits -- [sync_time_from_http] returns [RET_ERROR] having issued
    exactly one GET and nothing else: [settimeofday] is never reached and
    the system clock is as it was.  (The plausibility window is assumed to
    hold only ten-digit epochs below 2^31.) *)
Theorem sync_time_from_http_rejects_malformed_body C E st body ms :
  999999999 <= FAIL_CHECK_TIMESTAMP_START C ->
  FAIL_CHECK_TIMESTAMP_END C <= 2 ^ 31 ->
  url_explode E = RET_OK ->
  http_get E st = (Some body, ms) ->
  String.length body <> 10%nat \/ Libc.all_digits body = false ->
  let r := fst (RTC.sync_time_from_http C E st) in
  let st' := snd (RTC.sync_time_from_http C E st) in
  r = RET_ERROR /\
  boot_epoch_ms st' = boot_epoch_ms st /\
  trace st' = EvReturn FN_sync_time_from_http RET_ERROR :: EvHttpGet :: trace st /\
  List.length (filter is_http_get (new_events st st')) = 1%nat /\
  filter is_set_time (new_events st st') = [].
Proof.
  intros Hs He Hurl Hget Hbad.
  assert (Hrun : RTC.sync_time_from_http C E st =
                 (RET_ERROR,
                  set_trace (EvReturn FN_sync_time_from_http RET_ERROR :: EvHttpGet :: trace st)
                    (set_uptime (uptime_ms st + Z.of_N ms) st))).
  { unfold RTC.sync_time_from_http, call. unfold_monad.
    rewrite Hurl. cbn. rewrite Hget. cbn.
    destruct (Nat.eq_dec (String.length body) 10) as [Hlen | Hlen].
    - destruct Hbad as [Hbad | Hnd]; [contradiction |].
      rewrite Hlen. cbn [Z.of_nat Z.eqb negb Pos.eqb Pos.of_succ_nat Pos.succ].
      unfold RTC.check_timechange_safe.
      rewrite (malformed_candidate_invalid C _ _ body Hs He Hlen Hnd).
      cbn. reflexivity.
    - assert (Hneq : (Z.of_nat (String.length body) =? 10) = false)
        by (apply Z.eqb_neq; lia).
      rewrite Hneq. cbn. reflexivity. }
  rewrite Hrun. cbn [fst snd].
  unfold new_events. cbn [trace set_trace List.length].
  replace (S (S (List.length (trace st))) - List.length (trace st))%nat with 2%nat by lia.
  cbn. repeat split; reflexivity.
Qed.

Lemma sync_time_from_http_rejects_malformed_body_witness :
  let C := Sample.config true in
  let E9 := Sample.env true (Some "170000000"%string) 2500%N None 0 in
  let E10 := Sample.env true (Some "abcdefghij"%string) 2500%N None 0 in
  let st := Sample.state 6000 1600000000 0 0 0 false in
  fst (RTC.sync_time_from_http C E9 st) = RET_ERROR /\
  fst (RTC.sync_time_from_http C E10 st) = RET_ERROR.
Proof.
  intros C E9 E10 st. split.
  - refine (proj1 (sync_time_from_http_rejects_malformed_body C E9 st
                     "170000000"%string 2500%N _ _ _ _ _));
      try reflexivity; try (vm_compute; discriminate).
    left. vm_compute. discriminate.
  - refine (proj1 (sync_time_from_http_rejects_malformed_body C E10 st
                     "abcdefghij"%string 2500%N _ _ _ _ _));
      try reflexivity; try (vm_compute; discriminate).
    right. reflexivity.
Defined.

(** C4 fails as stated: for a request from tick 1000 to tick 3500 and the
    body 1700000000 the compensated candidate is not 1699999998. *)
Lemma compensate_2500ms_not_8 :
  RTC.compensate 1000 3500 (Libc.sscanf_u "1700000000" 0) <> 1699999998.
Proof. vm_compute. discriminate. Qed.

(** C4, amended: the 2500 ms round trip is 2.5 s as a [float], [round]
    takes the half away from zero to 3, and the compensated candidate is
    1700000000 - 3 = 1699999997. *)
Theorem compensate_2500ms :
  Libc.sscanf_u "1700000000" 0 = 1700000000 /\
  RTC.offset_sec 1000 3500 = 3 /\
  RTC.compensate 1000 3500 (Libc.sscanf_u "1700000000" 0) = 1699999997.
Proof. vm_compute. repeat split; reflexivity. Qed.

(* ================================================================== *)
(** * What a run leaves in the trace *)
(* ================================================================== *)

Lemma new_events_app st st' evs :
  trace st' = evs ++ trace st -> new_events st st' = evs.
Proof.
  intros H. unfold new_events. rewrite H, length_app.
  replace (List.length evs + List.length (trace st) - List.length (trace st))%nat
    with (List.length evs + 0)%nat by lia.
  rewrite firstn_app_2. cbn. apply app_nil_r.
Qed.

Lemma Extends_refl st : Extends st st.
Proof. exists []. reflexivity. Qed.

Lemma Extends_trans a b c : Extends a b -> Extends b c -> Extends a c.
Proof.
  intros [e1 H1] [e2 H2]. exists (e2 ++ e1).
  rewrite H2, H1. apply app_assoc.
Qed.

Lemma Quiet_refl st : Quiet st st.
Proof. split; [reflexivity | exists []; split; reflexivity]. Qed.

Lemma Quiet_trans a b c : Quiet a b -> Quiet b c -> Quiet a c.
Proof.
  intros [Hb1 (e1 & H1 & F1)] [Hb2 (e2 & H2 & F2)]. split; [congruence |].
  exists (e2 ++ e1). split.
  - rewrite H2, H1. apply app_assoc.
  - rewrite forallb_app, F1, F2. reflexivity.
Qed.

Lemma Quiet_Extends a b : Quiet a b -> Extends a b.
Proof. intros [_ (e & H & _)]. exists e. exact H. Qed.

Lemma Loud_Extends a b : Loud a b -> Extends a b.
Proof. intros (e & H & _). exists e. exact H. Qed.

Lemma Loud_then a b c : Loud a b -> Extends b c -> Loud a c.
Proof.
  intros (e1 & H1 & F1) [e2 H2]. exists (e2 ++ e1). split.
  - rewrite H2, H1. apply app_assoc.
  - rewrite existsb_app, F1. apply orb_true_r.
Qed.

Lemma then_Loud a b c : Extends a b -> Loud b c -> Loud a c.
Proof.
  intros [e1 H1] (e2 & H2 & F2). exists (e2 ++ e1). split.
  - rewrite H2, H1. apply app_assoc.
  - rewrite existsb_app, F2. reflexivity.
Qed.

(** One benign event, some time passing. *)
Lemma Quiet_event st e u :
  benign e = true -> Quiet st (set_uptime u (set_trace (e :: trace st) st)).
Proof.
  intros He. split; [reflexivity |].
  exists [e]. split; [reflexivity |]. cbn. rewrite He. reflexivity.
Qed.

Lemma Quiet_emit st e :
  benign e = true -> Quiet st (set_trace (e :: trace st) st).
Proof.
  intros He. split; [reflexivity |].
  exists [e]. split; [reflexivity |]. cbn. rewrite He. reflexivity.
Qed.

Lemma Quiet_uptime st u : Quiet st (set_uptime u st).
Proof. split; [reflexivity | exists []; split; reflexivity]. Qed.

Lemma Quiet_call {A} e (f : Sys -> A * N) st :
  benign e = true -> Quiet st (snd (call e f st)).
Proof.
  intros He. unfold call. destruct (f st) as [a ms]. cbn [snd].
  apply Quiet_event. exact He.
Qed.

Lemma Quiet_check_timechange_safe C t st :
  Quiet st (snd (RTC.check_timechange_safe C t st)).
Proof.
  unfold RTC.check_timechange_safe. unfold_monad.
  destruct (RTC.tstamp_valid C t); cbn; [| apply Quiet_refl].
  destruct (_timechange_safety_enabled st); cbn; [| apply Quiet_refl].
  destruct (EXTERNAL_RTC_ENABLED C); cbn; [| apply Quiet_refl].
  match goal with |- context [if ?c then _ else _] => destruct c end; cbn.
  - apply Quiet_emit. reflexivity.
  - apply Quiet_refl.
Qed.

Lemma Quiet_get_external_rtc_timestamp E st :
  Quiet st (snd (RTC.get_external_rtc_timestamp E st)).
Proof. unfold RTC.get_external_rtc_timestamp. cbn. apply Quiet_emit. reflexivity. Qed.

Lemma settimeofday_outcome E tv st :
  StepOutcome (if fst (settimeofday E tv st) then RET_OK else RET_ERROR)
    st (snd (settimeofday E tv st)).
Proof.
  unfold settimeofday. destruct (settimeofday_ok E st tv); cbn.
  - right. split; [reflexivity |]. exists [EvSetTimeOfDay tv true]. reflexivity.
  - left. split; [reflexivity |]. apply Quiet_emit. reflexivity.
Qed.

Lemma set_system_time_outcome E t st :
  StepOutcome (fst (RTC.set_system_time E t st)) st (snd (RTC.set_system_time E t st)).
Proof.
  unfold RTC.set_system_time. unfold_monad.
  destruct (s32 t =? -1); cbn.
  - left. split; [reflexivity | apply Quiet_refl].
  - pose proof (settimeofday_outcome E (s32 t) st) as H.
    destruct (settimeofday E (s32 t) st) as [[|] s]; cbn in *; exact H.
Qed.

Lemma Quiet_ntp_loop C E tries : forall last st,
  Quiet st (snd (RTC.ntp_loop C E tries last st)).
Proof.
  induction tries as [| n IH]; intros last st; cbn [RTC.ntp_loop].
  - apply Quiet_refl.
  - unfold_monad.
    pose proof (Quiet_call EvNtpUpdate (GSM_update_ntp_time E) st eq_refl) as Hc.
    destruct (call EvNtpUpdate (GSM_update_ntp_time E) st) as [r s]. cbn [snd] in Hc.
    destruct (negb (RetResult_eqb r RET_OK) && negb (Z.of_nat n - 1 =? 0)); cbn.
    + eapply Quiet_trans; [exact Hc |].
      eapply Quiet_trans; [apply Quiet_uptime | apply IH].
    + exact Hc.
Qed.

Lemma Quiet_get_time_loop C E tries : forall last st,
  Quiet st (snd (RTC.get_time_loop C E tries last st)).
Proof.
  induction tries as [| n IH]; intros last st; cbn [RTC.get_time_loop].
  - apply Quiet_refl.
  - unfold_monad.
    pose proof (Quiet_call EvGsmGetTime (GSM_get_time E) st eq_refl) as Hc.
    destruct (call EvGsmGetTime (GSM_get_time E) st) as [[t |] s]; cbn [snd] in Hc; cbn.
    + exact Hc.
    + destruct (negb (Z.of_nat n - 1 =? 0)); cbn.
      * eapply Quiet_trans; [exact Hc |].
        eapply Quiet_trans; [apply Quiet_uptime | apply IH].
      * exact Hc.
Qed.

(* ================================================================== *)
(** * The time sources: an error leaves the clock alone *)
(* ================================================================== *)

Lemma returning_outcome fn (m : M RetResult) st :
  fn <> FN_sync_gsm_rtc_from_ntp ->
  StepOutcome (fst (m st)) st (snd (m st)) ->
  SourceOutcome (fst (returning fn m st)) st (snd (returning fn m st)).
Proof.
  intros Hfn H. unfold returning. unfold_monad.
  destruct (m st) as [r s]. cbn [fst snd] in *.
  destruct H as [[-> Hq] | [-> He]].
  - left. split; [reflexivity |].
    eapply Quiet_trans; [exact Hq | apply Quiet_emit].
    destruct fn; reflexivity.
  - right. split; [reflexivity |].
    eapply then_Loud; [exact He |].
    exists [EvReturn fn RET_OK]. split; [reflexivity |].
    destruct fn; try reflexivity. contradiction.
Qed.

Lemma StepOutcome_after a b r c :
  Quiet a b -> StepOutcome r b c -> StepOutcome r a c.
Proof.
  intros Hq [[-> H] | [-> H]].
  - left. split; [reflexivity | eapply Quiet_trans; eassumption].
  - right. split; [reflexivity |].
    eapply Extends_trans; [apply Quiet_Extends |]; eassumption.
Qed.

Lemma StepOutcome_error a b : Quiet a b -> StepOutcome RET_ERROR a b.
Proof. intros H. left. split; [reflexivity | exact H]. Qed.

Lemma sync_time_from_http_outcome C E st :
  SourceOutcome (fst (RTC.sync_time_from_http C E st)) st
                (snd (RTC.sync_time_from_http C E st)).
Proof.
  unfold RTC.sync_time_from_http.
  apply returning_outcome; [discriminate |].
  unfold_monad.
  destruct (url_explode E); cbn; [| apply StepOutcome_error, Quiet_refl].
  pose proof (Quiet_call EvHttpGet (http_get E) st eq_refl) as Hc.
  destruct (call EvHttpGet (http_get E) st) as [[body |] s]; cbn [snd] in Hc; cbn;
    [| apply StepOutcome_error; exact Hc].
  destruct (negb (Z.of_nat (String.length body) =? 10)); cbn;
    [apply StepOutcome_error; exact Hc |].
  match goal with
  | |- context [RTC.check_timechange_safe C ?t s] =>
      pose proof (Quiet_check_timechange_safe C t s) as Hg;
      destruct (RTC.check_timechange_safe C t s) as [safe s1];
      cbn [snd] in Hg; cbn;
      destruct safe; cbn;
      [ eapply StepOutcome_after;
        [eapply Quiet_trans; eassumption | apply set_system_time_outcome]
      | apply StepOutcome_error; eapply Quiet_trans; eassumption ]
  end.
Qed.

Lemma sync_time_from_gsm_rtc_outcome C E st :
  SourceOutcome (fst (RTC.sync_time_from_gsm_rtc C E st)) st
                (snd (RTC.sync_time_from_gsm_rtc C E st)).
Proof.
  unfold RTC.sync_time_from_gsm_rtc.
  apply returning_outcome; [discriminate |].
  unfold_monad.
  pose proof (Quiet_get_time_loop C E (GSM_TRIES C) None st) as Hl.
  destruct (RTC.get_time_loop C E (GSM_TRIES C) None st) as [[mk |] s];
    cbn [snd] in Hl; cbn; [| apply StepOutcome_error; exact Hl].
  pose proof (Quiet_check_timechange_safe C (u32 mk) s) as Hg.
  destruct (RTC.check_timechange_safe C (u32 mk) s) as [safe s1].
  cbn [snd] in Hg. cbn. destruct safe; cbn.
  - eapply StepOutcome_after;
      [eapply Quiet_trans; eassumption | apply set_system_time_outcome].
  - apply StepOutcome_error. eapply Quiet_trans; eassumption.
Qed.

Lemma sync_time_from_ext_rtc_outcome C E st :
  SourceOutcome (fst (RTC.sync_time_from_ext_rtc C E st)) st
                (snd (RTC.sync_time_from_ext_rtc C E st)).
Proof.
  unfold RTC.sync_time_from_ext_rtc.
  apply returning_outcome; [discriminate |].
  unfold RTC.print_time. unfold_monad.
  destruct (EXTERNAL_RTC_ENABLED C); cbn [negb fst snd];
    [| apply StepOutcome_error, Quiet_refl].
  pose proof (Quiet_get_external_rtc_timestamp E st) as Hr.
  destruct (RTC.get_external_rtc_timestamp E st) as [t s]. cbn [snd] in Hr.
  pose proof (Quiet_check_timechange_safe C t s) as Hg.
  destruct (RTC.check_timechange_safe C t s) as [safe s1].
  cbn [snd] in Hg. destruct safe; cbn [negb fst snd];
    [| apply StepOutcome_error; eapply Quiet_trans; eassumption].
  pose proof (settimeofday_outcome E (s32 t) s1) as Hs.
  destruct (settimeofday E (s32 t) s1) as [ok s2]. cbn [fst snd] in Hs.
  destruct ok; cbn [negb fst snd].
  - right.
    pose proof (Quiet_get_external_rtc_timestamp E s2) as Hp.
    destruct (RTC.get_external_rtc_timestamp E s2) as [t2 s3]. cbn [fst snd] in *.
    split; [reflexivity |].
    destruct Hs as [[Hs _] | [_ Hs]]; [discriminate |].
    eapply Extends_trans; [apply Quiet_Extends, (Quiet_trans _ _ _ Hr Hg) |].
    eapply Extends_trans; [exact Hs | apply Quiet_Extends, Hp].
  - apply StepOutcome_error.
    destruct Hs as [[_ Hs] | [Hs _]]; [| discriminate].
    eapply Quiet_trans; [| exact Hs]. eapply Quiet_trans; eassumption.
Qed.

Lemma Quiet_sync_gsm_rtc_from_ntp C E st :
  Quiet st (snd (RTC.sync_gsm_rtc_from_ntp C E st)).
Proof.
  unfold RTC.sync_gsm_rtc_from_ntp, returning. unfold_monad.
  pose proof (Quiet_ntp_loop C E (GSM_TRIES C) RET_ERROR st) as Hl.
  destruct (RTC.ntp_loop C E (GSM_TRIES C) RET_ERROR st) as [r s]. cbn [snd] in *.
  eapply Quiet_trans; [exact Hl | apply Quiet_emit].
  destruct r; reflexivity.
Qed.

Lemma SourceOutcome_after a b r c :
  Quiet a b -> SourceOutcome r b c -> SourceOutcome r a c.
Proof.
  intros Hq [[-> H] | [-> H]].
  - left. split; [reflexivity | eapply Quiet_trans; eassumption].
  - right. split; [reflexivity |].
    eapply then_Loud; [apply Quiet_Extends |]; eassumption.
Qed.

(** Run the next source function of the goal: either it failed quietly, and
    the chain goes on from a state reached quietly, or it succeeded and the
    goal is closed. *)
Ltac run_source f lem Hq :=
  match goal with
  | |- context [f ?C ?E ?s] =>
      let H := fresh "Hsrc" in
      let r := fresh "r" in
      let s' := fresh "s" in
      pose proof (lem C E s) as H;
      destruct (f C E s) as [r s']; cbn [fst snd] in H;
      destruct H as [[-> H] | [-> H]];
      cbn [fst snd RetResult_eqb andb negb];
      [ apply (Quiet_trans _ _ _ Hq) in H; clear Hq; rename H into Hq
      | right; split; [reflexivity |];
        eapply then_Loud; [apply Quiet_Extends; exact Hq | exact H] ]
  end.

Ltac chain_failed Hq := left; split; [reflexivity | exact Hq].

(** The fall-back chain as a whole. *)
Lemma try_sources_outcome C E reachable st :
  SourceOutcome (fst (fst (fst (RTC.try_sources C E reachable st)))) st
                (snd (RTC.try_sources C E reachable st)).
Proof.
  unfold RTC.try_sources. unfold_monad.
  pose proof (Quiet_refl st) as Hq.
  destruct reachable.
  - run_source RTC.sync_time_from_http sync_time_from_http_outcome Hq.
    pose proof (Quiet_sync_gsm_rtc_from_ntp C E s) as Hn.
    destruct (RTC.sync_gsm_rtc_from_ntp C E s) as [r2 s2]. cbn [snd] in Hn.
    apply (Quiet_trans _ _ _ Hq) in Hn. clear Hq. rename Hn into Hq.
    destruct r2; cbn [fst snd RetResult_eqb andb negb].
    + run_source RTC.sync_time_from_gsm_rtc sync_time_from_gsm_rtc_outcome Hq.
      destruct (EXTERNAL_RTC_ENABLED C); cbn [fst snd RetResult_eqb andb negb].
      * run_source RTC.sync_time_from_ext_rtc sync_time_from_ext_rtc_outcome Hq.
        run_source RTC.sync_time_from_gsm_rtc sync_time_from_gsm_rtc_outcome Hq.
        chain_failed Hq.
      * run_source RTC.sync_time_from_gsm_rtc sync_time_from_gsm_rtc_outcome Hq.
        chain_failed Hq.
    + destruct (EXTERNAL_RTC_ENABLED C); cbn [fst snd RetResult_eqb andb negb].
      * run_source RTC.sync_time_from_ext_rtc sync_time_from_ext_rtc_outcome Hq.
        run_source RTC.sync_time_from_gsm_rtc sync_time_from_gsm_rtc_outcome Hq.
        chain_failed Hq.
      * run_source RTC.sync_time_from_gsm_rtc sync_time_from_gsm_rtc_outcome Hq.
        chain_failed Hq.
  - destruct (EXTERNAL_RTC_ENABLED C); cbn [fst snd RetResult_eqb andb negb].
    + run_source RTC.sync_time_from_ext_rtc sync_time_from_ext_rtc_outcome Hq.
      chain_failed Hq.
    + chain_failed Hq.
Qed.

(* ================================================================== *)
(** * The orchestrator *)
(* ================================================================== *)

Lemma Quiet_fields st st' :
  boot_epoch_ms st' = boot_epoch_ms st -> trace st' = trace st -> Quiet st st'.
Proof.
  intros Hb Ht. split; [exact Hb |]. exists []. split; [exact Ht | reflexivity].
Qed.

Lemma Quiet_network_reachable E st :
  Quiet st (snd (RTC.network_reachable E st)).
Proof.
  unfold RTC.network_reachable. unfold_monad.
  destruct (GSM_is_gprs_connected E st); cbn [snd]; [apply Quiet_refl |].
  pose proof (Quiet_call EvGsmConnect (GSM_connect_persist E) st eq_refl) as Hc.
  destruct (call EvGsmConnect (GSM_connect_persist E) st) as [r s]. exact Hc.
Qed.

Lemma Extends_set_external_rtc_time C E t st :
  Extends st (snd (RTC.set_external_rtc_time C E t st)).
Proof.
  unfold RTC.set_external_rtc_time. unfold_monad. cbn.
  match goal with |- context [if ?c then _ else _] => destruct c end;
    exists [EvExtRtcWrite (u32 (t - SECONDS_IN_2000 C))]; reflexivity.
Qed.

Lemma Quiet_reset_drift_check st : Quiet st (snd (RTC.reset_drift_check st)).
Proof.
  unfold RTC.reset_drift_check. unfold_monad. cbn.
  apply Quiet_fields; reflexivity.
Qed.

(** [sync] fails quietly or succeeds loudly. *)
Lemma sync_outcome C E enable_safety st :
  SourceOutcome (fst (RTC.sync C E enable_safety st)) st
                (snd (RTC.sync C E enable_safety st)).
Proof.
  unfold RTC.sync. unfold_monad.
  set (s0 := set_safety enable_safety (set_safety enable_safety st)).
  assert (Hq0 : Quiet st s0) by (apply Quiet_fields; reflexivity).
  pose proof (Quiet_network_reachable E s0) as Hn.
  destruct (RTC.network_reachable E s0) as [reachable s1]. cbn [snd] in Hn.
  pose proof (try_sources_outcome C E reachable s1) as Ht.
  destruct (RTC.try_sources C E reachable s1) as [[[r ts] upd] s2].
  cbn [fst snd] in Ht.
  assert (Hq1 : Quiet st s1) by exact (Quiet_trans _ _ _ Hq0 Hn).
  destruct Ht as [[-> Hq] | [-> Hl]]; cbn [RetResult_eqb andb].
  - rewrite andb_false_r. cbn [fst snd].
    left. split; [reflexivity |].
    eapply Quiet_trans; [exact Hq1 |].
    eapply Quiet_trans; [exact Hq |].
    split; [reflexivity |].
    exists [EvLog RTC_SYNC [RTC.get_timestamp_of s0; TIME_SOURCE_value ts]].
    split; reflexivity.
  - right.
    assert (Hl1 : Loud st s2)
      by (eapply then_Loud; [apply Quiet_Extends; exact Hq1 | exact Hl]).
    rewrite andb_true_r. unfold RTC.reset_drift_check. unfold_monad.
    destruct (EXTERNAL_RTC_ENABLED C && upd); cbn [fst snd].
    + pose proof (Extends_set_external_rtc_time C E (u32 (time_of s2)) s2) as Hw.
      destruct (RTC.set_external_rtc_time C E (u32 (time_of s2)) s2) as [rw s3].
      cbn [fst snd] in *. split; [reflexivity |].
      eapply Loud_then; [exact Hl1 |].
      destruct Hw as [evs Hw].
      exists (EvLog RTC_SYNC [RTC.get_timestamp_of s0; TIME_SOURCE_value ts] :: evs).
      cbn. rewrite Hw. reflexivity.
    + split; [reflexivity |].
      eapply Loud_then; [exact Hl1 |].
      exists [EvLog RTC_SYNC [RTC.get_timestamp_of s0; TIME_SOURCE_value ts]].
      reflexivity.
Qed.

(** [_last_sync_tick] is the tick at which [sync] returns, whatever happened. *)
Lemma sync_records_last_sync_tick C E enable_safety st :
  _last_sync_tick (snd (RTC.sync C E enable_safety st)) =
  millis_of (snd (RTC.sync C E enable_safety st)).
Proof.
  unfold RTC.sync, RTC.reset_drift_check. unfold_monad.
  destruct (RTC.network_reachable E _) as [reachable s1].
  destruct (RTC.try_sources C E reachable s1) as [[[r ts] upd] s2].
  destruct (EXTERNAL_RTC_ENABLED C && upd && RetResult_eqb r RET_OK);
    [destruct (RTC.set_external_rtc_time C E (u32 (time_of s2)) s2) as [rw s3] |];
    destruct (RetResult_eqb r RET_OK); reflexivity.
Qed.

(** C5: when no clock-setting source function reports success -- each one
    errors or has its candidate rejected -- [sync] returns [RET_ERROR], the
    system clock keeps its setting, no [settimeofday] succeeded and nothing
    was written to the external RTC; and [_last_sync_tick] is the tick at
    which [sync] returns. *)
Theorem sync_all_sources_fail C E enable_safety st :
  let r := fst (RTC.sync C E enable_safety st) in
  let st' := snd (RTC.sync C E enable_safety st) in
  forallb (fun e => negb (source_succeeded e)) (new_events st st') = true ->
  r = RET_ERROR /\
  boot_epoch_ms st' = boot_epoch_ms st /\
  forallb (fun e => negb (is_commit e)) (new_events st st') = true /\
  forallb (fun e => negb (is_ext_rtc_write e)) (new_events st st') = true /\
  _last_sync_tick st' = millis_of st'.
Proof.
  intros r st' Hfail.
  pose proof (sync_outcome C E enable_safety st) as H.
  pose proof (sync_records_last_sync_tick C E enable_safety st) as Htick.
  fold r st' in H, Htick.
  destruct H as [[Hr [Hb (evs & Ht & Hq)]] | [_ (evs & Ht & Hl)]].
  - rewrite (new_events_app _ _ _ Ht).
    repeat split; try assumption.
    + rewrite forallb_forall in *. intros e He. specialize (Hq e He).
      unfold benign in Hq. destruct (is_commit e); [discriminate | reflexivity].
    + rewrite forallb_forall in *. intros e He. specialize (Hq e He).
      unfold benign in Hq.
      destruct (is_ext_rtc_write e); [| reflexivity].
      rewrite andb_false_r in Hq. discriminate.
  - rewrite (new_events_app _ _ _ Ht) in Hfail.
    apply existsb_exists in Hl as (e & He & Hs).
    rewrite forallb_forall in Hfail. specialize (Hfail e He).
    rewrite Hs in Hfail. discriminate.
Qed.

Lemma sync_all_sources_fail_witness :
  let C := Sample.config true in
  let E := Sample.env true (Some "abcdefghij"%string) 2500%N (Some 5) 5 in
  let st := Sample.state 6000 1600000005 0 1600000000 1000 true in
  fst (RTC.sync C E true st) = RET_ERROR /\
  boot_epoch_ms (snd (RTC.sync C E true st)) = boot_epoch_ms st.
Proof.
  intros C E st.
  pose proof (sync_all_sources_fail C E true st) as H. cbv zeta in H.
  assert (Hf : forallb (fun e => negb (source_succeeded e))
                 (new_events st (snd (RTC.sync C E true st))) = true)
    by (vm_compute; reflexivity).
  destruct (H Hf) as (H1 & H2 & _). split; assumption.
Defined.

Lemma check_timechange_safe_accept_state C t st :
  fst (RTC.check_timechange_safe C t st) = true ->
  snd (RTC.check_timechange_safe C t st) = st.
Proof.
  unfold RTC.check_timechange_safe. unfold_monad.
  destruct (RTC.tstamp_valid C t); cbn [negb]; [| discriminate].
  destruct (_timechange_safety_enabled st); [| reflexivity].
  destruct (EXTERNAL_RTC_ENABLED C); cbn [negb]; [| reflexivity].
  match goal with |- context [if ?c then _ else _] => destruct c end;
    [discriminate | reflexivity].
Qed.

Lemma network_unreachable E st s1 :
  RTC.network_reachable E st = (false, s1) ->
  GSM_is_gprs_connected E st = false /\
  fst (GSM_connect_persist E st) = RET_ERROR /\
  boot_epoch_ms s1 = boot_epoch_ms st /\
  trace s1 = EvGsmConnect :: trace st.
Proof.
  unfold RTC.network_reachable, call. unfold_monad.
  destruct (GSM_is_gprs_connected E st); [discriminate |].
  destruct (GSM_connect_persist E st) as [r ms]. cbn [fst].
  intros H. inversion H; subst; clear H.
  destruct r; [discriminate |]. repeat split; reflexivity.
Qed.

(** C6: with the network unreachable (not connected, and the connection
    attempt fails) and the external RTC enabled and read as a value the
    gate accepts, the only source function [sync] runs is
    [sync_time_from_ext_rtc], once; no GET, NTP update or modem-clock read
    happens and the external RTC is not written.  [sync] succeeds exactly
    when [settimeofday] does. *)
Theorem sync_offline_uses_external_rtc_only C E enable_safety st s1 t s2 :
  EXTERNAL_RTC_ENABLED C = true ->
  RTC.network_reachable E (set_safety enable_safety (set_safety enable_safety st)) = (false, s1) ->
  RTC.get_external_rtc_timestamp E s1 = (t, s2) ->
  fst (RTC.check_timechange_safe C t s2) = true ->
  let r := fst (RTC.sync C E enable_safety st) in
  let st' := snd (RTC.sync C E enable_safety st) in
  invoked_fns (new_events st st') = [FN_sync_time_from_ext_rtc] /\
  filter is_network_source_call (new_events st st') = [] /\
  filter is_ext_rtc_write (new_events st st') = [] /\
  In (EvExtRtcRead t) (new_events st st') /\
  r = (if settimeofday_ok E s2 (s32 t) then RET_OK else RET_ERROR).
Proof.
  intros Hext Hnet Hread Hsafe r st'.
  pose proof (network_unreachable _ _ _ Hnet) as (_ & _ & _ & Ht1).
  cbn [trace set_safety] in Ht1.
  assert (Ht2 : trace s2 = EvExtRtcRead t :: trace s1 /\ t = u32 (ext_rtc_epoch E s1)).
  { unfold RTC.get_external_rtc_timestamp in Hread.
    inversion Hread; subst. split; reflexivity. }
  destruct Ht2 as [Ht2 _].
  pose proof (check_timechange_safe_accept_state C t s2 Hsafe) as Hst.
  assert (Hrun :
    exists evs,
      trace st' = evs ++ trace st /\
      invoked_fns evs = [FN_sync_time_from_ext_rtc] /\
      filter is_network_source_call evs = [] /\
      filter is_ext_rtc_write evs = [] /\
      In (EvExtRtcRead t) evs /\
      r = (if settimeofday_ok E s2 (s32 t) then RET_OK else RET_ERROR)).
  { subst r st'.
    unfold RTC.sync, RTC.try_sources, RTC.sync_time_from_ext_rtc, RTC.print_time,
      RTC.reset_drift_check.
    unfold_monad.
    rewrite Hnet. cbv beta iota. rewrite Hext. cbn [negb andb]. rewrite Hread.
    cbv beta iota.
    destruct (RTC.check_timechange_safe C t s2) as [safe s3].
    cbn [fst snd] in Hsafe, Hst. subst safe s3. cbn [negb].
    unfold settimeofday.
    unfold RTC.get_external_rtc_timestamp.
    destruct (settimeofday_ok E s2 (s32 t));
      cbn -[u32 s32 Z.mul Z.sub Z.add Z.div millis_of time_of RTC.get_timestamp_of];
      rewrite Ht2, Ht1.
    - match goal with
      | |- exists evs, ?a :: ?b :: ?c :: ?d :: ?e :: ?f :: trace st = _ /\ _ =>
          exists [a; b; c; d; e; f]
      end.
      cbn. repeat split; try reflexivity. auto 10.
    - match goal with
      | |- exists evs, ?a :: ?b :: ?c :: ?d :: ?e :: trace st = _ /\ _ =>
          exists [a; b; c; d; e]
      end.
      cbn. repeat split; try reflexivity. auto 10. }
  destruct Hrun as (evs & Ht & H1 & H2 & H3 & H4 & H5).
  rewrite (new_events_app _ _ _ Ht). repeat split; assumption.
Qed.

Lemma sync_offline_uses_external_rtc_only_witness :
  let C := Sample.config true in
  let E := Sample.env false None 0%N None 1600000006 in
  let st := Sample.state 6000 1600000005 0 1600000000 1000 true in
  invoked_fns (new_events st (snd (RTC.sync C E true st))) = [FN_sync_time_from_ext_rtc] /\
  fst (RTC.sync C E true st) = RET_OK.
Proof.
  intros C E st.
  pose proof (sync_offline_uses_external_rtc_only C E true st
                (snd (RTC.network_reachable E (set_safety true (set_safety true st))))
                1600000006
                (snd (RTC.get_external_rtc_timestamp E
                   (snd (RTC.network_reachable E (set_safety true (set_safety true st))))))
                eq_refl eq_refl eq_refl) as H.
  cbv zeta in H.
  assert (Hs : fst (RTC.check_timechange_safe C 1600000006
                 (snd (RTC.get_external_rtc_timestamp E
                    (snd (RTC.network_reachable E (set_safety true (set_safety true st))))))) = true)
    by (vm_compute; reflexivity).
  destruct (H Hs) as (H1 & _ & _ & _ & H5). split; [exact H1 | exact H5].
Defined.

(* ================================================================== *)
(** * The product with 0.05, exactly *)
(* ================================================================== *)

Lemma rne_div_1 x : IEEE.rne_div x 1 = x.
Proof.
  unfold IEEE.rne_div. rewrite Z.mod_1_r, Z.div_1_r. reflexivity.
Qed.

Lemma rne_div_scale x y d :
  0 < y -> 0 < d -> IEEE.rne_div (x * d) (y * d) = IEEE.rne_div x y.
Proof.
  intros Hy Hd. unfold IEEE.rne_div.
  rewrite Z.div_mul_cancel_r by lia.
  rewrite Zmult_mod_distr_r.
  replace (2 * (x mod y * d)) with (2 * (x mod y) * d) by ring.
  rewrite <- Zmult_compare_compat_r by lia. reflexivity.
Qed.

Lemma rne_div_add_even j z y :
  0 < y -> Z.even j = true ->
  IEEE.rne_div (j * y + z) y = j + IEEE.rne_div z y.
Proof.
  intros Hy Hj. unfold IEEE.rne_div.
  rewrite (Z.add_comm (j * y) z), Z.div_add, Z_mod_plus_full by lia.
  rewrite Z.even_add, Hj.
  destruct (2 * (z mod y) ?= y); try lia.
  destruct (Z.even (z / y)); cbn; lia.
Qed.

Lemma rne_div_zero z y : 0 <= z -> 2 * z < y -> IEEE.rne_div z y = 0.
Proof.
  intros Hz Hlt. unfold IEEE.rne_div.
  rewrite Z.mod_small by lia. rewrite Z.div_small by lia.
  destruct (Z.compare_spec (2 * z) y); cbn; lia.
Qed.

Lemma bf_of_Z_exact n :
  0 < n < 2 ^ 52 ->
  IEEE.bf_of_Z IEEE.double_prec n = IEEE.BF (n * 2 ^ (52 - Z.log2 n)) (Z.log2 n - 52).
Proof.
  intros Hn. unfold IEEE.bf_of_Z, IEEE.bf_round, IEEE.double_prec.
  destruct (Z.eqb_spec n 0); [lia |].
  unfold IEEE.flog2. destruct (Z.leb_spec 1 n); [| lia].
  rewrite Z.div_1_r.
  assert (Hl : Z.log2 n < 52) by (apply Z.log2_lt_pow2; lia).
  pose proof (Z.log2_nonneg n).
  replace (Z.log2 n - (53 - 1)) with (Z.log2 n - 52) by lia.
  rewrite (Z.max_r 0 (- (Z.log2 n - 52))) by lia.
  rewrite (Z.max_l 0 (Z.log2 n - 52)) by lia.
  rewrite Z.pow_0_r, Z.mul_1_l, rne_div_1.
  f_equal. f_equal. f_equal. lia.
Qed.

Lemma dbl_0_05_value : IEEE.dbl_0_05 = IEEE.BF IEEE.c57 (-57).
Proof. vm_compute. reflexivity. Qed.

(** The product [n * 0.05] as a double, for [20 <= n < 2^32]. *)
Lemma five_percent_mantissa n :
  20 <= n < 2 ^ 32 ->
  let f := Z.log2 (n * IEEE.c57 / 2 ^ 57) in
  let P := 2 ^ (52 - f) in
  0 <= f <= 27 /\
  n / 20 < 2 ^ (f + 1) /\
  IEEE.bf_mul IEEE.double_prec (IEEE.bf_of_Z IEEE.double_prec n) IEEE.dbl_0_05 =
    IEEE.BF (n / 20 * P + IEEE.rne_div (8 * (n / 20) * P + (n mod 20) * IEEE.c57 * P) (2 ^ 57))
            (f - 52).
Proof.
  intros Hn f P.
  assert (Hq : 1 <= n * IEEE.c57 / 2 ^ 57 < 2 ^ 28).
  { unfold IEEE.c57. split.
    - apply Z.div_le_lower_bound; lia.
    - apply Z.div_lt_upper_bound; lia. }
  assert (Hf : 0 <= f <= 27).
  { unfold f. split; [apply Z.log2_nonneg |].
    apply Z.lt_succ_r. apply Z.log2_lt_pow2; lia. }
  assert (Hk : n / 20 < 2 ^ (f + 1)).
  { pose proof (Z.log2_spec (n * IEEE.c57 / 2 ^ 57) ltac:(lia)) as [_ Hup].
    fold f in Hup. replace (Z.succ f) with (f + 1) in Hup by lia.
    eapply Z.le_lt_trans; [| exact Hup].
    apply Z.div_le_lower_bound; [lia |].
    pose proof (Z.mul_div_le n 20 ltac:(lia)). unfold IEEE.c57. lia. }
  split; [exact Hf |]. split; [exact Hk |].
  rewrite bf_of_Z_exact by lia. rewrite dbl_0_05_value.
  unfold IEEE.bf_mul, IEEE.bf_num, IEEE.bf_den. cbn [IEEE.bf_m IEEE.bf_e].
  assert (Hl : 0 <= Z.log2 n < 32).
  { split; [apply Z.log2_nonneg | apply Z.log2_lt_pow2; lia]. }
  rewrite (Z.max_l 0 (Z.log2 n - 52)) by lia.
  rewrite (Z.max_r 0 (- (Z.log2 n - 52))) by lia.
  change (Z.max 0 (-57)) with 0. change (Z.max 0 (- -57)) with 57.
  rewrite Z.pow_0_r, !Z.mul_1_r.
  set (D := 2 ^ (- (Z.log2 n - 52))).
  replace (2 ^ (52 - Z.log2 n)) with D by (unfold D; f_equal; lia).
  assert (HD : 0 < D) by (apply Z.pow_pos_nonneg; lia).
  unfold IEEE.bf_round, IEEE.double_prec.
  destruct (Z.eqb_spec (n * D * IEEE.c57) 0) as [H0 | _]; [unfold IEEE.c57 in H0; nia |].
  assert (Hdiv : n * D * IEEE.c57 / (D * 2 ^ 57) = n * IEEE.c57 / 2 ^ 57).
  { replace (n * D * IEEE.c57) with (n * IEEE.c57 * D) by ring.
    replace (D * 2 ^ 57) with (2 ^ 57 * D) by ring.
    apply Z.div_mul_cancel_r; lia. }
  unfold IEEE.flog2.
  destruct (Z.leb_spec (D * 2 ^ 57) (n * D * IEEE.c57)) as [_ | Hlt];
    [| unfold IEEE.c57 in Hlt; nia].
  rewrite Hdiv. fold f.
  replace (f - (53 - 1)) with (f - 52) by lia.
  rewrite (Z.max_r 0 (- (f - 52))) by lia.
  rewrite (Z.max_l 0 (f - 52)) by lia.
  rewrite Z.pow_0_r, Z.mul_1_r.
  replace (- (f - 52)) with (52 - f) by lia. fold P.
  f_equal.
  replace (n * D * IEEE.c57 * P) with (n * IEEE.c57 * P * D) by ring.
  replace (D * 2 ^ 57) with (2 ^ 57 * D) by ring.
  rewrite rne_div_scale by lia.
  assert (HP : P = 2 * 2 ^ (51 - f)).
  { unfold P. rewrite <- Z.pow_succ_r by lia. f_equal. lia. }
  rewrite <- rne_div_add_even.
  - f_equal. pose proof (Z.div_mod n 20 ltac:(lia)) as Hdm.
    rewrite Hdm at 1. unfold IEEE.c57. ring.
  - lia.
  - rewrite HP, !Z.even_mul. cbn [Z.even orb]. apply orb_true_r.
Qed.

Lemma five_percent_trunc_ceil n :
  20 <= n < 2 ^ 32 ->
  let y := IEEE.bf_mul IEEE.double_prec (IEEE.bf_of_Z IEEE.double_prec n) IEEE.dbl_0_05 in
  IEEE.bf_trunc y = n / 20 /\ IEEE.bf_ceil y = (n + 19) / 20.
Proof.
  intros Hn y.
  pose proof (five_percent_mantissa n Hn) as H. cbv zeta in H.
  destruct H as (Hf & Hk & Hy). fold y in Hy.
  set (f := Z.log2 (n * IEEE.c57 / 2 ^ 57)) in *.
  set (P := 2 ^ (52 - f)) in *.
  set (k := n / 20) in *. set (r := n mod 20) in *.
  assert (Hr : 0 <= r < 20) by (apply Z.mod_pos_bound; lia).
  assert (Hk0 : 0 <= k < 2 ^ 28).
  { unfold k. split; [apply Z.div_pos; lia | apply Z.div_lt_upper_bound; lia]. }
  assert (Hn20 : n = 20 * k + r) by (apply Z.div_mod; lia).
  assert (HP : 2 ^ 25 <= P) by (apply Z.pow_le_mono_r; lia).
  assert (HkP : k * P < 2 ^ 53).
  { replace (2 ^ 53) with (2 ^ (f + 1) * P).
    - apply Z.mul_lt_mono_pos_r; lia.
    - unfold P. rewrite <- Z.pow_add_r by lia. f_equal. lia. }
  unfold IEEE.bf_trunc, IEEE.bf_ceil, IEEE.bf_num, IEEE.bf_den.
  rewrite Hy. cbn [IEEE.bf_m IEEE.bf_e].
  rewrite (Z.max_l 0 (f - 52)) by lia.
  rewrite (Z.max_r 0 (- (f - 52))) by lia.
  replace (- (f - 52)) with (52 - f) by lia. fold P.
  rewrite Z.pow_0_r, Z.mul_1_r.
  set (R := IEEE.rne_div (8 * k * P + r * IEEE.c57 * P) (2 ^ 57)).
  destruct (Z.eq_dec r 0) as [Hr0 | Hr0].
  - assert (HR : R = 0).
    { unfold R. rewrite Hr0. apply rne_div_zero; lia. }
    rewrite HR, Z.add_0_r.
    rewrite <- Z.mul_opp_l, !Z.div_mul by lia.
    split; [reflexivity |].
    replace (n + 19) with (19 + k * 20) by lia.
    rewrite Z.div_add by lia. cbn. lia.
  - assert (HR : 1 <= R <= P - 1).
    { pose proof (rne_div_bounds (8 * k * P + r * IEEE.c57 * P) (2 ^ 57) ltac:(lia)) as [Hlo Hhi].
      fold R in Hlo, Hhi.
      assert (1 <= (8 * k * P + r * IEEE.c57 * P) / 2 ^ 57).
      { apply Z.div_le_lower_bound; [lia |]. unfold IEEE.c57. nia. }
      assert ((8 * k * P + r * IEEE.c57 * P) / 2 ^ 57 < P - 1).
      { apply Z.div_lt_upper_bound; [lia |]. unfold IEEE.c57. nia. }
      lia. }
    split.
    + replace (k * P + R) with (R + k * P) by ring.
      rewrite Z.div_add by lia. rewrite Z.div_small by lia. reflexivity.
    + replace (- (k * P + R)) with (P - R + (- k - 1) * P) by ring.
      rewrite Z.div_add by lia. rewrite Z.div_small by lia.
      replace (n + 19) with (r + 19 + k * 20) by lia.
      rewrite Z.div_add by lia.
      assert ((r + 19) / 20 = 1).
      { symmetry. apply (Z.div_unique (r + 19) 20 1 (r - 1)); lia. }
      lia.
Qed.

Lemma count_down_forall (p : Z -> bool) m :
  forallb p (IEEE.count_down m) = true ->
  forall n, 0 <= n < Z.of_nat m -> p n = true.
Proof.
  induction m as [| m IH]; intros H n Hn; [lia |].
  cbn [IEEE.count_down forallb] in H. apply andb_true_iff in H as [H0 H1].
  destruct (Z.eq_dec n (Z.of_nat m)) as [-> | Hne]; [exact H0 |].
  apply IH; [exact H1 | lia].
Qed.

(** For every 32-bit [n], [n * 0.05] truncates to [n / 20] and its [ceil]
    is [n / 20] rounded up. *)
Lemma five_percent n :
  0 <= n < 2 ^ 32 ->
  let y := IEEE.bf_mul IEEE.double_prec (IEEE.bf_of_Z IEEE.double_prec n) IEEE.dbl_0_05 in
  IEEE.bf_trunc y = n / 20 /\ IEEE.bf_ceil y = (n + 19) / 20.
Proof.
  intros Hn. destruct (Z_lt_le_dec n 20) as [Hsmall | Hbig].
  - pose proof (count_down_forall
        (fun n =>
           let y := IEEE.bf_mul IEEE.double_prec (IEEE.bf_of_Z IEEE.double_prec n)
                      IEEE.dbl_0_05 in
           (IEEE.bf_trunc y =? n / 20) && (IEEE.bf_ceil y =? (n + 19) / 20))
        20 ltac:(vm_compute; reflexivity) n ltac:(lia)) as H.
    cbv zeta in H. apply andb_true_iff in H as [H1 H2].
    apply Z.eqb_eq in H1. apply Z.eqb_eq in H2. split; assumption.
  - apply five_percent_trunc_ceil. lia.
Qed.

Lemma bf_ceil_of_Z n :
  0 <= n < 2 ^ 52 -> IEEE.bf_ceil (IEEE.bf_of_Z IEEE.double_prec n) = n.
Proof.
  intros Hn. destruct (Z.eq_dec n 0) as [-> | Hnz]; [vm_compute; reflexivity |].
  rewrite bf_of_Z_exact by lia.
  unfold IEEE.bf_ceil, IEEE.bf_num, IEEE.bf_den. cbn [IEEE.bf_m IEEE.bf_e].
  assert (Hl : 0 <= Z.log2 n < 52).
  { split; [apply Z.log2_nonneg | apply Z.log2_lt_pow2; lia]. }
  rewrite (Z.max_l 0 (Z.log2 n - 52)) by lia.
  rewrite (Z.max_r 0 (- (Z.log2 n - 52))) by lia.
  rewrite Z.pow_0_r, Z.mul_1_r.
  replace (- (Z.log2 n - 52)) with (52 - Z.log2 n) by lia.
  assert (0 < 2 ^ (52 - Z.log2 n)) by (apply Z.pow_pos_nonneg; lia).
  rewrite <- Z.mul_opp_l, Z.div_mul by lia. lia.
Qed.

Lemma safe_tolerance_eq ms :
  0 <= ms < 2 ^ 32 -> RTC.safe_tolerance ms = Z.max 10 (ms / 1000 / 20).
Proof.
  intros Hms. unfold RTC.safe_tolerance.
  assert (Hs : 0 <= ms / 1000 < 2 ^ 32).
  { split; [apply Z.div_pos; lia | apply Z.div_lt_upper_bound; lia]. }
  rewrite bf_ceil_of_Z by lia.
  pose proof (five_percent (ms / 1000) Hs) as [Ht _]. rewrite Ht.
  assert (0 <= ms / 1000 / 20 < 2 ^ 31).
  { split; [apply Z.div_pos; lia | apply Z.div_lt_upper_bound; lia]. }
  rewrite s32_small by lia.
  destruct (Z.ltb_spec (ms / 1000 / 20) 10); lia.
Qed.

Lemma drift_tolerance_eq n :
  0 <= n < 2 ^ 32 -> RTC.drift_tolerance n = Z.max 10 ((n + 19) / 20).
Proof.
  intros Hn. unfold RTC.drift_tolerance.
  pose proof (five_percent n Hn) as [_ Hc]. rewrite Hc.
  assert (0 <= (n + 19) / 20 < 2 ^ 31).
  { split; [apply Z.div_pos; lia | apply Z.div_lt_upper_bound; lia]. }
  rewrite s32_small by lia.
  destruct (Z.ltb_spec ((n + 19) / 20) 10); lia.
Qed.

Lemma spec_tolerance_eq n : Spec.tolerance n = Z.max 10 ((n + 19) / 20).
Proof.
  unfold Spec.tolerance. f_equal.
  replace (- (5 * n)) with (- n * 5) by ring.
  replace 100 with (20 * 5) by reflexivity.
  rewrite Z.div_mul_cancel_r by lia.
  pose proof (Z.div_mod (n + 19) 20 ltac:(lia)) as H1.
  pose proof (Z.mod_pos_bound (n + 19) 20 ltac:(lia)) as H2.
  symmetry. apply Z.opp_inj. rewrite Z.opp_involutive.
  apply (Z.div_unique (- n) 20 _ (19 - (n + 19) mod 20)); lia.
Qed.

(* ================================================================== *)
(** * More on the safety gate *)
(* ================================================================== *)

(** X1: the tolerance [check_timechange_safe] computes from the
    milliseconds since the last sync is 10 or a twentieth of the whole
    elapsed seconds rounded down, whichever is larger. *)
Theorem safe_tolerance_is_5_percent_rounded_down x :
  RTC.safe_tolerance (u32 x) = Z.max 10 (u32 x / 1000 / 20).
Proof. apply safe_tolerance_eq. apply u32_range. Qed.

(** X2: without a reference to compare with -- timechange safety switched
    off, or no external RTC -- the gate is the plausibility test alone and
    touches nothing. *)
Theorem check_timechange_safe_without_reference C st t :
  _timechange_safety_enabled st = false \/ EXTERNAL_RTC_ENABLED C = false ->
  RTC.check_timechange_safe C t st = (RTC.tstamp_valid C t, st).
Proof.
  intros H. unfold RTC.check_timechange_safe. unfold_monad.
  destruct (RTC.tstamp_valid C t); cbn [negb]; [| reflexivity].
  destruct (_timechange_safety_enabled st) eqn:Hs; [| reflexivity].
  destruct H as [H | H]; [discriminate |].
  rewrite H. reflexivity.
Qed.

Lemma check_timechange_safe_without_reference_witness :
  RTC.check_timechange_safe (Sample.config true) 1999999999
    (Sample.state 6000 1600000000 0 0 0 false) =
  (true, Sample.state 6000 1600000000 0 0 0 false).
Proof.
  apply (check_timechange_safe_without_reference (Sample.config true)
           (Sample.state 6000 1600000000 0 0 0 false) 1999999999).
  left. reflexivity.
Defined.

(** X3: with timechange safety on and the external RTC enabled, and as long
    as neither bound of the band wraps around, a plausible candidate is
    accepted exactly when it is within [tol] seconds of the system clock,
    [tol] being max(10, whole elapsed seconds / 20). *)
Theorem check_timechange_safe_band C st t :
  _timechange_safety_enabled st = true ->
  EXTERNAL_RTC_ENABLED C = true ->
  RTC.tstamp_valid C t = true ->
  let cur := RTC.get_timestamp_of st in
  let tol := Z.max 10 (u32 (millis_of st - _last_sync_tick st) / 1000 / 20) in
  tol <= cur ->
  cur + tol < 2 ^ 32 ->
  (fst (RTC.check_timechange_safe C t st) = true <-> cur - tol <= t <= cur + tol).
Proof.
  intros Hs He Hv cur tol Hlo Hhi.
  unfold RTC.check_timechange_safe. unfold_monad.
  rewrite Hv. cbn [negb]. cbv beta iota zeta.
  rewrite Hs, He. cbn [negb]. cbv beta iota zeta.
  rewrite safe_tolerance_eq by apply u32_range.
  fold cur tol.
  pose proof (u32_range (time_of st)) as Hc. fold (RTC.get_timestamp_of st) in Hc.
  fold cur in Hc.
  rewrite (u32_small (cur - tol)) by lia.
  rewrite (u32_small (cur + tol)) by lia.
  destruct (Z.ltb_spec t (cur - tol)); cbn [orb fst].
  - split; [discriminate | lia].
  - destruct (Z.ltb_spec (cur + tol) t); cbn [fst].
    + split; [discriminate | lia].
    + split; [lia | reflexivity].
Qed.

Lemma check_timechange_safe_band_witness :
  let C := Sample.config true in
  let st := Sample.state 401000 1600000000 0 0 0 true in
  fst (RTC.check_timechange_safe C 1600000020 st) = true /\
  fst (RTC.check_timechange_safe C 1600000021 st) = false.
Proof.
  intros C st.
  pose proof (check_timechange_safe_band C st 1600000020 eq_refl eq_refl eq_refl) as H20.
  pose proof (check_timechange_safe_band C st 1600000021 eq_refl eq_refl eq_refl) as H21.
  cbv zeta in H20, H21.
  assert (Hlo : Z.max 10 (u32 (millis_of st - _last_sync_tick st) / 1000 / 20)
                <= RTC.get_timestamp_of st) by (vm_compute; discriminate).
  assert (Hhi : RTC.get_timestamp_of st
                + Z.max 10 (u32 (millis_of st - _last_sync_tick st) / 1000 / 20) < 2 ^ 32)
    by (vm_compute; reflexivity).
  specialize (H20 Hlo Hhi). specialize (H21 Hlo Hhi).
  split.
  - apply H20. vm_compute. split; discriminate.
  - destruct (fst (RTC.check_timechange_safe C 1600000021 st)); [| reflexivity].
    destruct (proj1 H21 eq_refl) as [_ Hle]. vm_compute in Hle.
    exfalso. apply Hle. reflexivity.
Defined.

Lemma check_timechange_safe_state C st t :
  snd (RTC.check_timechange_safe C t st) =
    if RTC.tstamp_valid C t && negb (fst (RTC.check_timechange_safe C t st))
    then set_trace (EvLog RTC_DETECTED_UNSAFE_TIMECHANGE [t] :: trace st) st
    else st.
Proof.
  unfold RTC.check_timechange_safe. unfold_monad.
  destruct (RTC.tstamp_valid C t); cbn [negb andb]; [| reflexivity].
  destruct (_timechange_safety_enabled st); [| reflexivity].
  destruct (EXTERNAL_RTC_ENABLED C); cbn [negb]; [| reflexivity].
  match goal with |- context [if ?c then _ else _] => destruct c end; reflexivity.
Qed.

(** X4: the gate changes nothing but the log, and it logs exactly when it
    rejects a plausible candidate: an implausible one is dropped silently,
    a candidate outside the band leaves one [RTC_DETECTED_UNSAFE_TIMECHANGE]
    entry carrying it. *)
Theorem check_timechange_safe_effect C st t :
  snd (RTC.check_timechange_safe C t st) =
    if RTC.tstamp_valid C t && negb (fst (RTC.check_timechange_safe C t st))
    then set_trace (EvLog RTC_DETECTED_UNSAFE_TIMECHANGE [t] :: trace st) st
    else st.
Proof. exact (check_timechange_safe_state C st t). Qed.

(* ================================================================== *)
(** * More on the drift detector *)
(* ================================================================== *)

(** X5: the tolerance of [detect_drift] is the one the specification
    gives, max(10, ceil(5% of the elapsed tick seconds)). *)
Theorem drift_tolerance_is_5_percent_rounded_up cur_tick last_tick :
  RTC.drift_tolerance (RTC.tick_since_sync_sec cur_tick last_tick) =
  Spec.tolerance (RTC.tick_since_sync_sec cur_tick last_tick).
Proof.
  pose proof (tick_since_sync_sec_range cur_tick last_tick).
  rewrite drift_tolerance_eq by lia. symmetry. apply spec_tolerance_eq.
Qed.

(** X6: once ten tick seconds have elapsed since a checkpoint,
    [detect_drift] returns what the specification's formula gives: the
    signed difference of the two elapsed times when the external RTC is
    outside the band, 0 inside. *)
Theorem detect_drift_matches_spec_from_10s C E st :
  EXTERNAL_RTC_ENABLED C = true ->
  _last_drift_check_tick st <> 0 ->
  _last_drift_check_tstamp st <> 0 ->
  let ticks := RTC.tick_since_sync_sec (millis_of st) (_last_drift_check_tick st) in
  let tstamps := RTC.tstamp_since_sync (u32 (ext_rtc_epoch E st)) (_last_drift_check_tstamp st) in
  10 <= ticks ->
  fst (RTC.detect_drift C E st) = Spec.detect_drift ticks tstamps.
Proof.
  intros Hext Htick Htstamp ticks tstamps H10.
  pose proof (tick_since_sync_sec_range (millis_of st) (_last_drift_check_tick st)) as Hticks.
  pose proof (tstamp_since_sync_range (u32 (ext_rtc_epoch E st)) (_last_drift_check_tstamp st)) as Htst.
  fold ticks in Hticks. fold tstamps in Htst.
  rewrite detect_drift_value, Hext. cbn [negb].
  apply Z.eqb_neq in Htick. apply Z.eqb_neq in Htstamp.
  rewrite Htick, Htstamp. cbn [orb].
  unfold drift_of, Spec.detect_drift. fold ticks tstamps.
  rewrite drift_tolerance_eq by lia. rewrite spec_tolerance_eq.
  set (tol := Z.max 10 ((ticks + 19) / 20)).
  assert (Htol : 10 <= tol <= ticks).
  { unfold tol. split; [lia |].
    apply Z.max_lub; [lia |].
    apply Z.lt_succ_r. apply Z.div_lt_upper_bound; lia. }
  rewrite (u32_small (ticks - tol)) by lia.
  rewrite (u32_small (ticks + tol)) by lia.
  destruct ((tstamps <? ticks - tol) || (ticks + tol <? tstamps)); [| reflexivity].
  rewrite s32_u32. apply s32_small. lia.
Qed.

Lemma detect_drift_matches_spec_from_10s_witness :
  let C := Sample.config true in
  let E := Sample.env false None 0%N None 1600000135 in
  let st := Sample.state 121000 1600000120 0 1600000000 1000 true in
  fst (RTC.detect_drift C E st) = Spec.detect_drift 120 135.
Proof.
  intros C E st.
  apply (detect_drift_matches_spec_from_10s C E st); vm_compute;
    try reflexivity; discriminate.
Defined.

(* ================================================================== *)
(** * What the source functions keep and what they emit *)
(* ================================================================== *)

Lemma Frame_refl st : Frame st st.
Proof. unfold Frame. repeat split; lia. Qed.

Lemma Frame_trans a b c : Frame a b -> Frame b c -> Frame a c.
Proof.
  unfold Frame. intros (H1 & H2 & H3 & H4 & H5) (G1 & G2 & G3 & G4 & G5).
  repeat split; try congruence. lia.
Qed.

Lemma Good_refl C st : Good C st st.
Proof. split; [apply Frame_refl | exists []; split; reflexivity]. Qed.

Lemma Good_trans C a b c : Good C a b -> Good C b c -> Good C a c.
Proof.
  intros [F1 (e1 & H1 & P1)] [F2 (e2 & H2 & P2)].
  split; [eapply Frame_trans; eassumption |].
  exists (e2 ++ e1). split.
  - rewrite H2, H1. apply app_assoc.
  - rewrite forallb_app, P1, P2. reflexivity.
Qed.

Lemma Good_Extends C a b : Good C a b -> Extends a b.
Proof. intros [_ (e & H & _)]. exists e. exact H. Qed.

Lemma Good_emit C st e :
  source_event_ok C e = true -> Good C st (set_trace (e :: trace st) st).
Proof.
  intros He. split; [unfold Frame; cbn; repeat split; lia |].
  exists [e]. split; [reflexivity |]. cbn. rewrite He. reflexivity.
Qed.

Lemma Good_elapse C st ms : Good C st (set_uptime (uptime_ms st + Z.of_N ms) st).
Proof.
  split; [unfold Frame; cbn; repeat split; lia |].
  exists []. split; reflexivity.
Qed.

Lemma Good_call C {A} e (f : Sys -> A * N) st :
  source_event_ok C e = true -> Good C st (snd (call e f st)).
Proof.
  intros He. unfold call. destruct (f st) as [a ms]. cbn [snd].
  split; [unfold Frame; cbn; repeat split; lia |].
  exists [e]. split; [reflexivity |]. cbn. rewrite He. reflexivity.
Qed.

Lemma Good_check_timechange_safe C t st :
  Good C st (snd (RTC.check_timechange_safe C t st)).
Proof.
  rewrite check_timechange_safe_state.
  destruct (RTC.tstamp_valid C t && negb (fst (RTC.check_timechange_safe C t st))).
  - apply Good_emit. reflexivity.
  - apply Good_refl.
Qed.

Lemma Good_get_external_rtc_timestamp C E st :
  Good C st (snd (RTC.get_external_rtc_timestamp E st)).
Proof. unfold RTC.get_external_rtc_timestamp. cbn. apply Good_emit. reflexivity. Qed.

Lemma Committed_then a b c : Committed a b -> Extends b c -> Committed a c.
Proof.
  intros (e1 & H1 & F1) [e2 H2]. exists (e2 ++ e1). split.
  - rewrite H2, H1. apply app_assoc.
  - rewrite existsb_app, F1. apply orb_true_r.
Qed.

Lemma then_Committed a b c : Extends a b -> Committed b c -> Committed a c.
Proof.
  intros [e1 H1] (e2 & H2 & F2). exists (e2 ++ e1). split.
  - rewrite H2, H1. apply app_assoc.
  - rewrite existsb_app, F2. reflexivity.
Qed.

Lemma SourceGood_after C a b r c :
  Good C a b -> SourceGood C r b c -> SourceGood C r a c.
Proof.
  intros Hg [Hg' Hc]. split; [eapply Good_trans; eassumption |].
  intros Hr. eapply then_Committed; [eapply Good_Extends; exact Hg | auto].
Qed.

Lemma SourceGood_error C a b : Good C a b -> SourceGood C RET_ERROR a b.
Proof. intros H. split; [exact H | discriminate]. Qed.

(** [settimeofday] with a value that is plausible as a [uint32_t]. *)
Lemma settimeofday_good C E tv st :
  RTC.tstamp_valid C (u32 tv) = true ->
  SourceGood C (if fst (settimeofday E tv st) then RET_OK else RET_ERROR)
    st (snd (settimeofday E tv st)).
Proof.
  intros Hv. unfold settimeofday. destruct (settimeofday_ok E st tv); cbn [fst snd].
  - split.
    + split; [unfold Frame; cbn; repeat split; lia |].
      exists [EvSetTimeOfDay tv true]. split; [reflexivity |].
      cbn. rewrite Hv. reflexivity.
    + intros _. exists [EvSetTimeOfDay tv true]. split; reflexivity.
  - apply SourceGood_error. apply Good_emit. reflexivity.
Qed.

Lemma u32_s32 x : u32 (s32 x) = u32 x.
Proof.
  unfold u32, s32.
  rewrite <- Zminus_mod_idemp_l.
  rewrite Z.mod_mod by lia.
  rewrite Zminus_mod_idemp_l.
  replace (x + 2 ^ 31 - 2 ^ 31) with x by ring. reflexivity.
Qed.

Lemma set_system_time_good C E t st :
  RTC.tstamp_valid C (u32 t) = true ->
  SourceGood C (fst (RTC.set_system_time E t st)) st (snd (RTC.set_system_time E t st)).
Proof.
  intros Hv. unfold RTC.set_system_time. unfold_monad.
  destruct (s32 t =? -1); cbn [fst snd].
  - apply SourceGood_error, Good_refl.
  - assert (Hv' : RTC.tstamp_valid C (u32 (s32 t)) = true) by (rewrite u32_s32; exact Hv).
    pose proof (settimeofday_good C E (s32 t) st Hv') as H.
    destruct (settimeofday E (s32 t) st) as [[|] s]; cbn [fst snd] in *; exact H.
Qed.

Lemma Good_ntp_loop C E tries : forall last st,
  Good C st (snd (RTC.ntp_loop C E tries last st)).
Proof.
  induction tries as [| n IH]; intros last st; cbn [RTC.ntp_loop].
  - apply Good_refl.
  - unfold_monad.
    pose proof (Good_call C EvNtpUpdate (GSM_update_ntp_time E) st eq_refl) as Hc.
    destruct (call EvNtpUpdate (GSM_update_ntp_time E) st) as [r s]. cbn [snd] in Hc.
    destruct (negb (RetResult_eqb r RET_OK) && negb (Z.of_nat n - 1 =? 0)); cbn [snd].
    + eapply Good_trans; [exact Hc |].
      eapply Good_trans; [apply Good_elapse | apply IH].
    + exact Hc.
Qed.

Lemma Good_get_time_loop C E tries : forall last st,
  Good C st (snd (RTC.get_time_loop C E tries last st)).
Proof.
  induction tries as [| n IH]; intros last st; cbn [RTC.get_time_loop].
  - apply Good_refl.
  - unfold_monad.
    pose proof (Good_call C EvGsmGetTime (GSM_get_time E) st eq_refl) as Hc.
    destruct (call EvGsmGetTime (GSM_get_time E) st) as [[t |] s]; cbn [snd] in Hc; cbn [snd].
    + exact Hc.
    + destruct (negb (Z.of_nat n - 1 =? 0)); cbn [snd].
      * eapply Good_trans; [exact Hc |].
        eapply Good_trans; [apply Good_elapse | apply IH].
      * exact Hc.
Qed.

Lemma returning_good C fn (m : M RetResult) st :
  SourceGood C (fst (m st)) st (snd (m st)) ->
  SourceGood C (fst (returning fn m st)) st (snd (returning fn m st)).
Proof.
  intros [Hg Hc]. unfold returning. unfold_monad.
  destruct (m st) as [r s]. cbn [fst snd] in *.
  split.
  - eapply Good_trans; [exact Hg | apply Good_emit; reflexivity].
  - intros Hr. eapply Committed_then; [auto |].
    exists [EvReturn fn r]. reflexivity.
Qed.

(** The gate's verdict carries over to the value handed to [settimeofday]. *)
Lemma accepted_u32_valid C x st :
  fst (RTC.check_timechange_safe C (u32 x) st) = true ->
  RTC.tstamp_valid C (u32 (u32 x)) = true.
Proof.
  intros H. apply check_timechange_safe_valid in H.
  rewrite (u32_small (u32 x)) by apply u32_range. exact H.
Qed.

Lemma sync_time_from_http_good C E st :
  SourceGood C (fst (RTC.sync_time_from_http C E st)) st
               (snd (RTC.sync_time_from_http C E st)).
Proof.
  unfold RTC.sync_time_from_http. apply returning_good. unfold_monad.
  destruct (url_explode E); cbn [fst snd]; [| apply SourceGood_error, Good_refl].
  pose proof (Good_call C EvHttpGet (http_get E) st eq_refl) as Hc.
  destruct (call EvHttpGet (http_get E) st) as [[body |] s]; cbn [snd] in Hc; cbn [fst snd];
    [| apply SourceGood_error; exact Hc].
  destruct (negb (Z.of_nat (String.length body) =? 10)); cbn [fst snd];
    [apply SourceGood_error; exact Hc |].
  unfold RTC.compensate.
  match goal with
  | |- context [RTC.check_timechange_safe C (u32 ?x) s] =>
      pose proof (Good_check_timechange_safe C (u32 x) s) as Hg;
      pose proof (accepted_u32_valid C x s) as Hv;
      destruct (RTC.check_timechange_safe C (u32 x) s) as [safe s1];
      cbn [fst snd] in Hg, Hv; destruct safe; cbn [negb fst snd];
      [ eapply SourceGood_after;
        [eapply Good_trans; eassumption | apply set_system_time_good; auto]
      | apply SourceGood_error; eapply Good_trans; eassumption ]
  end.
Qed.

Lemma sync_time_from_gsm_rtc_good C E st :
  SourceGood C (fst (RTC.sync_time_from_gsm_rtc C E st)) st
               (snd (RTC.sync_time_from_gsm_rtc C E st)).
Proof.
  unfold RTC.sync_time_from_gsm_rtc. apply returning_good. unfold_monad.
  pose proof (Good_get_time_loop C E (GSM_TRIES C) None st) as Hl.
  destruct (RTC.get_time_loop C E (GSM_TRIES C) None st) as [[mk |] s];
    cbn [snd] in Hl; cbn [fst snd]; [| apply SourceGood_error; exact Hl].
  pose proof (Good_check_timechange_safe C (u32 mk) s) as Hg.
  pose proof (accepted_u32_valid C mk s) as Hv.
  destruct (RTC.check_timechange_safe C (u32 mk) s) as [safe s1].
  cbn [fst snd] in Hg, Hv. destruct safe; cbn [negb fst snd].
  - eapply SourceGood_after;
      [eapply Good_trans; eassumption | apply set_system_time_good; auto].
  - apply SourceGood_error. eapply Good_trans; eassumption.
Qed.

Lemma sync_time_from_ext_rtc_good C E st :
  SourceGood C (fst (RTC.sync_time_from_ext_rtc C E st)) st
               (snd (RTC.sync_time_from_ext_rtc C E st)).
Proof.
  unfold RTC.sync_time_from_ext_rtc. apply returning_good.
  unfold RTC.print_time. unfold_monad.
  destruct (EXTERNAL_RTC_ENABLED C); cbn [negb fst snd];
    [| apply SourceGood_error, Good_refl].
  pose proof (Good_get_external_rtc_timestamp C E st) as Hr.
  destruct (RTC.get_external_rtc_timestamp E st) as [t0 s] eqn:Hread.
  cbn [fst snd] in Hr.
  assert (Ht0 : t0 = u32 (ext_rtc_epoch E st))
    by (unfold RTC.get_external_rtc_timestamp in Hread; congruence).
  set (t := ext_rtc_epoch E st) in *. subst t0. clear Hread.
  pose proof (Good_check_timechange_safe C (u32 t) s) as Hg.
  pose proof (accepted_u32_valid C t s) as Hv.
  destruct (RTC.check_timechange_safe C (u32 t) s) as [safe s1].
  cbn [fst snd] in Hg, Hv.
  pose proof (Good_trans C _ _ _ Hr Hg) as Hrg.
  destruct safe; cbn [negb fst snd];
    [| apply SourceGood_error; exact Hrg].
  assert (Hv' : RTC.tstamp_valid C (u32 (s32 (u32 t))) = true)
    by (rewrite u32_s32; auto).
  pose proof (settimeofday_good C E (s32 (u32 t)) s1 Hv') as Hs.
  destruct (settimeofday E (s32 (u32 t)) s1) as [ok s2]. cbn [fst snd] in Hs.
  destruct ok; cbn [negb fst snd].
  - pose proof (Good_get_external_rtc_timestamp C E s2) as Hp.
    destruct (RTC.get_external_rtc_timestamp E s2) as [t2 s3]. cbn [fst snd] in *.
    destruct Hs as [Hs Hc]. split.
    + exact (Good_trans C _ _ _ Hrg (Good_trans C _ _ _ Hs Hp)).
    + intros _.
      apply (then_Committed _ _ _ (Good_Extends C _ _ Hrg)).
      exact (Committed_then _ _ _ (Hc eq_refl) (Good_Extends C _ _ Hp)).
  - apply SourceGood_error. destruct Hs as [Hs _].
    exact (Good_trans C _ _ _ Hrg Hs).
Qed.

Lemma Good_sync_gsm_rtc_from_ntp C E st :
  Good C st (snd (RTC.sync_gsm_rtc_from_ntp C E st)).
Proof.
  unfold RTC.sync_gsm_rtc_from_ntp, returning. unfold_monad.
  pose proof (Good_ntp_loop C E (GSM_TRIES C) RET_ERROR st) as Hl.
  destruct (RTC.ntp_loop C E (GSM_TRIES C) RET_ERROR st) as [r s]. cbn [snd] in *.
  eapply Good_trans; [exact Hl | apply Good_emit; reflexivity].
Qed.

Ltac run_good_source f lem Hq :=
  match goal with
  | |- context [f ?C ?E ?s] =>
      let H := fresh "Hsrc" in
      let Hc := fresh "Hcommit" in
      let r := fresh "r" in
      let s' := fresh "s" in
      pose proof (lem C E s) as H;
      destruct (f C E s) as [r s']; cbn [fst snd] in H;
      destruct H as [H Hc];
      destruct r; cbn [fst snd RetResult_eqb andb negb];
      [ split;
        [ exact (Good_trans C _ _ _ Hq H)
        | intros _;
          exact (then_Committed _ _ _ (Good_Extends C _ _ Hq) (Hc eq_refl)) ]
      | apply (Good_trans C _ _ _ Hq) in H; clear Hq Hc; rename H into Hq ]
  end.

Ltac good_chain_failed Hq := split; [exact Hq | discriminate].

Lemma try_sources_good C E reachable st :
  SourceGood C (fst (fst (fst (RTC.try_sources C E reachable st)))) st
               (snd (RTC.try_sources C E reachable st)).
Proof.
  unfold RTC.try_sources. unfold_monad.
  pose proof (Good_refl C st) as Hq.
  destruct reachable.
  - run_good_source RTC.sync_time_from_http sync_time_from_http_good Hq.
    pose proof (Good_sync_gsm_rtc_from_ntp C E s) as Hn.
    destruct (RTC.sync_gsm_rtc_from_ntp C E s) as [r2 s2]. cbn [snd] in Hn.
    apply (Good_trans C _ _ _ Hq) in Hn. clear Hq. rename Hn into Hq.
    destruct r2; cbn [fst snd RetResult_eqb andb negb].
    + run_good_source RTC.sync_time_from_gsm_rtc sync_time_from_gsm_rtc_good Hq.
      destruct (EXTERNAL_RTC_ENABLED C); cbn [fst snd RetResult_eqb andb negb].
      * run_good_source RTC.sync_time_from_ext_rtc sync_time_from_ext_rtc_good Hq.
        run_good_source RTC.sync_time_from_gsm_rtc sync_time_from_gsm_rtc_good Hq.
        good_chain_failed Hq.
      * run_good_source RTC.sync_time_from_gsm_rtc sync_time_from_gsm_rtc_good Hq.
        good_chain_failed Hq.
    + destruct (EXTERNAL_RTC_ENABLED C); cbn [fst snd RetResult_eqb andb negb].
      * run_good_source RTC.sync_time_from_ext_rtc sync_time_from_ext_rtc_good Hq.
        run_good_source RTC.sync_time_from_gsm_rtc sync_time_from_gsm_rtc_good Hq.
        good_chain_failed Hq.
      * run_good_source RTC.sync_time_from_gsm_rtc sync_time_from_gsm_rtc_good Hq.
        good_chain_failed Hq.
  - destruct (EXTERNAL_RTC_ENABLED C); cbn [fst snd RetResult_eqb andb negb].
    + run_good_source RTC.sync_time_from_ext_rtc sync_time_from_ext_rtc_good Hq.
      good_chain_failed Hq.
    + good_chain_failed Hq.
Qed.

(* ================================================================== *)
(** * The order of the sources *)
(* ================================================================== *)

Lemma returns_of_app l1 l2 : returns_of (l1 ++ l2) = returns_of l1 ++ returns_of l2.
Proof.
  induction l1 as [| e l1 IH]; [reflexivity |].
  destruct e; cbn [app returns_of]; rewrite ?IH; reflexivity.
Qed.

Lemma Returns_trans l1 l2 a b c :
  Returns l1 a b -> Returns l2 b c -> Returns (l2 ++ l1) a c.
Proof.
  intros (e1 & H1 & R1) (e2 & H2 & R2). exists (e2 ++ e1). split.
  - rewrite H2, H1. apply app_assoc.
  - rewrite returns_of_app, R1, R2. reflexivity.
Qed.

Lemma Body_refl st : Body st st.
Proof. exists []. split; reflexivity. Qed.

Lemma Body_trans a b c : Body a b -> Body b c -> Body a c.
Proof. intros H1 H2. exact (Returns_trans [] [] a b c H1 H2). Qed.

Lemma Body_emit st e : is_return e = false -> Body st (set_trace (e :: trace st) st).
Proof.
  intros He. exists [e]. split; [reflexivity |].
  destruct e; try reflexivity. discriminate.
Qed.

Lemma Body_same_trace st st' : trace st' = trace st -> Body st st'.
Proof. intros H. exists []. split; [exact H | reflexivity]. Qed.

Lemma Body_call {A} e (f : Sys -> A * N) st :
  is_return e = false -> Body st (snd (call e f st)).
Proof.
  intros He. unfold call. destruct (f st) as [a ms]. cbn [snd].
  exists [e]. split; [reflexivity |].
  destruct e; try reflexivity. discriminate.
Qed.

Lemma Body_check_timechange_safe C t st :
  Body st (snd (RTC.check_timechange_safe C t st)).
Proof.
  rewrite check_timechange_safe_state.
  destruct (RTC.tstamp_valid C t && negb (fst (RTC.check_timechange_safe C t st))).
  - apply Body_emit. reflexivity.
  - apply Body_refl.
Qed.

Lemma Body_get_external_rtc_timestamp E st :
  Body st (snd (RTC.get_external_rtc_timestamp E st)).
Proof. unfold RTC.get_external_rtc_timestamp. cbn. apply Body_emit. reflexivity. Qed.

Lemma Body_settimeofday E tv st : Body st (snd (settimeofday E tv st)).
Proof.
  unfold settimeofday. destruct (settimeofday_ok E st tv); cbn [snd].
  - exists [EvSetTimeOfDay tv true]. split; reflexivity.
  - apply Body_emit. reflexivity.
Qed.

Lemma Body_set_system_time E t st : Body st (snd (RTC.set_system_time E t st)).
Proof.
  unfold RTC.set_system_time. unfold_monad.
  destruct (s32 t =? -1); cbn [snd]; [apply Body_refl |].
  pose proof (Body_settimeofday E (s32 t) st) as H.
  destruct (settimeofday E (s32 t) st) as [[|] s]; exact H.
Qed.

Lemma Body_ntp_loop C E tries : forall last st,
  Body st (snd (RTC.ntp_loop C E tries last st)).
Proof.
  induction tries as [| n IH]; intros last st; cbn [RTC.ntp_loop].
  - apply Body_refl.
  - unfold_monad.
    pose proof (Body_call EvNtpUpdate (GSM_update_ntp_time E) st eq_refl) as Hc.
    destruct (call EvNtpUpdate (GSM_update_ntp_time E) st) as [r s]. cbn [snd] in Hc.
    destruct (negb (RetResult_eqb r RET_OK) && negb (Z.of_nat n - 1 =? 0)); cbn [snd].
    + eapply Body_trans; [exact Hc |].
      eapply Body_trans; [| apply IH]. apply Body_same_trace. reflexivity.
    + exact Hc.
Qed.

Lemma Body_get_time_loop C E tries : forall last st,
  Body st (snd (RTC.get_time_loop C E tries last st)).
Proof.
  induction tries as [| n IH]; intros last st; cbn [RTC.get_time_loop].
  - apply Body_refl.
  - unfold_monad.
    pose proof (Body_call EvGsmGetTime (GSM_get_time E) st eq_refl) as Hc.
    destruct (call EvGsmGetTime (GSM_get_time E) st) as [[t |] s]; cbn [snd] in Hc; cbn [snd].
    + exact Hc.
    + destruct (negb (Z.of_nat n - 1 =? 0)); cbn [snd].
      * eapply Body_trans; [exact Hc |].
        eapply Body_trans; [| apply IH]. apply Body_same_trace. reflexivity.
      * exact Hc.
Qed.

Lemma returning_returns fn (m : M RetResult) st :
  Body st (snd (m st)) ->
  Returns [(fn, fst (returning fn m st))] st (snd (returning fn m st)).
Proof.
  intros (evs & Ht & Hr). unfold returning. unfold_monad.
  destruct (m st) as [r s]. cbn [fst snd] in *.
  exists (EvReturn fn r :: evs). split.
  - cbn. rewrite Ht. reflexivity.
  - cbn. rewrite Hr. reflexivity.
Qed.

Lemma sync_time_from_http_returns C E st :
  Returns [(FN_sync_time_from_http, fst (RTC.sync_time_from_http C E st))] st
          (snd (RTC.sync_time_from_http C E st)).
Proof.
  unfold RTC.sync_time_from_http. apply returning_returns. unfold_monad.
  destruct (url_explode E); cbn [snd]; [| apply Body_refl].
  pose proof (Body_call EvHttpGet (http_get E) st eq_refl) as Hc.
  destruct (call EvHttpGet (http_get E) st) as [[body |] s]; cbn [snd] in Hc; cbn [snd];
    [| exact Hc].
  destruct (negb (Z.of_nat (String.length body) =? 10)); cbn [snd]; [exact Hc |].
  match goal with
  | |- context [RTC.check_timechange_safe C ?t s] =>
      pose proof (Body_check_timechange_safe C t s) as Hg;
      destruct (RTC.check_timechange_safe C t s) as [safe s1];
      cbn [snd] in Hg; destruct safe; cbn [negb snd];
      [ exact (Body_trans _ _ _ (Body_trans _ _ _ Hc Hg) (Body_set_system_time E t s1))
      | exact (Body_trans _ _ _ Hc Hg) ]
  end.
Qed.

Lemma sync_time_from_gsm_rtc_returns C E st :
  Returns [(FN_sync_time_from_gsm_rtc, fst (RTC.sync_time_from_gsm_rtc C E st))] st
          (snd (RTC.sync_time_from_gsm_rtc C E st)).
Proof.
  unfold RTC.sync_time_from_gsm_rtc. apply returning_returns. unfold_monad.
  pose proof (Body_get_time_loop C E (GSM_TRIES C) None st) as Hl.
  destruct (RTC.get_time_loop C E (GSM_TRIES C) None st) as [[mk |] s];
    cbn [snd] in Hl; cbn [snd]; [| exact Hl].
  pose proof (Body_check_timechange_safe C (u32 mk) s) as Hg.
  destruct (RTC.check_timechange_safe C (u32 mk) s) as [safe s1].
  cbn [snd] in Hg. destruct safe; cbn [negb snd].
  - exact (Body_trans _ _ _ (Body_trans _ _ _ Hl Hg) (Body_set_system_time E (u32 mk) s1)).
  - exact (Body_trans _ _ _ Hl Hg).
Qed.

Lemma sync_time_from_ext_rtc_returns C E st :
  Returns [(FN_sync_time_from_ext_rtc, fst (RTC.sync_time_from_ext_rtc C E st))] st
          (snd (RTC.sync_time_from_ext_rtc C E st)).
Proof.
  unfold RTC.sync_time_from_ext_rtc. apply returning_returns.
  unfold RTC.print_time. unfold_monad.
  destruct (EXTERNAL_RTC_ENABLED C); cbn [negb snd]; [| apply Body_refl].
  pose proof (Body_get_external_rtc_timestamp E st) as Hr.
  destruct (RTC.get_external_rtc_timestamp E st) as [t s]. cbn [snd] in Hr.
  pose proof (Body_check_timechange_safe C t s) as Hg.
  destruct (RTC.check_timechange_safe C t s) as [safe s1]. cbn [snd] in Hg.
  pose proof (Body_trans _ _ _ Hr Hg) as Hrg.
  destruct safe; cbn [negb snd]; [| exact Hrg].
  pose proof (Body_settimeofday E (s32 t) s1) as Hs.
  destruct (settimeofday E (s32 t) s1) as [ok s2]. cbn [snd] in Hs.
  pose proof (Body_trans _ _ _ Hrg Hs) as Hrgs.
  destruct ok; cbn [negb snd]; [| exact Hrgs].
  pose proof (Body_get_external_rtc_timestamp E s2) as Hp.
  destruct (RTC.get_external_rtc_timestamp E s2) as [t2 s3]. cbn [snd] in *.
  exact (Body_trans _ _ _ Hrgs Hp).
Qed.

Lemma sync_gsm_rtc_from_ntp_returns C E st :
  Returns [(FN_sync_gsm_rtc_from_ntp, fst (RTC.sync_gsm_rtc_from_ntp C E st))] st
          (snd (RTC.sync_gsm_rtc_from_ntp C E st)).
Proof.
  unfold RTC.sync_gsm_rtc_from_ntp. apply returning_returns. apply Body_ntp_loop.
Qed.

Ltac run_returning_source f lem Hq :=
  match goal with
  | |- context [f ?C ?E ?s] =>
      let H := fresh "Hsrc" in
      let r := fresh "r" in
      let s' := fresh "s" in
      pose proof (lem C E s) as H;
      destruct (f C E s) as [r s']; cbn [fst snd] in H;
      apply (Returns_trans _ _ _ _ _ Hq) in H; clear Hq; rename H into Hq;
      cbn [app] in Hq;
      destruct r; cbn [fst snd RetResult_eqb andb negb]
  end.

Ltac chain_done Hq :=
  eexists; split; [exact Hq |]; repeat split; reflexivity.

(** The fall-back chain calls the sources in one of the allowed orders; its
    result is the latest return, and it asks for the external RTC to be
    written exactly when that was a network source succeeding. *)
Lemma try_sources_returns C E reachable st :
  exists l,
    Returns l st (snd (RTC.try_sources C E reachable st)) /\
    chain_allowed (EXTERNAL_RTC_ENABLED C) reachable (rev l) = true /\
    fst (fst (fst (RTC.try_sources C E reachable st))) = latest_result l /\
    snd (fst (RTC.try_sources C E reachable st))
      && RetResult_eqb (fst (fst (fst (RTC.try_sources C E reachable st)))) RET_OK
    = latest_is_network_success l.
Proof.
  unfold RTC.try_sources. unfold_monad.
  assert (Hq : Returns [] st st) by apply Body_refl.
  destruct reachable.
  - run_returning_source RTC.sync_time_from_http sync_time_from_http_returns Hq;
      [chain_done Hq |].
    run_returning_source RTC.sync_gsm_rtc_from_ntp sync_gsm_rtc_from_ntp_returns Hq.
    + run_returning_source RTC.sync_time_from_gsm_rtc sync_time_from_gsm_rtc_returns Hq;
        [chain_done Hq |].
      destruct (EXTERNAL_RTC_ENABLED C) eqn:Hext; cbn [fst snd RetResult_eqb andb negb].
      * run_returning_source RTC.sync_time_from_ext_rtc sync_time_from_ext_rtc_returns Hq;
          [chain_done Hq |].
        run_returning_source RTC.sync_time_from_gsm_rtc sync_time_from_gsm_rtc_returns Hq;
          chain_done Hq.
      * run_returning_source RTC.sync_time_from_gsm_rtc sync_time_from_gsm_rtc_returns Hq;
          chain_done Hq.
    + destruct (EXTERNAL_RTC_ENABLED C) eqn:Hext; cbn [fst snd RetResult_eqb andb negb].
      * run_returning_source RTC.sync_time_from_ext_rtc sync_time_from_ext_rtc_returns Hq;
          [chain_done Hq |].
        run_returning_source RTC.sync_time_from_gsm_rtc sync_time_from_gsm_rtc_returns Hq;
          chain_done Hq.
      * run_returning_source RTC.sync_time_from_gsm_rtc sync_time_from_gsm_rtc_returns Hq;
          chain_done Hq.
  - destruct (EXTERNAL_RTC_ENABLED C) eqn:Hext; cbn [fst snd RetResult_eqb andb negb].
    + run_returning_source RTC.sync_time_from_ext_rtc sync_time_from_ext_rtc_returns Hq;
        chain_done Hq.
    + chain_done Hq.
Qed.

Lemma Good_network_reachable C E st :
  Good C st (snd (RTC.network_reachable E st)).
Proof.
  unfold RTC.network_reachable. unfold_monad.
  destruct (GSM_is_gprs_connected E st); cbn [snd]; [apply Good_refl |].
  pose proof (Good_call C EvGsmConnect (GSM_connect_persist E) st eq_refl) as Hc.
  destruct (call EvGsmConnect (GSM_connect_persist E) st) as [r s]. exact Hc.
Qed.

(** [sync], laid out: the state after each of its steps. *)
Lemma sync_unfold C E enable_safety st :
  let s0 := set_safety enable_safety (set_safety enable_safety st) in
  let s1 := snd (RTC.network_reachable E s0) in
  let res := RTC.try_sources C E (fst (RTC.network_reachable E s0)) s1 in
  let r := fst (fst (fst res)) in
  let ts := snd (fst (fst res)) in
  let upd := snd (fst res) in
  let s2 := snd res in
  let s3 := if EXTERNAL_RTC_ENABLED C && upd && RetResult_eqb r RET_OK
            then snd (RTC.set_external_rtc_time C E (u32 (time_of s2)) s2)
            else s2 in
  let s4 := set_trace (EvLog RTC_SYNC [RTC.get_timestamp_of s0; TIME_SOURCE_value ts]
                         :: trace s3) s3 in
  let s5 := set_last_sync_tick (millis_of s4) s4 in
  let s6 := if RetResult_eqb r RET_OK then snd (RTC.reset_drift_check s5) else s5 in
  RTC.sync C E enable_safety st = (r, set_safety true s6).
Proof.
  unfold RTC.sync. unfold_monad. cbv zeta.
  destruct (RTC.network_reachable E _) as [reachable s1]. cbn [fst snd].
  destruct (RTC.try_sources C E reachable s1) as [[[r ts] upd] s2]. cbn [fst snd].
  destruct (EXTERNAL_RTC_ENABLED C && upd && RetResult_eqb r RET_OK).
  - destruct (RTC.set_external_rtc_time C E (u32 (time_of s2)) s2) as [rw s3].
    cbn [fst snd].
    destruct (RetResult_eqb r RET_OK); [| reflexivity].
    destruct (RTC.reset_drift_check _) as [u s6]. reflexivity.
  - destruct (RetResult_eqb r RET_OK); [| reflexivity].
    destruct (RTC.reset_drift_check _) as [u s6]. reflexivity.
Qed.

Lemma set_external_rtc_time_trace C E t st :
  trace (snd (RTC.set_external_rtc_time C E t st)) =
  EvExtRtcWrite (u32 (t - SECONDS_IN_2000 C)) :: trace st /\
  Frame st (snd (RTC.set_external_rtc_time C E t st)) /\
  boot_epoch_ms (snd (RTC.set_external_rtc_time C E t st)) = boot_epoch_ms st.
Proof.
  unfold RTC.set_external_rtc_time. unfold_monad. cbn.
  match goal with |- context [if ?c then _ else _] => destruct c end;
    cbn; unfold Frame; cbn; repeat split; lia.
Qed.

Lemma Body_network_reachable E st : Body st (snd (RTC.network_reachable E st)).
Proof.
  unfold RTC.network_reachable. unfold_monad.
  destruct (GSM_is_gprs_connected E st); cbn [snd]; [apply Body_refl |].
  pose proof (Body_call EvGsmConnect (GSM_connect_persist E) st eq_refl) as Hc.
  destruct (call EvGsmConnect (GSM_connect_persist E) st) as [r s]. exact Hc.
Qed.

(** Everything known about one pass through the fall-back chain. *)
Lemma try_sources_run C E reachable st :
  exists evs,
    let res := RTC.try_sources C E reachable st in
    let r := fst (fst (fst res)) in
    trace (snd res) = evs ++ trace st /\
    Frame st (snd res) /\
    forallb (source_event_ok C) evs = true /\
    (r = RET_OK -> existsb is_commit evs = true) /\
    chain_allowed (EXTERNAL_RTC_ENABLED C) reachable (rev (returns_of evs)) = true /\
    r = latest_result (returns_of evs) /\
    snd (fst res) && RetResult_eqb r RET_OK = latest_is_network_success (returns_of evs).
Proof.
  pose proof (try_sources_good C E reachable st) as [[HF (evs & Ht & Hok)] Hc].
  pose proof (try_sources_returns C E reachable st)
    as (l & (evs' & Ht' & Hl) & Hall & Hr & Hupd).
  assert (evs' = evs) by (rewrite Ht in Ht'; apply app_inv_tail in Ht'; auto).
  subst evs' l.
  assert (Hc' : fst (fst (fst (RTC.try_sources C E reachable st))) = RET_OK ->
                existsb is_commit evs = true).
  { intros Hok'. destruct (Hc Hok') as (evs2 & Ht2 & Hc2).
    rewrite Ht in Ht2. apply app_inv_tail in Ht2. subst evs2. exact Hc2. }
  exists evs. cbv zeta.
  split; [exact Ht |]. split; [exact HF |]. split; [exact Hok |].
  split; [exact Hc' |]. split; [exact Hall |]. split; [exact Hr | exact Hupd].
Qed.

Lemma network_reachable_run C E st :
  exists evs,
    trace (snd (RTC.network_reachable E st)) = evs ++ trace st /\
    Frame st (snd (RTC.network_reachable E st)) /\
    forallb (source_event_ok C) evs = true /\
    returns_of evs = [].
Proof.
  pose proof (Good_network_reachable C E st) as [HF (evs & Ht & Hok)].
  pose proof (Body_network_reachable E st) as (evs' & Ht' & Hr).
  assert (evs' = evs) by (rewrite Ht in Ht'; apply app_inv_tail in Ht'; auto).
  subst evs'. exists evs.
  split; [exact Ht |]. split; [exact HF |]. split; [exact Hok | exact Hr].
Qed.

(** The events of one [sync], newest first: the log entry, the write-back
    if there is one, what the sources did, and the connection attempt. *)
Lemma sync_run C E enable_safety st :
  exists evs_src evs_net ts now reachable,
    let r := fst (RTC.sync C E enable_safety st) in
    let st' := snd (RTC.sync C E enable_safety st) in
    let wb := if EXTERNAL_RTC_ENABLED C && latest_is_network_success (returns_of evs_src)
              then [EvExtRtcWrite (u32 (u32 now - SECONDS_IN_2000 C))] else [] in
    new_events st st' =
      EvLog RTC_SYNC [RTC.get_timestamp_of st; TIME_SOURCE_value ts]
        :: wb ++ evs_src ++ evs_net /\
    forallb (source_event_ok C) evs_src = true /\
    forallb (source_event_ok C) evs_net = true /\
    returns_of evs_net = [] /\
    (r = RET_OK -> existsb is_commit evs_src = true) /\
    chain_allowed (EXTERNAL_RTC_ENABLED C) reachable (rev (returns_of evs_src)) = true /\
    r = latest_result (returns_of evs_src).
Proof.
  pose proof (sync_unfold C E enable_safety st) as Hs. cbv zeta in Hs.
  set (s0 := set_safety enable_safety (set_safety enable_safety st)) in *.
  pose proof (network_reachable_run C E s0) as (evs_net & Hnet & _ & Pnet & Rnet).
  destruct (RTC.network_reachable E s0) as [reachable s1]. cbn [fst snd] in *.
  pose proof (try_sources_run C E reachable s1) as (evs_src & H).
  cbv zeta in H. destruct H as (Hsrc & _ & Psrc & Hcommit & Hall & Hr & Hupd).
  destruct (RTC.try_sources C E reachable s1) as [[[r ts] upd] s2]. cbn [fst snd] in *.
  exists evs_src, evs_net, ts, (time_of s2), reachable.
  rewrite Hs. cbn [fst snd]. clear Hs.
  assert (Ht0 : trace s0 = trace st) by reflexivity.
  assert (Hts0 : RTC.get_timestamp_of s0 = RTC.get_timestamp_of st) by reflexivity.
  rewrite Hts0, <- andb_assoc, Hupd.
  assert (Htail : forall s3 wb,
             trace s3 = wb ++ trace s2 ->
             new_events st
               (set_safety true
                  (if RetResult_eqb r RET_OK
                   then snd (RTC.reset_drift_check
                          (set_last_sync_tick
                             (millis_of
                                (set_trace
                                   (EvLog RTC_SYNC
                                      [RTC.get_timestamp_of st; TIME_SOURCE_value ts]
                                    :: trace s3) s3))
                             (set_trace
                                (EvLog RTC_SYNC
                                   [RTC.get_timestamp_of st; TIME_SOURCE_value ts]
                                 :: trace s3) s3)))
                   else set_last_sync_tick
                          (millis_of
                             (set_trace
                                (EvLog RTC_SYNC
                                   [RTC.get_timestamp_of st; TIME_SOURCE_value ts]
                                 :: trace s3) s3))
                          (set_trace
                             (EvLog RTC_SYNC
                                [RTC.get_timestamp_of st; TIME_SOURCE_value ts]
                              :: trace s3) s3))) =
             EvLog RTC_SYNC [RTC.get_timestamp_of st; TIME_SOURCE_value ts]
               :: wb ++ evs_src ++ evs_net).
  { intros s3 wb H3. apply new_events_app.
    destruct (RetResult_eqb r RET_OK);
      unfold RTC.reset_drift_check; unfold_monad;
      cbn [snd trace set_safety set_drift_check set_last_sync_tick set_trace];
      rewrite H3, Hsrc, Hnet, Ht0; cbn [app]; rewrite <- !app_assoc; reflexivity. }
  destruct (EXTERNAL_RTC_ENABLED C && latest_is_network_success (returns_of evs_src)).
  - pose proof (set_external_rtc_time_trace C E (u32 (time_of s2)) s2) as (Hwt & _ & _).
    rewrite (Htail _ [EvExtRtcWrite (u32 (u32 (time_of s2) - SECONDS_IN_2000 C))] Hwt).
    split; [reflexivity |]. split; [exact Psrc |]. split; [exact Pnet |].
    split; [exact Rnet |]. split; [exact Hcommit |]. split; [exact Hall | exact Hr].
  - rewrite (Htail s2 [] eq_refl).
    split; [reflexivity |]. split; [exact Psrc |]. split; [exact Pnet |].
    split; [exact Rnet |]. split; [exact Hcommit |]. split; [exact Hall | exact Hr].
Qed.

(* ================================================================== *)
(** * More on the orchestrator *)
(* ================================================================== *)

Lemma source_event_ok_commit_plausible C l :
  forallb (source_event_ok C) l = true -> forallb (commit_plausible C) l = true.
Proof.
  induction l as [| e l IH]; [reflexivity |]. cbn [forallb]. intros H.
  apply andb_true_iff in H as [He Hl]. rewrite (IH Hl), andb_true_r.
  destruct e; try reflexivity; exact He.
Qed.

Lemma source_event_ok_no_write C l :
  forallb (source_event_ok C) l = true -> existsb is_ext_rtc_write l = false.
Proof.
  induction l as [| e l IH]; [reflexivity |]. cbn [forallb existsb]. intros H.
  apply andb_true_iff in H as [He Hl]. rewrite (IH Hl), orb_false_r.
  destruct e; try reflexivity. discriminate.
Qed.

(** X7: whatever the sources answer and whether timechange safety is on or
    off, every [settimeofday] that succeeds during [sync] sets a time that
    is strictly inside the plausibility window. *)
Theorem sync_sets_clock_only_to_plausible_time C E enable_safety st :
  forallb (commit_plausible C)
    (new_events st (snd (RTC.sync C E enable_safety st))) = true.
Proof.
  destruct (sync_run C E enable_safety st) as (evs_src & evs_net & ts & now & b & H).
  cbv zeta in H. destruct H as (Hev & Psrc & Pnet & _).
  rewrite Hev. cbn [forallb commit_plausible].
  rewrite !forallb_app.
  rewrite (source_event_ok_commit_plausible C _ Psrc).
  rewrite (source_event_ok_commit_plausible C _ Pnet).
  destruct (EXTERNAL_RTC_ENABLED C && latest_is_network_success (returns_of evs_src));
    reflexivity.
Qed.

Lemma is_commit_not_benign l :
  forallb benign l = true -> existsb is_commit l = false.
Proof.
  induction l as [| e l IH]; [reflexivity |]. cbn [forallb existsb]. intros H.
  apply andb_true_iff in H as [He Hl]. rewrite (IH Hl), orb_false_r.
  unfold benign in He. destruct (is_commit e); [discriminate | reflexivity].
Qed.

(** X8: [sync] returns [RET_OK] exactly when a [settimeofday] succeeded
    during the run: it never reports success without having set the clock,
    and never sets the clock and reports failure. *)
Theorem sync_succeeds_iff_clock_set C E enable_safety st :
  fst (RTC.sync C E enable_safety st) = RET_OK <->
  existsb is_commit (new_events st (snd (RTC.sync C E enable_safety st))) = true.
Proof.
  split.
  - intros Hr.
    destruct (sync_run C E enable_safety st) as (evs_src & evs_net & ts & now & b & H).
    cbv zeta in H. destruct H as (Hev & _ & _ & _ & Hc & _).
    rewrite Hev. cbn [existsb is_commit]. rewrite !existsb_app, (Hc Hr).
    rewrite orb_true_r. reflexivity.
  - intros Hc.
    destruct (sync_outcome C E enable_safety st) as [[_ [_ (evs & Ht & Hq)]] | [Hr _]];
      [| exact Hr].
    rewrite (new_events_app _ _ _ Ht), (is_commit_not_benign _ Hq) in Hc.
    discriminate.
Qed.

(** X9: a successful [sync] leaves the drift checkpoint at the tick and
    the system time of its return; a failed one leaves the checkpoint as it
    was. *)
Theorem sync_checkpoint C E enable_safety st :
  let r := fst (RTC.sync C E enable_safety st) in
  let st' := snd (RTC.sync C E enable_safety st) in
  (_last_drift_check_tick st', _last_drift_check_tstamp st') =
    if RetResult_eqb r RET_OK
    then (millis_of st', RTC.get_timestamp_of st')
    else (_last_drift_check_tick st, _last_drift_check_tstamp st).
Proof.
  pose proof (sync_unfold C E enable_safety st) as Hs. cbv zeta in *.
  set (s0 := set_safety enable_safety (set_safety enable_safety st)) in *.
  pose proof (Good_network_reachable C E s0) as [Fn _].
  destruct (RTC.network_reachable E s0) as [reachable s1]. cbn [fst snd] in *.
  pose proof (try_sources_good C E reachable s1) as [[Ft _] _].
  destruct (RTC.try_sources C E reachable s1) as [[[r ts] upd] s2]. cbn [fst snd] in *.
  rewrite Hs. cbn [fst snd]. clear Hs.
  pose proof (Frame_trans _ _ _ Fn Ft) as (_ & Htick & Htst & _ & _).
  destruct (RetResult_eqb r RET_OK).
  - unfold RTC.reset_drift_check. unfold_monad. reflexivity.
  - cbn [_last_drift_check_tick _last_drift_check_tstamp set_safety set_last_sync_tick
         set_trace].
    destruct (EXTERNAL_RTC_ENABLED C && upd && false).
    + pose proof (set_external_rtc_time_trace C E (u32 (time_of s2)) s2)
        as (_ & (_ & Hw1 & Hw2 & _) & _).
      rewrite Hw1, Hw2, Htick, Htst. reflexivity.
    + rewrite Htick, Htst. reflexivity.
Qed.

Lemma source_event_ok_filter_write C l :
  forallb (source_event_ok C) l = true -> filter is_ext_rtc_write l = [].
Proof.
  induction l as [| e l IH]; [reflexivity |]. cbn [forallb filter]. intros H.
  apply andb_true_iff in H as [He Hl]. rewrite (IH Hl).
  destruct e; try reflexivity. discriminate.
Qed.

Lemma sync_run_returns C E enable_safety st evs_src evs_net ts wb :
  new_events st (snd (RTC.sync C E enable_safety st)) =
    EvLog RTC_SYNC [RTC.get_timestamp_of st; TIME_SOURCE_value ts]
      :: wb ++ evs_src ++ evs_net ->
  returns_of wb = [] ->
  returns_of evs_net = [] ->
  returns_of (new_events st (snd (RTC.sync C E enable_safety st))) = returns_of evs_src.
Proof.
  intros -> Hwb Hnet. cbn [returns_of].
  rewrite !returns_of_app, Hwb, Hnet, app_nil_r. reflexivity.
Qed.


(** X11: [sync] writes the external RTC exactly when the external RTC is
    enabled and the source that set the clock was the HTTP server or the
    modem clock, and then once; never after a failure, and never when the
    time came from the external RTC itself. *)
Theorem sync_writes_external_rtc_after_network_success C E enable_safety st :
  let evs := new_events st (snd (RTC.sync C E enable_safety st)) in
  List.length (filter is_ext_rtc_write evs) =
    if EXTERNAL_RTC_ENABLED C && latest_is_network_success (returns_of evs)
    then 1%nat else 0%nat.
Proof.
  destruct (sync_run C E enable_safety st) as (evs_src & evs_net & ts & now & b & H).
  cbv zeta in *. destruct H as (Hev & Psrc & Pnet & Rnet & _ & _ & _).
  rewrite (sync_run_returns C E enable_safety st evs_src evs_net ts _ Hev);
    [| destruct (EXTERNAL_RTC_ENABLED C && latest_is_network_success (returns_of evs_src));
       reflexivity
     | exact Rnet].
  rewrite Hev. cbn [filter is_ext_rtc_write].
  rewrite !filter_app.
  rewrite (source_event_ok_filter_write C _ Psrc), (source_event_ok_filter_write C _ Pnet).
  destruct (EXTERNAL_RTC_ENABLED C && latest_is_network_success (returns_of evs_src));
    reflexivity.
Qed.

(* ================================================================== *)
(** * The retry loops *)
(* ================================================================== *)

Lemma ntp_loop_all_fail C E :
  (forall s, fst (GSM_update_ntp_time E s) = RET_ERROR) ->
  forall tries last st,
    exists evs,
      trace (snd (RTC.ntp_loop C E tries last st)) = evs ++ trace st /\
      List.length (filter is_ntp_update evs) = failing_attempts tries /\
      fst (RTC.ntp_loop C E tries last st) =
        match tries with O => last | _ => RET_ERROR end.
Proof.
  intros Hfail.
  assert (Hstep : forall st,
             exists ms, call EvNtpUpdate (GSM_update_ntp_time E) st =
                        (RET_ERROR,
                         set_uptime (uptime_ms st + Z.of_N ms)
                           (set_trace (EvNtpUpdate :: trace st) st))).
  { intros st. unfold call. specialize (Hfail st).
    destruct (GSM_update_ntp_time E st) as [r ms]. cbn [fst] in Hfail. subst r.
    exists ms. reflexivity. }
  assert (H0 : forall last st,
             exists evs,
               trace (snd (RTC.ntp_loop C E 0 last st)) = evs ++ trace st /\
               List.length (filter is_ntp_update evs) = 0%nat /\
               fst (RTC.ntp_loop C E 0 last st) = last).
  { intros last st. exists []. repeat split; reflexivity. }
  assert (H2 : forall k last st,
             exists evs,
               trace (snd (RTC.ntp_loop C E (S (S k)) last st)) = evs ++ trace st /\
               List.length (filter is_ntp_update evs) = S k /\
               fst (RTC.ntp_loop C E (S (S k)) last st) = RET_ERROR).
  { induction k as [| k IH]; intros last st.
    - cbn [RTC.ntp_loop]. unfold_monad.
      destruct (Hstep st) as [ms ->]. cbn.
      exists [EvNtpUpdate]. repeat split; reflexivity.
    - change (RTC.ntp_loop C E (S (S (S k))) last st)
        with ((r <- call EvNtpUpdate (GSM_update_ntp_time E) ;;
               if negb (RetResult_eqb r RET_OK) && negb (Z.of_nat (S (S k)) - 1 =? 0)
               then elapse (GSM_RETRY_DELAY_MS C) ;; RTC.ntp_loop C E (S (S k)) r
               else ret r)%rtc st).
      unfold_monad. destruct (Hstep st) as [ms ->].
      assert (Hne : (Z.of_nat (S (S k)) - 1 =? 0) = false) by (apply Z.eqb_neq; lia).
      rewrite Hne. cbn [RetResult_eqb negb andb].
      match goal with
      | |- context [RTC.ntp_loop C E (S (S k)) RET_ERROR ?s] =>
          destruct (IH RET_ERROR s) as (evs & Ht & Hn & Hr);
          destruct (RTC.ntp_loop C E (S (S k)) RET_ERROR s) as [r s'] eqn:Hrun
      end.
      cbn [fst snd] in *. exists (evs ++ [EvNtpUpdate]). split; [| split].
      + rewrite Ht. cbn [trace set_uptime set_trace]. rewrite <- app_assoc. reflexivity.
      + rewrite filter_app, length_app, Hn. cbn. lia.
      + exact Hr. }
  intros [| [| k]] last st.
  - apply H0.
  - cbn [RTC.ntp_loop]. unfold_monad. destruct (Hstep st) as [ms ->]. cbn.
    exists [EvNtpUpdate]. repeat split; reflexivity.
  - apply H2.
Qed.

(** X12: when every NTP update fails, [sync_gsm_rtc_from_ntp] returns
    [RET_ERROR] after [GSM_TRIES - 1] calls to the modem (one call when
    [GSM_TRIES] is 1, none when it is 0): the loop gives up one round
    before the counter runs out. *)
Theorem sync_gsm_rtc_from_ntp_attempts C E st :
  (forall s, fst (GSM_update_ntp_time E s) = RET_ERROR) ->
  fst (RTC.sync_gsm_rtc_from_ntp C E st) = RET_ERROR /\
  List.length (filter is_ntp_update
                 (new_events st (snd (RTC.sync_gsm_rtc_from_ntp C E st)))) =
    failing_attempts (GSM_TRIES C).
Proof.
  intros Hfail. unfold RTC.sync_gsm_rtc_from_ntp, returning. unfold_monad.
  destruct (ntp_loop_all_fail C E Hfail (GSM_TRIES C) RET_ERROR st) as (evs & Ht & Hn & Hr).
  destruct (RTC.ntp_loop C E (GSM_TRIES C) RET_ERROR st) as [r s]. cbn [fst snd] in *.
  split.
  - rewrite Hr. destruct (GSM_TRIES C); reflexivity.
  - rewrite (new_events_app st _ (EvReturn FN_sync_gsm_rtc_from_ntp r :: evs)).
    + cbn [filter is_ntp_update]. exact Hn.
    + cbn [trace set_trace]. rewrite Ht. reflexivity.
Qed.

Lemma sync_gsm_rtc_from_ntp_attempts_witness :
  let C := Sample.config true in
  let E := Sample.env true None 0%N None 0 in
  let st := Sample.state 6000 1600000000 0 0 0 true in
  fst (RTC.sync_gsm_rtc_from_ntp C E st) = RET_ERROR /\
  List.length (filter is_ntp_update
                 (new_events st (snd (RTC.sync_gsm_rtc_from_ntp C E st)))) = 2%nat.
Proof.
  intros C E st.
  apply (sync_gsm_rtc_from_ntp_attempts C E st). intros s. reflexivity.
Defined.

Lemma get_time_loop_all_fail C E :
  (forall s, fst (GSM_get_time E s) = None) ->
  forall tries last st,
    exists evs,
      trace (snd (RTC.get_time_loop C E tries last st)) = evs ++ trace st /\
      List.length (filter is_gsm_get_time evs) = failing_attempts tries /\
      evs = filter is_gsm_get_time evs /\
      fst (RTC.get_time_loop C E tries last st) =
        match tries with O => last | _ => None end.
Proof.
  intros Hfail.
  assert (Hstep : forall st,
             exists ms, call EvGsmGetTime (GSM_get_time E) st =
                        (None,
                         set_uptime (uptime_ms st + Z.of_N ms)
                           (set_trace (EvGsmGetTime :: trace st) st))).
  { intros st. unfold call. specialize (Hfail st).
    destruct (GSM_get_time E st) as [r ms]. cbn [fst] in Hfail. subst r.
    exists ms. reflexivity. }
  assert (H2 : forall k last st,
             exists evs,
               trace (snd (RTC.get_time_loop C E (S (S k)) last st)) = evs ++ trace st /\
               List.length (filter is_gsm_get_time evs) = S k /\
               evs = filter is_gsm_get_time evs /\
               fst (RTC.get_time_loop C E (S (S k)) last st) = None).
  { induction k as [| k IH]; intros last st.
    - cbn [RTC.get_time_loop]. unfold_monad.
      destruct (Hstep st) as [ms ->]. cbn.
      exists [EvGsmGetTime]. repeat split; reflexivity.
    - change (RTC.get_time_loop C E (S (S (S k))) last st)
        with ((r <- call EvGsmGetTime (GSM_get_time E) ;;
               match r with
               | None =>
                   if negb (Z.of_nat (S (S k)) - 1 =? 0)
                   then elapse (GSM_RETRY_DELAY_MS C) ;; RTC.get_time_loop C E (S (S k)) None
                   else ret None
               | Some t => ret (Some t)
               end)%rtc st).
      unfold_monad. destruct (Hstep st) as [ms ->].
      assert (Hne : (Z.of_nat (S (S k)) - 1 =? 0) = false) by (apply Z.eqb_neq; lia).
      rewrite Hne. cbn [negb].
      match goal with
      | |- context [RTC.get_time_loop C E (S (S k)) None ?s] =>
          destruct (IH None s) as (evs & Ht & Hn & Hall & Hr);
          destruct (RTC.get_time_loop C E (S (S k)) None s) as [r s'] eqn:Hrun
      end.
      cbn [fst snd] in *. exists (evs ++ [EvGsmGetTime]). split; [| split; [| split]].
      + rewrite Ht. cbn [trace set_uptime set_trace]. rewrite <- app_assoc. reflexivity.
      + rewrite filter_app, length_app, Hn. cbn. lia.
      + rewrite filter_app. cbn. rewrite <- Hall. reflexivity.
      + exact Hr. }
  intros [| [| k]] last st.
  - exists []. repeat split; reflexivity.
  - cbn [RTC.get_time_loop]. unfold_monad. destruct (Hstep st) as [ms ->]. cbn.
    exists [EvGsmGetTime]. repeat split; reflexivity.
  - apply H2.
Qed.

(** X13: when the modem never hands out its time, [sync_time_from_gsm_rtc]
    returns [RET_ERROR] after [GSM_TRIES - 1] reads (one when [GSM_TRIES]
    is 1, none when it is 0) and does nothing else: no candidate reaches
    the gate or the clock. *)
Theorem sync_time_from_gsm_rtc_attempts C E st :
  (forall s, fst (GSM_get_time E s) = None) ->
  let st' := snd (RTC.sync_time_from_gsm_rtc C E st) in
  fst (RTC.sync_time_from_gsm_rtc C E st) = RET_ERROR /\
  new_events st st' =
    EvReturn FN_sync_time_from_gsm_rtc RET_ERROR
      :: repeat EvGsmGetTime (failing_attempts (GSM_TRIES C)) /\
  boot_epoch_ms st' = boot_epoch_ms st.
Proof.
  intros Hfail st'. subst st'.
  unfold RTC.sync_time_from_gsm_rtc, returning. unfold_monad.
  destruct (get_time_loop_all_fail C E Hfail (GSM_TRIES C) None st)
    as (evs & Ht & Hn & Hall & Hr).
  pose proof (Quiet_get_time_loop C E (GSM_TRIES C) None st) as [Hb _].
  destruct (RTC.get_time_loop C E (GSM_TRIES C) None st) as [r s]. cbn [fst snd] in *.
  assert (Hnone : r = None) by (rewrite Hr; destruct (GSM_TRIES C); reflexivity).
  clear Hr. subst r. cbn [fst snd].
  assert (Hrep : evs = repeat EvGsmGetTime (failing_attempts (GSM_TRIES C))).
  { rewrite <- Hn. rewrite Hall at 1. clear.
    induction evs as [| e evs IH]; [reflexivity |].
    destruct e; cbn [filter is_gsm_get_time List.length repeat]; try exact IH.
    f_equal. exact IH. }
  split; [reflexivity |]. split; [| exact Hb].
  rewrite (new_events_app st _ (EvReturn FN_sync_time_from_gsm_rtc RET_ERROR :: evs)).
  - rewrite Hrep at 1. reflexivity.
  - cbn [trace set_trace]. rewrite Ht. reflexivity.
Qed.

Lemma sync_time_from_gsm_rtc_attempts_witness :
  let C := Sample.config true in
  let E := Sample.env true None 0%N None 0 in
  let st := Sample.state 6000 1600000000 0 0 0 true in
  new_events st (snd (RTC.sync_time_from_gsm_rtc C E st)) =
    [EvReturn FN_sync_time_from_gsm_rtc RET_ERROR; EvGsmGetTime; EvGsmGetTime].
Proof.
  intros C E st.
  refine (proj1 (proj2 (sync_time_from_gsm_rtc_attempts C E st _))).
  intros s. reflexivity.
Defined.

(* ================================================================== *)
(** * Setting the clock *)
(* ================================================================== *)

Lemma time_after_set tv u : (tv * 1000 - u + u) / 1000 = tv.
Proof. replace (tv * 1000 - u + u) with (tv * 1000) by ring. apply Z.div_mul. lia. Qed.

Lemma set_system_time_spec E t st :
  let r := fst (RTC.set_system_time E t st) in
  let st' := snd (RTC.set_system_time E t st) in
  r = (if negb (s32 t =? -1) && settimeofday_ok E st (s32 t) then RET_OK else RET_ERROR) /\
  (if RetResult_eqb r RET_OK
   then time_of st' = s32 t
   else boot_epoch_ms st' = boot_epoch_ms st).
Proof.
  unfold RTC.set_system_time, settimeofday. unfold_monad.
  destruct (s32 t =? -1); cbn [negb andb fst snd RetResult_eqb].
  - split; reflexivity.
  - destruct (settimeofday_ok E st (s32 t)); cbn [fst snd RetResult_eqb].
    + split; [reflexivity |]. unfold time_of. cbn. apply time_after_set.
    + split; reflexivity.
Qed.

(** X14: [set_system_time] succeeds exactly when the timestamp is not -1 as
    a [time_t] and [settimeofday] accepts it; the system clock then reads
    that timestamp, and otherwise keeps its setting. *)
Theorem set_system_time_result E t st :
  let r := fst (RTC.set_system_time E t st) in
  let st' := snd (RTC.set_system_time E t st) in
  r = (if negb (s32 t =? -1) && settimeofday_ok E st (s32 t) then RET_OK else RET_ERROR) /\
  (if RetResult_eqb r RET_OK
   then time_of st' = s32 t
   else boot_epoch_ms st' = boot_epoch_ms st).
Proof. exact (set_system_time_spec E t st). Qed.

(* ================================================================== *)
(** * More on the HTTP source *)
(* ================================================================== *)

(** The events between two states whose traces are written out. *)
Ltac explicit_events t base :=
  match t with
  | base => constr:(@nil Event)
  | ?e :: ?r => let r' := explicit_events r base in constr:(e :: r')
  end.

Ltac compute_new_events :=
  match goal with
  | |- context [new_events ?st ?st'] =>
      let t := eval cbn [trace set_trace set_uptime set_boot_epoch set_last_sync_tick
                         set_drift_check set_safety] in (trace st') in
      let evs := explicit_events t (trace st) in
      rewrite (new_events_app st st' evs) by reflexivity
  end.

(** X15: [sync_time_from_http] issues one GET when the configured URL can
    be taken apart and none when it cannot, whatever happens afterwards. *)
Theorem sync_time_from_http_single_get C E st :
  List.length (filter is_http_get
                 (new_events st (snd (RTC.sync_time_from_http C E st)))) =
    match url_explode E with
    | RET_OK => 1%nat
    | RET_ERROR => 0%nat
    end.
Proof.
  unfold RTC.sync_time_from_http, returning, call. unfold_monad.
  destruct (url_explode E); cbn [fst snd]; [| compute_new_events; reflexivity].
  destruct (http_get E st) as [[body |] ms]; cbn [fst snd];
    [| compute_new_events; reflexivity].
  destruct (negb (Z.of_nat (String.length body) =? 10)); cbn [fst snd];
    [compute_new_events; reflexivity |].
  match goal with
  | |- context [RTC.check_timechange_safe C ?t ?s] =>
      pose proof (check_timechange_safe_state C s t) as Heff;
      destruct (RTC.check_timechange_safe C t s) as [safe s1];
      cbn [fst snd] in Heff; subst s1;
      destruct (RTC.tstamp_valid C t && negb safe);
      destruct safe; cbn [negb fst snd];
      try (compute_new_events; reflexivity);
      unfold RTC.set_system_time, settimeofday; unfold_monad;
      destruct (s32 t =? -1); cbn [fst snd];
      try (compute_new_events; reflexivity);
      match goal with
      | |- context [settimeofday_ok E ?s' ?tv] =>
          destruct (settimeofday_ok E s' tv); cbn [fst snd];
          compute_new_events; reflexivity
      end
  end.
Qed.

(** X16: when [sync_time_from_http] returns [RET_OK], the body had ten
    characters, the parsed value less the latency offset is inside the
    plausibility window, and the system clock reads exactly that value. *)
Theorem sync_time_from_http_success C E st body ms :
  url_explode E = RET_OK ->
  http_get E st = (Some body, ms) ->
  fst (RTC.sync_time_from_http C E st) = RET_OK ->
  let candidate :=
    RTC.compensate (millis_of st) (u32 (uptime_ms st + Z.of_N ms)) (Libc.sscanf_u body 0) in
  String.length body = 10%nat /\
  RTC.tstamp_valid C candidate = true /\
  time_of (snd (RTC.sync_time_from_http C E st)) = s32 candidate.
Proof.
  intros Hurl Hget. unfold RTC.sync_time_from_http, returning, call. unfold_monad.
  rewrite Hurl, Hget. cbn [fst snd].
  change (millis_of (set_uptime (uptime_ms st + Z.of_N ms)
                       (set_trace (EvHttpGet :: trace st) st)))
    with (u32 (uptime_ms st + Z.of_N ms)).
  destruct (Z.eqb_spec (Z.of_nat (String.length body)) 10) as [Hlen | Hlen];
    cbn [negb fst snd]; [| discriminate].
  set (candidate := RTC.compensate (millis_of st) (u32 (uptime_ms st + Z.of_N ms))
                      (Libc.sscanf_u body 0)).
  match goal with
  | |- context [RTC.check_timechange_safe C candidate ?s] =>
      pose proof (check_timechange_safe_valid C candidate s) as Hv;
      destruct (RTC.check_timechange_safe C candidate s) as [safe s1]
  end.
  cbn [fst snd] in Hv. destruct safe; cbn [negb fst snd]; [| discriminate].
  pose proof (set_system_time_spec E candidate s1) as [Hr Ht]. cbv zeta in Hr, Ht.
  destruct (RTC.set_system_time E candidate s1) as [r s2]. cbn [fst snd] in *.
  clear Hr. intros Hok. subst r. cbn [RetResult_eqb] in Ht.
  split; [lia |]. split; [auto |]. exact Ht.
Qed.

Lemma sync_time_from_http_success_witness :
  let C := Sample.config true in
  let E := Sample.env true (Some "1600000010"%string) 2500%N None 0 in
  let st := Sample.state 6000 1600000005 0 0 0 true in
  time_of (snd (RTC.sync_time_from_http C E st)) = 1600000007.
Proof.
  intros C E st.
  refine (proj2 (proj2 (sync_time_from_http_success C E st "1600000010"%string 2500%N
                          eq_refl eq_refl _))).
  vm_compute. reflexivity.
Defined.

(* ================================================================== *)
(** * The external RTC as a source, and initialisation *)
(* ================================================================== *)

(** X17: with timechange safety switched off, as [setup] does around its
    first read, [sync_time_from_ext_rtc] takes the value of the chip as
    soon as it is plausible, however far it is from the system clock: it
    succeeds exactly when the value is inside the window and
    [settimeofday] accepts it, and the clock then reads that value. *)
Theorem sync_time_from_ext_rtc_forced C E st :
  _timechange_safety_enabled st = false ->
  EXTERNAL_RTC_ENABLED C = true ->
  let t := u32 (ext_rtc_epoch E st) in
  let s1 := set_trace (EvExtRtcRead t :: trace st) st in
  let r := fst (RTC.sync_time_from_ext_rtc C E st) in
  let st' := snd (RTC.sync_time_from_ext_rtc C E st) in
  r = (if RTC.tstamp_valid C t && settimeofday_ok E s1 (s32 t) then RET_OK else RET_ERROR) /\
  (if RetResult_eqb r RET_OK
   then time_of st' = s32 t
   else boot_epoch_ms st' = boot_epoch_ms st).
Proof.
  intros Hs Hext t s1.
  unfold RTC.sync_time_from_ext_rtc, returning, RTC.print_time,
    RTC.get_external_rtc_timestamp. unfold_monad.
  rewrite Hext. cbn [negb fst snd]. fold t. fold s1.
  assert (Hg : RTC.check_timechange_safe C t s1 = (RTC.tstamp_valid C t, s1)).
  { unfold RTC.check_timechange_safe. unfold_monad.
    destruct (RTC.tstamp_valid C t); cbn [negb]; [| reflexivity].
    change (_timechange_safety_enabled s1) with (_timechange_safety_enabled st).
    rewrite Hs. reflexivity. }
  rewrite Hg.
  destruct (RTC.tstamp_valid C t); cbn [negb andb fst snd RetResult_eqb];
    [| split; reflexivity].
  unfold settimeofday.
  destruct (settimeofday_ok E s1 (s32 t)); cbn [negb fst snd RetResult_eqb].
  - split; [reflexivity |]. unfold time_of. cbn. apply time_after_set.
  - split; reflexivity.
Qed.

Lemma sync_time_from_ext_rtc_forced_witness :
  let C := Sample.config true in
  let E := Sample.env false None 0%N None 1700000000 in
  let st := Sample.state 6000 12 0 0 0 false in
  fst (RTC.sync_time_from_ext_rtc C E st) = RET_OK.
Proof.
  intros C E st.
  exact (proj1 (sync_time_from_ext_rtc_forced C E st eq_refl eq_refl)).
Defined.

(** X18: [init] reports [RET_ERROR] exactly when the external RTC is
    enabled and its date is not valid, and in every case takes the drift
    checkpoint at the current tick and system time, leaving the clock
    alone. *)
Theorem init_result C E st :
  let r := fst (RTC.init C E st) in
  let st' := snd (RTC.init C E st) in
  r = (if EXTERNAL_RTC_ENABLED C && negb (ext_rtc_is_date_time_valid E st)
       then RET_ERROR else RET_OK) /\
  _last_drift_check_tick st' = millis_of st /\
  _last_drift_check_tstamp st' = RTC.get_timestamp_of st /\
  boot_epoch_ms st' = boot_epoch_ms st.
Proof.
  unfold RTC.init, RTC.init_external_rtc, RTC.reset_drift_check,
    RTC.get_external_rtc_timestamp. unfold_monad.
  destruct (EXTERNAL_RTC_ENABLED C); cbn [andb fst snd]; [| repeat split; reflexivity].
  destruct (ext_rtc_is_date_time_valid E st); cbn [negb fst snd];
    [| repeat split; reflexivity].
  destruct (ext_rtc_is_running E st); cbn [negb fst snd]; repeat split; reflexivity.
Qed.

(* ================================================================== *)
(** * The wake-up self test (src/src/main.cpp) *)
(* ================================================================== *)

Lemma detect_drift_state C E st :
  snd (RTC.detect_drift C E st) =
    if EXTERNAL_RTC_ENABLED C
    then set_trace (EvExtRtcRead (u32 (ext_rtc_epoch E st)) :: trace st) st
    else st.
Proof.
  unfold RTC.detect_drift, RTC.get_external_rtc_timestamp. unfold_monad.
  destruct (EXTERNAL_RTC_ENABLED C); cbn [negb fst snd]; [| reflexivity].
  repeat match goal with
         | |- context [if ?c then _ else _] => destruct c
         end; reflexivity.
Qed.

(** X19: when the system time is plausible and [detect_drift] does not
    return a positive number -- no drift, or the external RTC behind the
    ticks, which gives a negative number -- [wakeup_self_test] returns
    [RET_OK] having done nothing but the one read of the chip that
    [detect_drift] makes: the modem is not switched on and no sync runs. *)
Theorem wakeup_self_test_no_resync C E default_safety st :
  RTC.tstamp_valid C (RTC.get_timestamp_of st) = true ->
  fst (RTC.detect_drift C E st) <= 0 ->
  Main.wakeup_self_test C E default_safety st =
    (RET_OK,
     if EXTERNAL_RTC_ENABLED C
     then set_trace (EvExtRtcRead (u32 (ext_rtc_epoch E st)) :: trace st) st
     else st).
Proof.
  intros Hv Hd. unfold Main.wakeup_self_test. unfold_monad.
  pose proof (detect_drift_state C E st) as Hst.
  destruct (RTC.detect_drift C E st) as [drift s]. cbn [fst snd] in *. subst s.
  assert (Hts : RTC.get_timestamp_of
                  (if EXTERNAL_RTC_ENABLED C
                   then set_trace (EvExtRtcRead (u32 (ext_rtc_epoch E st)) :: trace st) st
                   else st) = RTC.get_timestamp_of st)
    by (destruct (EXTERNAL_RTC_ENABLED C); reflexivity).
  rewrite Hts, Hv. cbn [negb orb].
  assert (Hz : (0 <? drift) = false) by (apply Z.ltb_ge; exact Hd).
  rewrite Hz. reflexivity.
Qed.

Lemma wakeup_self_test_no_resync_witness :
  let C := Sample.config true in
  let E := Sample.env false None 0%N None 1600000100 in
  let st := Sample.state 201000 1600000200 0 1600000000 1000 true in
  fst (RTC.detect_drift C E st) = -100 /\
  fst (Main.wakeup_self_test C E true st) = RET_OK.
Proof.
  intros C E st. split; [vm_compute; reflexivity |].
  rewrite (wakeup_self_test_no_resync C E true st); [reflexivity | reflexivity |].
  vm_compute. discriminate.
Defined.

(** X20: [wakeup_self_test] returns [RET_ERROR] exactly when the last thing
    it did was to log [WAKEUP_SELF_TEST_FAILED]. *)
Theorem wakeup_self_test_failure_logged C E default_safety st :
  let r := fst (Main.wakeup_self_test C E default_safety st) in
  let st' := snd (Main.wakeup_self_test C E default_safety st) in
  r = RET_ERROR <->
  hd_error (new_events st st') = Some (EvLog WAKEUP_SELF_TEST_FAILED []).
Proof.
  unfold Main.wakeup_self_test. unfold_monad.
  pose proof (detect_drift_state C E st) as Hst.
  destruct (RTC.detect_drift C E st) as [drift s0]. cbn [fst snd] in *.
  assert (Hx0 : Extends st s0).
  { subst s0. destruct (EXTERNAL_RTC_ENABLED C);
      [exists [EvExtRtcRead (u32 (ext_rtc_epoch E st))]; reflexivity | apply Extends_refl]. }
  destruct (negb (RTC.tstamp_valid C (RTC.get_timestamp_of s0)) || (0 <? drift));
    cbn [fst snd].
  - pose proof (Quiet_Extends _ _ (Quiet_call EvGsmOn (GSM_on E) s0 eq_refl)) as Hx1.
    destruct (call EvGsmOn (GSM_on E) s0) as [r_on s1]. cbn [fst snd] in *.
    set (m := if 0 <? drift then _ else _).
    assert (Hx2 : Extends s1 (snd (m s1))).
    { subst m. destruct (0 <? drift).
      - unfold RTC.get_external_rtc_timestamp. unfold_monad. cbn.
        exists [EvLog RTC_DRIFT_DETECTED [drift; u32 (ext_rtc_epoch E s1)];
                EvExtRtcRead (u32 (ext_rtc_epoch E s1))]. reflexivity.
      - apply Extends_refl. }
    destruct (m s1) as [[] s2]. cbn [fst snd] in *.
    assert (Hx3 : Extends s2 (snd (RTC.sync C E default_safety s2))).
    { destruct (sync_outcome C E default_safety s2) as [[_ H] | [_ H]];
        [exact (Quiet_Extends _ _ H) | exact (Loud_Extends _ _ H)]. }
    destruct (RTC.sync C E default_safety s2) as [r_sync s3]. cbn [fst snd] in *.
    pose proof (Extends_trans _ _ _ (Extends_trans _ _ _ (Extends_trans _ _ _ Hx0 Hx1) Hx2) Hx3)
      as [evs Hevs].
    destruct r_sync; cbn [RetResult_eqb fst snd negb].
    + unfold RTC.print_time, RTC.get_external_rtc_timestamp. unfold_monad.
      cbn [fst snd].
      destruct r_on; cbn [RetResult_eqb negb fst snd].
      * rewrite (new_events_app st _ (EvExtRtcRead (u32 (ext_rtc_epoch E s3)) :: evs))
          by (cbn; rewrite Hevs; reflexivity).
        cbn. split; discriminate.
      * rewrite (new_events_app st _
                   (EvLog WAKEUP_SELF_TEST_FAILED []
                      :: EvExtRtcRead (u32 (ext_rtc_epoch E s3)) :: evs))
          by (cbn; rewrite Hevs; reflexivity).
        cbn. split; reflexivity.
    + rewrite (new_events_app st _ (EvLog WAKEUP_SELF_TEST_FAILED [] :: evs))
        by (cbn; rewrite Hevs; reflexivity).
      cbn. split; reflexivity.
  - destruct Hx0 as [evs Hevs]. rewrite (new_events_app st s0 evs Hevs).
    split; [discriminate |].
    subst s0. destruct (EXTERNAL_RTC_ENABLED C).
    + cbn in Hevs.
      assert (evs = [EvExtRtcRead (u32 (ext_rtc_epoch E st))]) as ->.
      { apply (app_inv_tail (trace st)). rewrite <- Hevs. reflexivity. }
      cbn. discriminate.
    + assert (evs = []) as ->.
      { apply (app_inv_tail (trace st)). rewrite <- Hevs. reflexivity. }
      cbn. discriminate.
Qed.

(* ================================================================== *)
(** * Bringing the clock up at boot (src/src/main.cpp, [setup]) *)
(* ================================================================== *)

Lemma init_fields C E st :
  let st' := snd (RTC.init C E st) in
  _last_sync_tick st' = _last_sync_tick st /\
  _last_drift_check_tick st' = millis_of st /\
  _last_drift_check_tstamp st' = RTC.get_timestamp_of st.
Proof.
  unfold RTC.init, RTC.init_external_rtc, RTC.reset_drift_check,
    RTC.get_external_rtc_timestamp. unfold_monad.
  repeat match goal with
         | |- context [if ?c then _ else _] => destruct c; cbn [negb fst snd]
         end; repeat split; reflexivity.
Qed.

(** X21: after the four statements with which [setup] brings the clock up,
    timechange safety is on again, and the drift checkpoint is the one
    [init] took before the external RTC was read into the system clock:
    the tick and the system time at entry.  Setting the clock from the
    external RTC here moves neither the checkpoint nor [_last_sync_tick]. *)
Theorem setup_rtc_state C E st :
  let st' := snd (Main.setup_rtc C E st) in
  _timechange_safety_enabled st' = true /\
  _last_drift_check_tick st' = millis_of st /\
  _last_drift_check_tstamp st' = RTC.get_timestamp_of st /\
  _last_sync_tick st' = _last_sync_tick st.
Proof.
  unfold Main.setup_rtc, RTC.enable_timechange_safety. unfold_monad.
  pose proof (init_fields C E st) as (H1 & H2 & H3). cbv zeta in H1, H2, H3.
  destruct (RTC.init C E st) as [r0 s0]. cbn [fst snd] in *.
  pose proof (sync_time_from_ext_rtc_good C E (set_safety false s0)) as [[HF _] _].
  destruct (RTC.sync_time_from_ext_rtc C E (set_safety false s0)) as [r1 s1].
  cbn [fst snd] in *.
  destruct HF as (F1 & F2 & F3 & _ & _). cbn in F1, F2, F3.
  cbn. split; [reflexivity |]. split; [congruence |]. split; congruence.
Qed.

(* ================================================================== *)
(** * The log entry of a sync, and the NTP trigger *)
(* ================================================================== *)

(** X22: every run of [sync], successful or not, ends its events with one
    [RTC_SYNC] log entry, and the timestamp in the entry is the system time
    read at entry, before any source was tried. *)
Theorem sync_logs_time_at_entry C E enable_safety st :
  exists ts rest,
    new_events st (snd (RTC.sync C E enable_safety st)) =
      EvLog RTC_SYNC [RTC.get_timestamp_of st; TIME_SOURCE_value ts] :: rest.
Proof.
  destruct (sync_run C E enable_safety st) as (evs_src & evs_net & ts & now & reachable & H).
  cbv zeta in H. destruct H as (Hev & _).
  exists ts. eexists. exact Hev.
Qed.

(** X23: [sync_gsm_rtc_from_ntp] only asks the modem to update its own
    clock: whatever it returns, the system clock keeps its setting, the
    external RTC is not written, and nothing in its events counts as a
    clock-setting success. *)
Theorem sync_gsm_rtc_from_ntp_sets_no_clock C E st :
  let st' := snd (RTC.sync_gsm_rtc_from_ntp C E st) in
  boot_epoch_ms st' = boot_epoch_ms st /\
  forallb benign (new_events st st') = true.
Proof.
  destruct (Quiet_sync_gsm_rtc_from_ntp C E st) as [Hb (evs & Ht & Hf)].
  cbv zeta. split; [exact Hb |].
  rewrite (new_events_app _ _ _ Ht). exact Hf.
Qed.
